(** * Snapshot_For_Debug: the container snapshot script, embedded in Rocq

    A shallow embedding of [src/helper_functions.py] and
    [src/gather_info_docker.py].  The script is procedural glue over the
    operating system, so the embedding consists of

    - a model of what the script touches: a directory tree, the working
      directory, the environment, the effective user id, the terminal and the
      log of the commands handed to [/bin/bash];
    - a small state-and-exception monad in which the Python functions are
      written statement by statement;
    - the Python functions themselves, under their source names.

    What [/bin/bash] does with a command line is not part of the script: it is
    a parameter [bash] of the development.  Theorems hold for every [bash];
    [ReferenceShell.bash_model] is one instance used to run the script on
    concrete machines. *)

From Stdlib Require Import List String Ascii ZArith Bool Lia.
Import ListNotations.
Open Scope string_scope.
Open Scope list_scope.

Set Implicit Arguments.

(** String concatenation, Python's [+] on [str]; [++] stays list append. *)
Infix "+++" := String.append (right associativity, at level 60).

(* ===================================================================== *)
(** * Strings *)
(* ===================================================================== *)

Module Str.

Definition slash : ascii := "/"%char.
Definition dot : ascii := "."%char.

(** [s.split(sep)]: the pieces of [s] between occurrences of [sep]; always
    at least one piece. *)
Fixpoint split (sep : ascii) (s : string) : list string :=
  match s with
  | EmptyString => [""]
  | String c rest =>
      if Ascii.eqb c sep then "" :: split sep rest
      else match split sep rest with
           | [] => [String c ""]
           | piece :: pieces => String c piece :: pieces
           end
  end.

(** [sep.join(l)] *)
Fixpoint join (sep : string) (l : list string) : string :=
  match l with
  | [] => ""
  | [x] => x
  | x :: rest => x +++ sep +++ join sep rest
  end.

Definition starts_with (p s : string) : bool := String.prefix p s.

(** The newline character, Python's ["\n"]. *)
Definition nl : string := String (ascii_of_nat 10) "".

(** [c * n] for a one-character string [c]. *)
Fixpoint repeat (c : string) (n : nat) : string :=
  match n with
  | O => ""
  | S k => c +++ repeat c k
  end.

Fixpoint rev_acc (s acc : string) : string :=
  match s with
  | EmptyString => acc
  | String c rest => rev_acc rest (String c acc)
  end.

Definition rev (s : string) : string := rev_acc s "".

Fixpoint contains (c : ascii) (s : string) : bool :=
  match s with
  | EmptyString => false
  | String d rest => Ascii.eqb c d || contains c rest
  end.

(** The words of [s]: maximal runs of characters other than a space. *)
Definition words (s : string) : list string :=
  filter (fun t => negb (String.eqb t "")) (split " "%char s).

End Str.

(* ===================================================================== *)
(** * Paths: [os.path] and [pathlib] *)
(* ===================================================================== *)

(** A [pathlib.Path] that went through [resolve()] is absolute and
    normalised: the list of its components below the root. *)
Definition path := list string.

Module OsPath.

(** [os.path.basename(p)]: what follows the last slash. *)
Definition basename (p : string) : string :=
  last (Str.split Str.slash p) "".

(** [os.path.dirname(p)]: what precedes the last slash, without trailing
    slashes unless it consists of nothing else. *)
Fixpoint strip_trailing_slashes_rev (r : string) : string :=
  match r with
  | String c rest =>
      if Ascii.eqb c Str.slash then strip_trailing_slashes_rev rest else r
  | EmptyString => EmptyString
  end.

Fixpoint drop_to_slash_rev (r : string) : string :=
  match r with
  | String c rest => if Ascii.eqb c Str.slash then r else drop_to_slash_rev rest
  | EmptyString => EmptyString
  end.

Definition dirname (p : string) : string :=
  let head_rev := drop_to_slash_rev (Str.rev p) in
  match strip_trailing_slashes_rev head_rev with
  | EmptyString => Str.rev head_rev
  | stripped => Str.rev stripped
  end.

(** [os.path.splitext(p)[0]]: [p] without its extension.  The extension
    starts at the last dot of the last component, leading dots of that
    component not counting. *)
Fixpoint skip_dots (s : string) : string * string :=
  match s with
  | String c rest =>
      if Ascii.eqb c Str.dot
      then let '(dots, body) := skip_dots rest in (String c dots, body)
      else ("", s)
  | EmptyString => ("", "")
  end.

Definition splitext_root (p : string) : string :=
  let comps := Str.split Str.slash p in
  let name := last comps "" in
  let '(dots, body) := skip_dots name in
  let pieces := Str.split Str.dot body in
  let stem :=
    match pieces with
    | [] | [_] => name
    | _ => dots +++ Str.join "." (removelast pieces)
    end in
  Str.join "/" (removelast comps ++ [stem]).

(** [os.path.isabs(p)] *)
Definition isabs (p : string) : bool := Str.starts_with "/" p.

(** [os.path.join(a, b)] *)
Definition join (a b : string) : string :=
  if isabs b then b
  else if String.eqb a "" then b
  else if Str.starts_with "/" (Str.rev a) then a +++ b
  else a +++ "/" +++ b.

(** [os.path.normpath] on a component list: empty components and [.] are
    dropped, [..] removes the component before it (and is dropped at the
    root). *)
Fixpoint normalize (done : path) (comps : list string) : path :=
  match comps with
  | [] => done
  | c :: rest =>
      if String.eqb c "" || String.eqb c "." then normalize done rest
      else if String.eqb c ".." then normalize (removelast done) rest
      else normalize (done ++ [c]) rest
  end.

End OsPath.

(** [str(p)] and [os.fspath(p)] for a resolved [Path]. *)
Definition str_of_path (p : path) : string :=
  match p with
  | [] => "/"
  | _ => String.concat "" (map (fun c => "/" +++ c) p)
  end.

(** [p.joinpath(name)] *)
Definition joinpath (p : path) (name : string) : path :=
  if OsPath.isabs name
  then filter (fun c => negb (String.eqb c "")) (Str.split Str.slash name)
  else p ++ filter (fun c => negb (String.eqb c "" || String.eqb c "."))
                   (Str.split Str.slash name).

(** [p.parent]: the root is its own parent. *)
Definition parent (p : path) : path := removelast p.

(** [os.path.basename(os.fspath(p))] *)
Definition path_basename (p : path) : string := last p "".

(* ===================================================================== *)
(** * The directory tree *)
(* ===================================================================== *)

(** A regular file with its bytes, or a directory with its entries in
    [os.scandir] order.  Symbolic links, permissions and timestamps are not
    modelled: the script runs as root, and where it would follow a link the
    model sees the link's target in its place. *)
#[local] Unset Elimination Schemes.
Inductive node : Type :=
| File (data : string)
| Dir (entries : list (string * node)).
#[local] Set Elimination Schemes.

Module Tree.

Section Induction.
Variable P : node -> Prop.
Hypothesis P_file : forall data, P (File data).
Hypothesis P_dir :
  forall entries, Forall (fun e => P (snd e)) entries -> P (Dir entries).

Fixpoint node_ind' (n : node) : P n :=
  match n with
  | File data => P_file data
  | Dir entries =>
      P_dir ((fix all (es : list (string * node)) :
                Forall (fun e => P (snd e)) es :=
                match es with
                | [] => Forall_nil _
                | e :: rest => Forall_cons e (node_ind' (snd e)) (all rest)
                end) entries)
  end.
End Induction.

Definition is_dir (n : node) : bool :=
  match n with Dir _ => true | File _ => false end.

Definition is_file (n : node) : bool :=
  match n with File _ => true | Dir _ => false end.

(** ** Directory entries *)

Fixpoint entry_get (name : string) (es : list (string * node)) : option node :=
  match es with
  | [] => None
  | (k, n) :: rest => if String.eqb name k then Some n else entry_get name rest
  end.

(** Replace the entry called [name], or add it at the end. *)
Fixpoint entry_set (name : string) (x : node) (es : list (string * node))
  : list (string * node) :=
  match es with
  | [] => [(name, x)]
  | (k, n) :: rest =>
      if String.eqb name k then (k, x) :: rest
      else (k, n) :: entry_set name x rest
  end.

Definition entry_del (name : string) (es : list (string * node))
  : list (string * node) :=
  filter (fun e => negb (String.eqb name (fst e))) es.

(** ** Whole-tree operations, by resolved path *)

Fixpoint lookup (root : node) (p : path) : option node :=
  match p with
  | [] => Some root
  | c :: rest =>
      match root with
      | Dir es =>
          match entry_get c es with
          | Some child => lookup child rest
          | None => None
          end
      | File _ => None
      end
  end.

(** Put [x] at [p], replacing what is there; the parent of [p] has to be an
    existing directory, and [p] is not the root. *)
Fixpoint put (root : node) (p : path) (x : node) : option node :=
  match p, root with
  | [], _ => None
  | [c], Dir es => Some (Dir (entry_set c x es))
  | c :: rest, Dir es =>
      match entry_get c es with
      | Some child =>
          match put child rest x with
          | Some child' => Some (Dir (entry_set c child' es))
          | None => None
          end
      | None => None
      end
  | _ :: _, File _ => None
  end.

(** Unlink the entry at [p], which exists and is not the root. *)
Fixpoint del (root : node) (p : path) : option node :=
  match p, root with
  | [], _ => None
  | [c], Dir es =>
      match entry_get c es with
      | Some _ => Some (Dir (entry_del c es))
      | None => None
      end
  | c :: rest, Dir es =>
      match entry_get c es with
      | Some child =>
          match del child rest with
          | Some child' => Some (Dir (entry_set c child' es))
          | None => None
          end
      | None => None
      end
  | _ :: _, File _ => None
  end.

(** A chain of fresh directories [c1/c2/.../cn] as one entry. *)
Fixpoint chain (p : path) : node :=
  match p with
  | [] => Dir []
  | c :: rest => Dir [(c, chain rest)]
  end.

(** [mkdir -p]: every missing directory along [p] is created; fails when a
    regular file is in the way, at [p] or above it. *)
Fixpoint mkdirs (root : node) (p : path) : option node :=
  match root with
  | File _ => None
  | Dir es =>
      match p with
      | [] => Some root
      | c :: rest =>
          match entry_get c es with
          | Some child =>
              match mkdirs child rest with
              | Some child' => Some (Dir (entry_set c child' es))
              | None => None
              end
          | None => Some (Dir (entry_set c (chain rest) es))
          end
      end
  end.

(** ** Well-formed trees *)

(** A file name: not empty, not [.] or [..], without a slash. *)
Definition valid_name (name : string) : bool :=
  negb (String.eqb name "") && negb (String.eqb name ".")
  && negb (String.eqb name "..") && negb (Str.contains Str.slash name).

Fixpoint distinct (names : list string) : bool :=
  match names with
  | [] => true
  | name :: rest => negb (existsb (String.eqb name) rest) && distinct rest
  end.

(** In every directory the entries have valid names, no two the same. *)
Fixpoint wf (n : node) : bool :=
  match n with
  | File _ => true
  | Dir es =>
      distinct (map fst es)
      && (fix all (l : list (string * node)) : bool :=
            match l with
            | [] => true
            | (name, child) :: rest => valid_name name && wf child && all rest
            end) es
  end.

(** The bytes of a gzip-compressed tar archive whose single top-level member
    [name] is the tree [n]: a serialisation that keeps every name, every
    file's bytes and the nesting. *)
Fixpoint targz (name : string) (n : node) : string :=
  match n with
  | File data => "f<" +++ name +++ "|" +++ data +++ ">"
  | Dir es =>
      "d<" +++ name +++ "|" +++
      (fix members (l : list (string * node)) : string :=
         match l with
         | [] => ""
         | (k, child) :: rest => targz k child +++ members rest
         end) es +++ ">"
  end.

End Tree.

(* ===================================================================== *)
(** * The machine the script runs on *)
(* ===================================================================== *)

(** One entry of what the process wrote to its terminal. *)
Inductive output : Type :=
| Line (text : string)              (* one [print] call *)
| HelpText                          (* [ArgumentParser.print_help()] *)
| UsageError (message : string).    (* [ArgumentParser.error(message)] *)

Record World : Type := mkWorld {
  fs : node;                               (* the directory tree, from [/] *)
  cwd : path;                              (* [os.getcwd()] *)
  environ : list (string * string);        (* [os.environ] *)
  euid : Z;                                (* [os.geteuid()] *)
  executables : list string;               (* program names found on [PATH] *)
  platform_facts : list (string * string); (* [platform.f()], by name [f];
                                              a missing name: the call raises *)
  distro_info : option string;             (* [distro.linux_distribution()];
                                              [None]: [import distro] fails *)
  terminal : list output;                  (* oldest first *)
  shell_log : list (string * Z)            (* command lines given to
                                              [/bin/bash] with their exit
                                              status, oldest first *)
}.

Definition with_fs (w : World) (t : node) : World :=
  mkWorld t (cwd w) (environ w) (euid w) (executables w) (platform_facts w)
          (distro_info w) (terminal w) (shell_log w).

Definition with_cwd (w : World) (d : path) : World :=
  mkWorld (fs w) d (environ w) (euid w) (executables w) (platform_facts w)
          (distro_info w) (terminal w) (shell_log w).

Definition with_terminal (w : World) (t : list output) : World :=
  mkWorld (fs w) (cwd w) (environ w) (euid w) (executables w)
          (platform_facts w) (distro_info w) t (shell_log w).

Definition with_shell (w : World) (t : node) (l : list (string * Z)) : World :=
  mkWorld t (cwd w) (environ w) (euid w) (executables w) (platform_facts w)
          (distro_info w) (terminal w) l.

Fixpoint assoc (k : string) (l : list (string * string)) : option string :=
  match l with
  | [] => None
  | (k', v) :: rest => if String.eqb k k' then Some v else assoc k rest
  end.

(** [os.getenv(name)] *)
Definition getenv (w : World) (name : string) : option string :=
  assoc name (environ w).

(* ===================================================================== *)
(** * Exceptions and the monad of Python statements *)
(* ===================================================================== *)

Inductive exn : Type :=
| FileNotFoundError (filename : string)
| FileExistsError (filename : string)
| IsADirectoryError (filename : string)
| NotADirectoryError (filename : string)
| OSError (filename : string)
| KeyError (key : string)
| NameError (name : string)
| Exception (message : string)
| RuntimeError (message : string) (cause : exn).   (* [raise ... from cause] *)

(** How a statement ends: normally with a value, with an exception
    travelling up, or with [sys.exit(code)] ([SystemExit] is not an
    [Exception], so no handler of the script catches it). *)
Inductive result (A : Type) : Type :=
| Ok (a : A) (w : World)
| Raise (e : exn) (w : World)
| SysExit (code : Z) (w : World).

Arguments Ok {A} a w.
Arguments Raise {A} e w.
Arguments SysExit {A} code w.

Definition M (A : Type) : Type := World -> result A.

Definition ret {A} (a : A) : M A := fun w => Ok a w.

Definition bind {A B} (m : M A) (k : A -> M B) : M B :=
  fun w =>
    match m w with
    | Ok a w' => k a w'
    | Raise e w' => Raise e w'
    | SysExit c w' => SysExit c w'
    end.

Declare Scope py_scope.
Delimit Scope py_scope with py.
Notation "x <- m ;; k" := (bind m (fun x => k))
  (at level 100, m at next level, right associativity) : py_scope.
Notation "m ;; k" := (bind m (fun _ => k))
  (at level 100, right associativity) : py_scope.
Open Scope py_scope.

Definition raise {A} (e : exn) : M A := fun w => Raise e w.

(** [try: body / except Exception as exc: handler(exc)] *)
Definition try_except {A} (body : M A) (handler : exn -> M A) : M A :=
  fun w =>
    match body w with
    | Raise e w' => handler e w'
    | r => r
    end.

Definition sys_exit {A} (code : Z) : M A := fun w => SysExit code w.

Definition get_world : M World := fun w => Ok w w.

(** [try: body / except Exception as exc: raise RuntimeError(msg) from exc] *)
Definition try_reraise {A} (msg : string) (body : M A) : M A :=
  try_except body (fun exc => raise (RuntimeError msg exc)).

(** [for x in l: body(x)] *)
Fixpoint for_each {A} (l : list A) (body : A -> M unit) : M unit :=
  match l with
  | [] => ret tt
  | x :: rest => body x ;; for_each rest body
  end.

(** [print(text)] *)
Definition print (text : string) : M unit :=
  fun w => Ok tt (with_terminal w (terminal w ++ [Line text])).

(** The exit status the operating system sees. An exception that nobody
    catches prints a traceback and ends the interpreter with status 1. *)
Definition exit_status {A} (r : result A) : Z :=
  match r with
  | Ok _ _ => 0
  | Raise _ _ => 1
  | SysExit c _ => c
  end.

Definition final_world {A} (r : result A) : World :=
  match r with
  | Ok _ w | Raise _ w | SysExit _ w => w
  end.

(* ===================================================================== *)
(** * The [os], [shutil] and [tarfile] calls the script makes *)
(* ===================================================================== *)

Module Os.

(** The kernel's path walk from [cur]: each component is looked up in a
    directory, so everything before the last component has to exist and be
    a directory. *)
Fixpoint walk (root : node) (cur : path) (comps : list string) : option path :=
  match comps with
  | [] => Some cur
  | c :: rest =>
      match Tree.lookup root cur with
      | Some (Dir _) =>
          if String.eqb c "" || String.eqb c "." then walk root cur rest
          else if String.eqb c ".." then walk root (removelast cur) rest
          else walk root (cur ++ [c]) rest
      | _ => None
      end
  end.

Definition start (w : World) (name : string) : path :=
  if OsPath.isabs name then [] else cwd w.

(** Where the path string [name] leads, when the walk gets that far; the
    last component may be missing. *)
Definition locate (w : World) (name : string) : option path :=
  if String.eqb name "" then None
  else walk (fs w) (start w name) (Str.split Str.slash name).

(** [os.stat(name)], as far as the model goes: the node found. *)
Definition stat (w : World) (name : string) : option node :=
  match locate w name with
  | Some p => Tree.lookup (fs w) p
  | None => None
  end.

Definition path_exists (name : string) (w : World) : bool :=
  match stat w name with Some _ => true | None => false end.

Definition path_isfile (name : string) (w : World) : bool :=
  match stat w name with Some n => Tree.is_file n | None => false end.

Definition path_isdir (name : string) (w : World) : bool :=
  match stat w name with Some n => Tree.is_dir n | None => false end.

(** *** Calls on a resolved [Path] object

    A resolved [Path] is its list of components, so these look it up in the
    tree directly; [path_calls_agree] below relates them to the calls on
    [str(p)]. *)

Definition isfile_at (p : path) (w : World) : bool :=
  match Tree.lookup (fs w) p with Some n => Tree.is_file n | None => false end.

Definition isdir_at (p : path) (w : World) : bool :=
  match Tree.lookup (fs w) p with Some n => Tree.is_dir n | None => false end.

(** [os.remove(p)] *)
Definition remove_at (p : path) : M unit :=
  fun w =>
    match Tree.lookup (fs w) p with
    | Some (File _) =>
        match Tree.del (fs w) p with
        | Some t => Ok tt (with_fs w t)
        | None => Raise (OSError (str_of_path p)) w
        end
    | Some (Dir _) => Raise (IsADirectoryError (str_of_path p)) w
    | None => Raise (FileNotFoundError (str_of_path p)) w
    end.

(** [shutil.rmtree(p)].  At the root everything below is deleted and the
    final [rmdir] of [/] fails. *)
Definition rmtree_at (p : path) : M unit :=
  fun w =>
    match Tree.lookup (fs w) p with
    | Some (Dir _) =>
        match p with
        | [] => Raise (OSError (str_of_path p)) (with_fs w (Dir []))
        | _ =>
            match Tree.del (fs w) p with
            | Some t => Ok tt (with_fs w t)
            | None => Raise (OSError (str_of_path p)) w
            end
        end
    | Some (File _) => Raise (NotADirectoryError (str_of_path p)) w
    | None => Raise (FileNotFoundError (str_of_path p)) w
    end.

(** [os.makedirs(p, mode=0o777, exist_ok=True)]: fails when a regular file
    is at [p] or on the way to it. *)
Definition makedirs_at (p : path) : M unit :=
  fun w =>
    match Tree.mkdirs (fs w) p with
    | Some t => Ok tt (with_fs w t)
    | None =>
        match Tree.lookup (fs w) p with
        | Some (File _) => Raise (FileExistsError (str_of_path p)) w
        | _ => Raise (NotADirectoryError (str_of_path p)) w
        end
    end.

(** *** Calls on a path string *)

(** [os.remove(name)] *)
Definition remove (name : string) : M unit :=
  fun w =>
    match locate w name with
    | Some p => remove_at p w
    | None => Raise (FileNotFoundError name) w
    end.

(** The absolute normalised path a string stands for ([os.path.abspath],
    and [Path.resolve()] in a tree without links); its components need not
    exist. *)
Definition abspath (w : World) (name : string) : path :=
  OsPath.normalize (start w name) (Str.split Str.slash name).

(** [os.makedirs(name, mode=0o777, exist_ok=True)] *)
Definition makedirs (name : string) : M unit :=
  fun w => makedirs_at (abspath w name) w.

(** [open(name, 'w')] followed by writing [text] and closing. *)
Definition write_text (name text : string) : M unit :=
  fun w =>
    match locate w name with
    | Some p =>
        match Tree.lookup (fs w) p with
        | Some (Dir _) => Raise (IsADirectoryError name) w
        | _ =>
            match Tree.put (fs w) p (File text) with
            | Some t => Ok tt (with_fs w t)
            | None => Raise (FileNotFoundError name) w
            end
        end
    | None => Raise (FileNotFoundError name) w
    end.

(** [open(name, 'a')]: the file is created when missing; the handle is the
    place it was opened at. *)
Definition open_append (name : string) : M path :=
  fun w =>
    match locate w name with
    | Some p =>
        match Tree.lookup (fs w) p with
        | Some (Dir _) => Raise (IsADirectoryError name) w
        | Some (File _) => Ok p w
        | None =>
            match Tree.put (fs w) p (File "") with
            | Some t => Ok p (with_fs w t)
            | None => Raise (FileNotFoundError name) w
            end
        end
    | None => Raise (FileNotFoundError name) w
    end.

(** [print(text, file=handle)]: one more line at the end of the file. *)
Definition print_to (handle : path) (text : string) : M unit :=
  fun w =>
    match Tree.lookup (fs w) handle with
    | Some (File data) =>
        match Tree.put (fs w) handle (File (data +++ text +++ Str.nl)) with
        | Some t => Ok tt (with_fs w t)
        | None => Raise (OSError (str_of_path handle)) w
        end
    | _ => Raise (OSError (str_of_path handle)) w
    end.

(** [os.chdir(name)] *)
Definition chdir (name : string) : M unit :=
  fun w =>
    match locate w name with
    | Some p =>
        match Tree.lookup (fs w) p with
        | Some (Dir _) => Ok tt (with_cwd w p)
        | Some (File _) => Raise (NotADirectoryError name) w
        | None => Raise (FileNotFoundError name) w
        end
    | None => Raise (FileNotFoundError name) w
    end.

(** [os.scandir(p)] for a resolved path: the entries, each with its name
    and what it is. *)
Definition scandir (p : path) : M (list (string * node)) :=
  fun w =>
    match Tree.lookup (fs w) p with
    | Some (Dir es) => Ok es w
    | Some (File _) => Raise (NotADirectoryError (str_of_path p)) w
    | None => Raise (FileNotFoundError (str_of_path p)) w
    end.

(** [tar = tarfile.open(archive, 'x:gz'); tar.add(member); tar.close()]:
    the archive must not exist yet; it is created first, then the member
    is read. *)
Definition tar_create (archive member : string) : M unit :=
  fun w =>
    match locate w archive with
    | Some q =>
        match Tree.lookup (fs w) q with
        | Some _ => Raise (FileExistsError archive) w
        | None =>
            match Tree.put (fs w) q (File "") with
            | Some t0 =>
                let w0 := with_fs w t0 in
                match stat w0 member with
                | Some tree =>
                    match Tree.put t0 q (File (Tree.targz member tree)) with
                    | Some t1 => Ok tt (with_fs w t1)
                    | None => Raise (OSError archive) w0
                    end
                | None => Raise (FileNotFoundError member) w0
                end
            | None => Raise (FileNotFoundError archive) w
            end
        end
    | None => Raise (FileNotFoundError archive) w
    end.

(** [distutils.spawn.find_executable(name) is not None] *)
Definition find_executable (name : string) (w : World) : bool :=
  existsb (String.eqb name) (executables w).

End Os.

(* ===================================================================== *)
(** * [helper_functions.py] *)
(* ===================================================================== *)

Module Expand.

(** [os.path.expanduser]: a leading [~] alone or before a slash becomes
    [$HOME] without its trailing slashes.  With [HOME] unset, and for
    [~user], Python asks the password database, which the model does not
    have: the name is left as it is. *)
Definition expanduser (w : World) (name : string) : string :=
  match name with
  | String "~"%char rest =>
      if String.eqb rest "" || Str.starts_with "/" rest then
        match getenv w "HOME" with
        | Some home =>
            let userhome :=
              Str.rev (OsPath.strip_trailing_slashes_rev (Str.rev home)) in
            match userhome +++ rest with
            | EmptyString => "/"
            | expanded => expanded
            end
        | None => name
        end
      else name
  | _ => name
  end.

Definition is_word_char (c : ascii) : bool :=
  let n := nat_of_ascii c in
  ((48 <=? n) && (n <=? 57) || (65 <=? n) && (n <=? 90)
   || (97 <=? n) && (n <=? 122) || (n =? 95))%nat.

(** Where the scan of [os.path.expandvars] is: in plain text, after [$]
    and the word characters read so far, or after [${]. *)
Inductive scan : Type :=
| Plain
| Word (name : string)
| Brace (name : string).

Definition value_or (w : World) (name literal : string) : string :=
  match getenv w name with
  | Some v => v
  | None => literal
  end.

Definition flush (w : World) (st : scan) : string :=
  match st with
  | Plain => ""
  | Word "" => "$"
  | Word name => value_or w name ("$" +++ name)
  | Brace name => "${" +++ name
  end.

(** [os.path.expandvars]: [$name] and [${name}] are replaced by the
    variable's value when it is set and left alone otherwise.  (A [${]
    that is never closed is copied through to the end of the string.) *)
Fixpoint expandvars_from (w : World) (st : scan) (s : string) : string :=
  match s with
  | EmptyString => flush w st
  | String c rest =>
      match st with
      | Brace name =>
          if Ascii.eqb c "}"%char
          then value_or w name ("${" +++ name +++ "}")
               +++ expandvars_from w Plain rest
          else expandvars_from w (Brace (name +++ String c "")) rest
      | Word name =>
          if is_word_char c
          then expandvars_from w (Word (name +++ String c "")) rest
          else if Ascii.eqb c "{"%char && String.eqb name ""
          then expandvars_from w (Brace "") rest
          else if Ascii.eqb c "$"%char
          then flush w st +++ expandvars_from w (Word "") rest
          else flush w st +++ String c (expandvars_from w Plain rest)
      | Plain =>
          if Ascii.eqb c "$"%char
          then expandvars_from w (Word "") rest
          else String c (expandvars_from w Plain rest)
      end
  end.

Definition expandvars (w : World) (s : string) : string :=
  expandvars_from w Plain s.

End Expand.

(** [get_canonical_path(name)]:
    [Path(os.path.expandvars(os.path.expanduser(name))).resolve()] *)
Definition get_canonical_path (w : World) (name : string) : path :=
  Os.abspath w (Expand.expandvars w (Expand.expanduser w name)).

(** [get_canonical_path_str(name)] *)
Definition get_canonical_path_str (w : World) (name : string) : string :=
  str_of_path (get_canonical_path w name).

(** [f"{flag}"] for a [bool] *)
Definition py_bool (b : bool) : string := if b then "True" else "False".

(** [create_output_dir(outdir, clear_flag)] *)
Definition create_output_dir (outdir : string) (clear_flag : bool) : M path :=
  try_reraise
    ("Error in creating directory " +++ outdir +++ " with clear_flag = "
       +++ py_bool clear_flag)
    (w <- get_world ;;
     let od_path := get_canonical_path w outdir in
     (if clear_flag then
        if Os.isfile_at od_path w then
          print ("*** Deleting existing file " +++ str_of_path od_path
                   +++ "..." +++ Str.nl +++ Str.nl) ;;
          Os.remove_at od_path
        else if Os.isdir_at od_path w then
          print ("*** Deleting existing directory " +++ str_of_path od_path
                   +++ "..." +++ Str.nl +++ Str.nl) ;;
          Os.rmtree_at od_path
        else ret tt
      else ret tt) ;;
     Os.makedirs_at od_path ;;
     w1 <- get_world ;;
     (if Os.path_isfile (str_of_path od_path +++ ".tar.gz") w1 then
        print ("*** Deleting existing file " +++ str_of_path od_path
                 +++ ".tar.gz..." +++ Str.nl +++ Str.nl) ;;
        Os.remove (str_of_path od_path +++ ".tar.gz")
      else ret tt) ;;
     ret od_path).

(* ===================================================================== *)
(** * [gather_info_docker.py]: the command line *)
(* ===================================================================== *)

(** The [argparse.Namespace] that [parse_args] returns. *)
Record Namespace : Type := mkNamespace {
  outdir : string;
  clear : bool;
  lite : bool;
  stdout : string;                 (* required *)
  stderr : option string;
  yaml_config : option string;
  cmd_name : option string;
  copydirs : list string
}.

Module ArgParse.

(** What [ArgumentParser.parse_args] does with a command line: a namespace,
    the help text ([-h]), or a usage error. *)
Inductive outcome : Type :=
| Parsed (args : Namespace)
| Help
| Error (message : string).

(** The namespace while parsing: [stdout] has no default. *)
Record partial : Type := mkPartial {
  p_outdir : string;
  p_clear : bool;
  p_lite : bool;
  p_stdout : option string;
  p_stderr : option string;
  p_yaml_config : option string;
  p_cmd_name : option string;
  p_copydirs : list string;
  p_extras : list string          (* arguments nothing consumed *)
}.

(** The defaults given to [add_argument]. *)
Definition defaults : partial :=
  mkPartial "./" false false None None None None [] [].

(** The value of a one-argument option is stored under its destination. *)
Definition store (dest value : string) (ns : partial) : partial :=
  let '(mkPartial o c l so se y cmd cd ex) := ns in
  if String.eqb dest "outdir" then mkPartial value c l so se y cmd cd ex
  else if String.eqb dest "stdout" then mkPartial o c l (Some value) se y cmd cd ex
  else if String.eqb dest "stderr" then mkPartial o c l so (Some value) y cmd cd ex
  else if String.eqb dest "yaml_config" then mkPartial o c l so se (Some value) cmd cd ex
  else if String.eqb dest "cmd_name" then mkPartial o c l so se y (Some value) cd ex
  else ns.

Definition store_true (dest : string) (ns : partial) : partial :=
  let '(mkPartial o c l so se y cmd cd ex) := ns in
  if String.eqb dest "clear" then mkPartial o true l so se y cmd cd ex
  else if String.eqb dest "lite" then mkPartial o c true so se y cmd cd ex
  else ns.

Definition store_copydirs (values : list string) (ns : partial) : partial :=
  let '(mkPartial o c l so se y cmd _ ex) := ns in
  mkPartial o c l so se y cmd values ex.

Definition add_extra (arg : string) (ns : partial) : partial :=
  let '(mkPartial o c l so se y cmd cd ex) := ns in
  mkPartial o c l so se y cmd cd (ex ++ [arg]).

(** The options of [GatherInfoDockerArgParser.__init__], each with its
    display name, destination and arity. *)
Inductive arity : Type := Flag | OneValue | OneOrMore | ShowHelp.

Definition option_table : list (string * (string * string * arity)) :=
  [ ("-h", ("-h/--help", "help", ShowHelp));
    ("--help", ("-h/--help", "help", ShowHelp));
    ("-o", ("-o/--outdir", "outdir", OneValue));
    ("--outdir", ("-o/--outdir", "outdir", OneValue));
    ("-c", ("-c/--clear", "clear", Flag));
    ("--clear", ("-c/--clear", "clear", Flag));
    ("--lite", ("--lite", "lite", Flag));
    ("-s", ("-s/--stdout", "stdout", OneValue));
    ("--stdout", ("-s/--stdout", "stdout", OneValue));
    ("-e", ("-e/--stderr", "stderr", OneValue));
    ("--stderr", ("-e/--stderr", "stderr", OneValue));
    ("-y", ("-y/--yaml_config", "yaml_config", OneValue));
    ("--yaml_config", ("-y/--yaml_config", "yaml_config", OneValue));
    ("-cmd", ("-cmd/--cmd_name", "cmd_name", OneValue));
    ("--cmd_name", ("-cmd/--cmd_name", "cmd_name", OneValue));
    ("--copydirs", ("--copydirs", "copydirs", OneOrMore)) ].

Fixpoint find_option (arg : string)
         (table : list (string * (string * string * arity)))
  : option (string * string * arity) :=
  match table with
  | [] => None
  | (k, v) :: rest => if String.eqb arg k then Some v else find_option arg rest
  end.

(** An argument that starts with a dash is an option string, unless it is
    the lone dash or contains a space. *)
Definition looks_like_option (arg : string) : bool :=
  Str.starts_with "-" arg && negb (String.eqb arg "-")
  && negb (Str.contains " "%char arg).

(** What the option read last still waits for. *)
Inductive waiting : Type :=
| Nothing
| One (display dest : string)
| Many (display : string) (got : list string).

(** End of the command line: required arguments are checked first, then
    leftovers are rejected. *)
Definition finish (ns : partial) : outcome :=
  match p_stdout ns with
  | None => Error "the following arguments are required: -s/--stdout"
  | Some out =>
      match p_extras ns with
      | [] =>
          Parsed (mkNamespace (p_outdir ns) (p_clear ns) (p_lite ns) out
                              (p_stderr ns) (p_yaml_config ns)
                              (p_cmd_name ns) (p_copydirs ns))
      | extras => Error ("unrecognized arguments: " +++ Str.join " " extras)
      end
  end.

(** The option that was waiting is closed by the next option string or by
    the end of the line. *)
Definition close (wt : waiting) (ns : partial) : partial + string :=
  match wt with
  | Nothing => inl ns
  | One display _ => inr ("argument " +++ display +++ ": expected one argument")
  | Many display [] =>
      inr ("argument " +++ display +++ ": expected at least one argument")
  | Many _ got => inl (store_copydirs got ns)
  end.

(** [argparse] on the arguments after the program name, for command lines
    that spell every option in full and give its value as the next
    argument.  (Abbreviated long options, [--opt=value], a value glued to
    a short option and [--] are accepted by [argparse] too; here they
    count as arguments nothing consumed.) *)
Fixpoint parse (args : list string) (ns : partial) (wt : waiting) : outcome :=
  match args with
  | [] =>
      match close wt ns with
      | inl ns' => finish ns'
      | inr message => Error message
      end
  | arg :: rest =>
      if looks_like_option arg then
        match close wt ns with
        | inr message => Error message
        | inl ns' =>
            match find_option arg option_table with
            | Some (_, _, ShowHelp) => Help
            | Some (_, dest, Flag) => parse rest (store_true dest ns') Nothing
            | Some (display, dest, OneValue) => parse rest ns' (One display dest)
            | Some (display, _, OneOrMore) => parse rest ns' (Many display [])
            | None => parse rest (add_extra arg ns') Nothing
            end
        end
      else
        match wt with
        | Nothing => parse rest (add_extra arg ns) Nothing
        | One _ dest => parse rest (store dest arg ns) Nothing
        | Many display got => parse rest ns (Many display (got ++ [arg]))
        end
  end.

Definition parse_args (args : list string) : outcome :=
  parse args defaults Nothing.

End ArgParse.

(** [self.print_help()] *)
Definition print_help : M unit :=
  fun w => Ok tt (with_terminal w (terminal w ++ [HelpText])).

(** [self.error(message)]: usage and message, then exit status 2. *)
Definition parser_error {A} (message : string) : M A :=
  fun w => SysExit 2 (with_terminal w (terminal w ++ [UsageError message])).

(* ===================================================================== *)
(** * [gather_info_docker.py]: the script *)
(* ===================================================================== *)

(** [f"{l}"] for a list of strings (quotes inside an element are not
    escaped here). *)
Definition py_repr_list (l : list string) : string :=
  "[" +++ Str.join ", " (map (fun x => "'" +++ x +++ "'") l) +++ "]".

Section Script.

(** What [/bin/bash -c cmd] does on a machine: the directory tree it
    leaves and its exit status. *)
Variable bash : string -> World -> node * Z.

(** [sys.argv], and [os.path.realpath(sys.argv[0])] as computed when the
    module is loaded. *)
Variable sys_argv : list string.
Variable ACTUAL_CMD : string.

Definition INFO_TARBALL : string :=
  OsPath.splitext_root (OsPath.basename ACTUAL_CMD).
Definition EXECCMDLINEFILE : string :=
  "execution-command-line-" +++ OsPath.basename ACTUAL_CMD +++ ".txt".
Definition TMPDIR : string := INFO_TARBALL.
Definition TMPFILENAME : string := "tmpfile".

(** [__file__], the script as the interpreter was given it. *)
Definition this_file : string := hd "" sys_argv.

(** ** [GatherInfoDockerArgParser.parse_args] *)
Definition parse_args : M Namespace :=
  match ArgParse.parse_args (tl sys_argv) with
  | ArgParse.Help => print_help ;; sys_exit 0
  | ArgParse.Error message => parser_error message
  | ArgParse.Parsed args =>
      w <- get_world ;;
      let args :=
        mkNamespace
          (str_of_path (joinpath (get_canonical_path w (outdir args)) TMPDIR))
          (clear args) (lite args) (stdout args) (stderr args)
          (yaml_config args) (cmd_name args) (copydirs args) in
      if negb (euid w =? 0)%Z then
        print ("*** Rerun this script as user 'root' or as sudo ***"
                 +++ Str.nl +++ Str.nl) ;;
        print_help ;;
        sys_exit 1
      else ret args
  end.

(** ** [class SnapshotScriptDocker] *)

Definition STANDARD_FILE_NAMES : list (string * string) :=
  [ ("stdout", "cmd_stdout.txt");
    ("stderr", "cmd_stderr.txt");
    ("cmdline", "cmdline_invocation.txt");
    ("yamlconfig", "model_yaml_config.txt");
    ("envvars", "env_vars.txt");
    ("habanalogs", "habana_logs");
    ("dockerc_pypkgs", "docker_container_python_pkgs.txt");
    ("dockerc_history", "docker_container_history.txt");
    ("dockerc_diskusage", "docker_container_disk_usage.txt");
    ("dockerc_homedir", "docker_container_homedir_and_model_artifacts");
    ("dockerc_copydir", "docker_container_additional_dirs");
    ("machine_hostname", "machine_hostname.txt");
    ("machine_ipaddr", "machine_ipaddr.txt");
    ("machine_hlsmi", "machine_hlsmi.txt");
    ("machine_lspci", "machine_lspci.txt");
    ("machine_cpuinfo", "machine_cpuinfo.txt");
    ("machine_cpumode", "machine_cpumode.txt");
    ("machine_nicstatus", "machine_Gaudi_NIC_status.txt");
    ("python_info", "python_installation_info.txt");
    ("platform_config_info", "platform_config_info.txt");
    ("synapse_libs_info", "synapse_libs_info.txt");
    ("package_info", "package_info.txt");
    ("dmesg_info", "dmesg_info.txt") ].

(** [SnapshotScriptDocker.STANDARD_FILE_NAMES[key]] *)
Definition standard_file_name (key : string) : M string :=
  match assoc key STANDARD_FILE_NAMES with
  | Some name => ret name
  | None => raise (KeyError key)
  end.

Section Methods.

(** [self.args] and [self.outdir_path] *)
Variable args : Namespace.
Variable outdir_path : path.

Definition generateHeader (text sep : string) : M unit :=
  print Str.nl ;;
  print (Str.repeat sep 80) ;;
  print text ;;
  print (Str.repeat sep 80).

Definition get_outdir_filename (filename : string) : string :=
  str_of_path (joinpath outdir_path filename).

(** [Popen(cmd, shell=True, executable='/bin/bash')] and [proc.wait()];
    the exit status is not looked at.  ([/bin/bash] itself is taken to
    be there, so that starting it does not fail.) *)
Definition run_cmd (cmd : string) : M unit :=
  print cmd ;;
  (fun w =>
     let '(tree, status) := bash cmd w in
     Ok tt (with_shell w tree (shell_log w ++ [(cmd, status)]))).

(** The destination of [saveFile] and [saveFileNoSymlink]. *)
Definition save_target (info_file_name : string)
           (info_file_type : option string) : M string :=
  match info_file_type with
  | Some key =>
      name <- standard_file_name key ;;
      ret (get_outdir_filename name)
  | None => ret (get_outdir_filename info_file_name)
  end.

Definition saveFile (info_file_name : string)
           (info_file_type : option string) : M unit :=
  target <- save_target info_file_name info_file_type ;;
  run_cmd ("cp -r -f -L --preserve=timestamps " +++ info_file_name
             +++ " " +++ target).

Definition saveFileNoSymlink (info_file_name : string)
           (info_file_type : option string) : M unit :=
  target <- save_target info_file_name info_file_type ;;
  run_cmd ("cp -r -f --preserve=timestamps " +++ info_file_name
             +++ " " +++ target).

Definition saveTmpFile (info_file_type : string) : M unit :=
  name <- standard_file_name info_file_type ;;
  run_cmd ("mv " +++ outdir args +++ "/" +++ TMPFILENAME +++ " "
             +++ get_outdir_filename name).

(** The table [STANDARD_INFO_FILE_NAMES] is not a global of the module,
    so looking it up fails. *)
Definition saveInfo (info info_key : string) : M unit :=
  raise (NameError "STANDARD_INFO_FILE_NAMES").

Definition saveCmdOutputs : M unit :=
  try_reraise "Error in saveCmdOutputs"
    (generateHeader "Saving command outputs" "=" ;;
     w <- get_world ;;
     (if Os.path_exists (stdout args) w then
        saveFile (stdout args) (Some "stdout")
      else
        print ("The filename specified by " +++ stdout args
                 +++ " does not exist") ;;
        raise (Exception (stdout args +++ " is not a valid filename"))) ;;
     match stderr args with
     | Some err =>
         w' <- get_world ;;
         if Os.path_exists err w' then saveFile err (Some "stderr")
         else
           print ("The filename specified by " +++ err
                    +++ " does not exist") ;;
           raise (Exception (err +++ " is not a valid filename"))
     | None => ret tt
     end).

Definition saveCmdlineAndOptions : M unit :=
  try_reraise "Error in saveCmdlineAndOptions"
    (match cmd_name args with
     | Some name =>
         generateHeader "Saving training command line along with options" "=" ;;
         run_cmd "history -a" ;;
         let this_filename := OsPath.basename this_file in
         file <- standard_file_name "cmdline" ;;
         run_cmd ("grep " +++ name +++ " $HOME/.bash_history | grep -v "
                    +++ this_filename +++ " | tail -1 > "
                    +++ get_outdir_filename file)
     | None => ret tt
     end ;;
     match yaml_config args with
     | Some yaml =>
         generateHeader "Saving YAML configuration file used to run training" "=" ;;
         saveFile yaml (Some "yamlconfig")
     | None => ret tt
     end).

Definition saveEnvVars : M unit :=
  try_reraise "Error in saveEnvVars"
    (generateHeader "Saving environment variables" "=" ;;
     w <- get_world ;;
     (if Os.path_exists (get_outdir_filename TMPFILENAME) w
      then Os.remove (get_outdir_filename TMPFILENAME)
      else ret tt) ;;
     file <- standard_file_name "envvars" ;;
     run_cmd ("env > " +++ get_outdir_filename file)).

(** [f"{logs_path}"] for the result of [os.getenv] *)
Definition py_str_option (v : option string) : string :=
  match v with Some x => x | None => "None" end.

Definition saveHabanaLogs : M unit :=
  try_reraise "Error in saveHabanaLogs"
    (generateHeader "Saving Habana log files" "=" ;;
     dir <- standard_file_name "habanalogs" ;;
     Os.makedirs (get_outdir_filename dir) ;;
     w <- get_world ;;
     let logs_path := getenv w "HABANA_LOGS" in
     saveFile (py_str_option logs_path +++ "/*") (Some "habanalogs")).

(** [isValidDirToCopy(start_path, outdir_basename)], on the directory
    found at [start_path]: the loop over [os.scandir(start_path)].  (The
    script calls it on directories only; a regular file has nothing to
    scan.) *)
Fixpoint isValidDirToCopy (start : node) (outdir_basename : string) : bool :=
  match start with
  | File _ => true
  | Dir entries =>
      (fix scan (it : list (string * node)) : bool :=
         match it with
         | [] => true
         | (name, entry) :: rest =>
             if Tree.is_dir entry then
               if String.eqb name outdir_basename
                  || negb (isValidDirToCopy entry outdir_basename)
               then false
               else scan rest
             else scan rest
         end) entries
  end.

(** The loop of [getHomeDirContentToSave] over the entries of
    [start_path]: the paths appended to [sv_files], each printed. *)
Fixpoint home_entries_to_save (start_path outdir_basename : string)
         (it : list (string * node)) : list string :=
  match it with
  | [] => []
  | (name, entry) :: rest =>
      let entry_path := OsPath.join start_path name in
      if Tree.is_dir entry
         && negb (String.eqb name outdir_basename)
         && isValidDirToCopy entry outdir_basename
      then entry_path :: home_entries_to_save start_path outdir_basename rest
      else if Tree.is_file entry
      then entry_path :: home_entries_to_save start_path outdir_basename rest
      else home_entries_to_save start_path outdir_basename rest
  end.

Definition getHomeDirContentToSave : M (list string) :=
  w <- get_world ;;
  let start_path := get_canonical_path w "$HOME" in
  let outdir_basename := path_basename (parent outdir_path) in
  it <- Os.scandir start_path ;;
  let sv_files :=
    home_entries_to_save (str_of_path start_path) outdir_basename it in
  for_each sv_files print ;;
  ret sv_files.

Definition saveModelSpecificArtifacts : M unit :=
  if lite args then
    generateHeader
      "Skipping copying model artifacts, datasets, training run output directories, and other contents of $HOME since --lite option is specified..."
      "="
  else
    try_reraise "Error in saveModelSpecificArtifacts"
      (generateHeader
         "Saving model artifacts, datasets, training run output directories, and other contents of $HOME"
         "=" ;;
       dir <- standard_file_name "dockerc_homedir" ;;
       Os.makedirs (get_outdir_filename dir) ;;
       files_dirs_to_save <- getHomeDirContentToSave ;;
       print ("files_dirs_to_save:  " +++ py_repr_list files_dirs_to_save) ;;
       for_each files_dirs_to_save
                (fun sv_file => saveFile sv_file (Some "dockerc_homedir"))).

(** The body of the loop over [self.args.copydirs]. *)
Definition save_copydir (sv_file : string) : M unit :=
  w <- get_world ;;
  if Os.path_exists sv_file w
  then saveFileNoSymlink sv_file (Some "dockerc_copydir")
  else print ("Skipping " +++ sv_file
                +++ " from copydirs since this path does not exist").

Definition saveAdditionalCopyDirs : M unit :=
  try_reraise "Error in saveAdditionalCopyDirs"
    (match copydirs args with
     | [] => ret tt
     | _ =>
         generateHeader "Saving user-specified copydirs" "=" ;;
         print ("copydirs = " +++ py_repr_list (copydirs args)) ;;
         dir <- standard_file_name "dockerc_copydir" ;;
         Os.makedirs (get_outdir_filename dir) ;;
         for_each (copydirs args) save_copydir
     end).

(** [cmd > self.get_outdir_filename(STANDARD_FILE_NAMES[key])] *)
Definition redirect_to (cmd key : string) : M unit :=
  file <- standard_file_name key ;;
  run_cmd (cmd +++ " > " +++ get_outdir_filename file).

Definition saveDockerRunParameters : M unit :=
  try_reraise "Error in saveDockerRunParameters"
    (generateHeader
       "Saving container command history, packages list, disk usage" "=" ;;
     run_cmd "history -a" ;;
     saveFile "$HOME/.bash_history" (Some "dockerc_history") ;;
     redirect_to "pip3 list" "dockerc_pypkgs" ;;
     redirect_to "du -s -h ~/" "dockerc_diskusage").

Definition saveMachineStatus : M unit :=
  try_reraise "Error in saveMachineStatus"
    (generateHeader
       "Saving machine-specific information (hl-smi, cpuinfo, etc.)" "=" ;;
     redirect_to "hostname" "machine_hostname" ;;
     redirect_to "hostname -I" "machine_ipaddr" ;;
     redirect_to "hl-smi -q" "machine_hlsmi" ;;
     redirect_to "lspci" "machine_lspci" ;;
     redirect_to "cat /proc/cpuinfo" "machine_cpuinfo" ;;
     redirect_to "cat /sys/devices/system/cpu/cpu*/cpufreq/scaling_governor"
                 "machine_cpumode").

(** [platform.f()] for the functions of [platform] that always answer. *)
Definition platform_value (w : World) (f : string) : string :=
  match assoc f (platform_facts w) with Some v => v | None => "" end.

Definition savePythonInstallationInfo : M unit :=
  file <- standard_file_name "python_info" ;;
  let OUTPUT_FILE := get_outdir_filename file in
  print ("Saving python installation info to " +++ OUTPUT_FILE) ;;
  out_fid <- Os.open_append OUTPUT_FILE ;;
  w <- get_world ;;
  Os.print_to out_fid
    ("python version: " +++ platform_value w "python_version" +++ Str.nl
     +++ "python branch: " +++ platform_value w "python_branch" +++ Str.nl
     +++ "python build version: " +++ platform_value w "python_build" +++ Str.nl
     +++ "python compiler version: " +++ platform_value w "python_compiler"
     +++ Str.nl
     +++ "python implementation: " +++ platform_value w "python_implementation").

(** [helper(tag, fn)] of [saveOSVersionInfo]: whatever goes wrong inside
    is replaced by a line saying so. *)
Definition os_info_helper (out_fid : path) (tag fn : string) : M unit :=
  try_except
    (w <- get_world ;;
     match assoc fn (platform_facts w) with
     | Some v => Os.print_to out_fid (tag +++ ":  " +++ v)
     | None => raise (Exception ("platform." +++ fn))
     end)
    (fun _ => Os.print_to out_fid ("Failed to run  " +++ fn)).

Definition saveOSVersionInfo : M unit :=
  file <- standard_file_name "platform_config_info" ;;
  let OUTPUT_FILE := get_outdir_filename file in
  print ("Saving platform configuration info to " +++ OUTPUT_FILE) ;;
  out_fid <- Os.open_append OUTPUT_FILE ;;
  os_info_helper out_fid "os" "system" ;;
  os_info_helper out_fid "os kernel version" "version" ;;
  os_info_helper out_fid "os release version" "release" ;;
  os_info_helper out_fid "os platform" "platform" ;;
  os_info_helper out_fid "linux distribution" "linux_distribution" ;;
  os_info_helper out_fid "linux os distribution" "dist" ;;
  os_info_helper out_fid "mac version" "mac_ver" ;;
  os_info_helper out_fid "uname" "uname" ;;
  os_info_helper out_fid "architecture" "architecture" ;;
  os_info_helper out_fid "machine" "machine" ;;
  w <- get_world ;;
  match distro_info w with
  | Some info => Os.print_to out_fid ("Distro info " +++ info)
  | None => Os.print_to out_fid "distro not available"
  end.

(** [find /usr/local -type f -name 'pattern' ... >> OUTPUT_FILE] *)
Definition find_libs (pattern OUTPUT_FILE : string) : M unit :=
  run_cmd ("find /usr/local -type f -name '" +++ pattern
             +++ "'  2>/dev/null  |  grep -v '\.cache' >> " +++ OUTPUT_FILE).

Definition report_env (out_fid : path) (name : string) : M unit :=
  w <- get_world ;;
  match getenv w name with
  | Some (String c rest) =>
      Os.print_to out_fid (name +++ " " +++ String c rest)
  | _ => Os.print_to out_fid (name +++ " is unset")
  end.

Definition saveSynapseLibsInfo : M unit :=
  file <- standard_file_name "synapse_libs_info" ;;
  let OUTPUT_FILE := get_outdir_filename file in
  print ("Saving LD_LIBRARY_PATH setting to " +++ OUTPUT_FILE) ;;
  out_fid <- Os.open_append OUTPUT_FILE ;;
  report_env out_fid "LD_LIBRARY_PATH" ;;
  print ("Saving DYLD_LIBRARY_PATH setting to " +++ OUTPUT_FILE) ;;
  report_env out_fid "DYLD_LIBRARY_PATH" ;;
  print ("Saving Synapse libs info to " +++ OUTPUT_FILE) ;;
  run_cmd ("find /usr/local -type f -name 'libsynapse_helpers*'  2>/dev/null |  grep -v '\.cache' >> "
             +++ OUTPUT_FILE) ;;
  find_libs "synapse_logger*" OUTPUT_FILE ;;
  find_libs "libhccl*" OUTPUT_FILE ;;
  find_libs "graph_writer*" OUTPUT_FILE ;;
  find_libs "habana_device*" OUTPUT_FILE ;;
  find_libs "synapse_logger*" OUTPUT_FILE.

Definition savePackageInfo : M unit :=
  file <- standard_file_name "package_info" ;;
  let OUTPUT_FILE := get_outdir_filename file in
  w <- get_world ;;
  let found_dpkg := Os.find_executable "dpkg" w in
  let found_rpm := Os.find_executable "rpm" w in
  let command_helper pkg := pkg +++ " -l | grep habanalabs >> " +++ OUTPUT_FILE in
  let cmd :=
    if found_dpkg then command_helper "dpkg"
    else if found_rpm then command_helper "rpm"
    else "echo 'Did not find dpkg or rpm package managers' >> " +++ OUTPUT_FILE in
  run_cmd cmd.

Definition saveDmesgInfo : M unit :=
  file <- standard_file_name "dmesg_info" ;;
  let OUTPUT_FILE := get_outdir_filename file in
  run_cmd ("dmesg >> " +++ OUTPUT_FILE).

Definition saveSystemConfig : M unit :=
  try_reraise "Error in saveSystemConfig"
    (generateHeader "Saving miscellaneous system configuration info" "=" ;;
     savePythonInstallationInfo ;;
     saveOSVersionInfo ;;
     saveSynapseLibsInfo ;;
     savePackageInfo ;;
     saveDmesgInfo).

Definition generateTarball : M unit :=
  try_reraise "Error in generateTarball"
    (run_cmd ("chmod -R 755 " +++ str_of_path outdir_path) ;;
     let parent_dir := OsPath.dirname (str_of_path outdir_path) in
     let tardir_name := path_basename outdir_path in
     let tarfile_name := tardir_name +++ ".tar.gz" in
     generateHeader ("Generating " +++ parent_dir +++ "/" +++ tardir_name
                       +++ ".tar.gz") "=" ;;
     Os.chdir parent_dir ;;
     print ("Creating " +++ tarfile_name +++ "...") ;;
     Os.tar_create tarfile_name tardir_name ;;
     run_cmd ("chmod -R 755 " +++ tarfile_name)).

Definition uploadTarball : M unit := ret tt.

Definition run : M unit :=
  saveCmdOutputs ;;
  saveCmdlineAndOptions ;;
  saveEnvVars ;;
  saveHabanaLogs ;;
  saveModelSpecificArtifacts ;;
  saveAdditionalCopyDirs ;;
  saveDockerRunParameters ;;
  saveMachineStatus ;;
  saveSystemConfig ;;
  generateTarball ;;
  uploadTarball ;;
  print "Snapshot script completed successfully (from docker container)".

(** The collection steps of [run] in order, each under its own name. *)
Definition collection_steps : list (string * M unit) :=
  [ ("saveCmdOutputs", saveCmdOutputs);
    ("saveCmdlineAndOptions", saveCmdlineAndOptions);
    ("saveEnvVars", saveEnvVars);
    ("saveHabanaLogs", saveHabanaLogs);
    ("saveModelSpecificArtifacts", saveModelSpecificArtifacts);
    ("saveAdditionalCopyDirs", saveAdditionalCopyDirs);
    ("saveDockerRunParameters", saveDockerRunParameters);
    ("saveMachineStatus", saveMachineStatus);
    ("saveSystemConfig", saveSystemConfig);
    ("generateTarball", generateTarball) ].

(** The statements of each step without its [try ... except]: what the
    step does before anything is caught. *)
Definition step_bodies : list (string * M unit) :=
  [ ("saveCmdOutputs",
     generateHeader "Saving command outputs" "=" ;;
     w <- get_world ;;
     (if Os.path_exists (stdout args) w then
        saveFile (stdout args) (Some "stdout")
      else
        print ("The filename specified by " +++ stdout args
                 +++ " does not exist") ;;
        raise (Exception (stdout args +++ " is not a valid filename"))) ;;
     match stderr args with
     | Some err =>
         w' <- get_world ;;
         if Os.path_exists err w' then saveFile err (Some "stderr")
         else
           print ("The filename specified by " +++ err
                    +++ " does not exist") ;;
           raise (Exception (err +++ " is not a valid filename"))
     | None => ret tt
     end);
    ("saveCmdlineAndOptions",
     match cmd_name args with
     | Some name =>
         generateHeader "Saving training command line along with options" "=" ;;
         run_cmd "history -a" ;;
         let this_filename := OsPath.basename this_file in
         file <- standard_file_name "cmdline" ;;
         run_cmd ("grep " +++ name +++ " $HOME/.bash_history | grep -v "
                    +++ this_filename +++ " | tail -1 > "
                    +++ get_outdir_filename file)
     | None => ret tt
     end ;;
     match yaml_config args with
     | Some yaml =>
         generateHeader "Saving YAML configuration file used to run training" "=" ;;
         saveFile yaml (Some "yamlconfig")
     | None => ret tt
     end);
    ("saveEnvVars",
     generateHeader "Saving environment variables" "=" ;;
     w <- get_world ;;
     (if Os.path_exists (get_outdir_filename TMPFILENAME) w
      then Os.remove (get_outdir_filename TMPFILENAME)
      else ret tt) ;;
     file <- standard_file_name "envvars" ;;
     run_cmd ("env > " +++ get_outdir_filename file));
    ("saveHabanaLogs",
     generateHeader "Saving Habana log files" "=" ;;
     dir <- standard_file_name "habanalogs" ;;
     Os.makedirs (get_outdir_filename dir) ;;
     w <- get_world ;;
     let logs_path := getenv w "HABANA_LOGS" in
     saveFile (py_str_option logs_path +++ "/*") (Some "habanalogs"));
    ("saveModelSpecificArtifacts",
     if lite args then
       generateHeader
         "Skipping copying model artifacts, datasets, training run output directories, and other contents of $HOME since --lite option is specified..."
         "="
     else
       generateHeader
         "Saving model artifacts, datasets, training run output directories, and other contents of $HOME"
         "=" ;;
       dir <- standard_file_name "dockerc_homedir" ;;
       Os.makedirs (get_outdir_filename dir) ;;
       files_dirs_to_save <- getHomeDirContentToSave ;;
       print ("files_dirs_to_save:  " +++ py_repr_list files_dirs_to_save) ;;
       for_each files_dirs_to_save
                (fun sv_file => saveFile sv_file (Some "dockerc_homedir")));
    ("saveAdditionalCopyDirs",
     match copydirs args with
     | [] => ret tt
     | _ =>
         generateHeader "Saving user-specified copydirs" "=" ;;
         print ("copydirs = " +++ py_repr_list (copydirs args)) ;;
         dir <- standard_file_name "dockerc_copydir" ;;
         Os.makedirs (get_outdir_filename dir) ;;
         for_each (copydirs args) save_copydir
     end);
    ("saveDockerRunParameters",
     generateHeader
       "Saving container command history, packages list, disk usage" "=" ;;
     run_cmd "history -a" ;;
     saveFile "$HOME/.bash_history" (Some "dockerc_history") ;;
     redirect_to "pip3 list" "dockerc_pypkgs" ;;
     redirect_to "du -s -h ~/" "dockerc_diskusage");
    ("saveMachineStatus",
     generateHeader
       "Saving machine-specific information (hl-smi, cpuinfo, etc.)" "=" ;;
     redirect_to "hostname" "machine_hostname" ;;
     redirect_to "hostname -I" "machine_ipaddr" ;;
     redirect_to "hl-smi -q" "machine_hlsmi" ;;
     redirect_to "lspci" "machine_lspci" ;;
     redirect_to "cat /proc/cpuinfo" "machine_cpuinfo" ;;
     redirect_to "cat /sys/devices/system/cpu/cpu*/cpufreq/scaling_governor"
                 "machine_cpumode");
    ("saveSystemConfig",
     generateHeader "Saving miscellaneous system configuration info" "=" ;;
     savePythonInstallationInfo ;;
     saveOSVersionInfo ;;
     saveSynapseLibsInfo ;;
     savePackageInfo ;;
     saveDmesgInfo);
    ("generateTarball",
     run_cmd ("chmod -R 755 " +++ str_of_path outdir_path) ;;
     let parent_dir := OsPath.dirname (str_of_path outdir_path) in
     let tardir_name := path_basename outdir_path in
     let tarfile_name := tardir_name +++ ".tar.gz" in
     generateHeader ("Generating " +++ parent_dir +++ "/" +++ tardir_name
                       +++ ".tar.gz") "=" ;;
     Os.chdir parent_dir ;;
     print ("Creating " +++ tarfile_name +++ "...") ;;
     Os.tar_create tarfile_name tardir_name ;;
     run_cmd ("chmod -R 755 " +++ tarfile_name)) ].

End Methods.

(** ** [main] *)
Definition main : M unit :=
  if (List.length sys_argv =? 1)%nat then
    print_help ;;
    sys_exit 1
  else
    args <- parse_args ;;
    outdir_path <- create_output_dir (outdir args) (clear args) ;;
    Os.write_text (str_of_path (joinpath outdir_path EXECCMDLINEFILE))
                  ("Command executed as: python3 " +++ Str.join " " sys_argv
                     +++ Str.nl) ;;
    run args outdir_path.

End Script.


(* ===================================================================== *)
(** * Vocabulary of the statements below *)
(* ===================================================================== *)

(** The banner lines of [generateHeader]. *)
Definition header_lines (text sep : string) : list output :=
[ Line Str.nl; Line (Str.repeat sep 80); Line text; Line (Str.repeat sep 80) ].

(** [$HOME] as [getHomeDirContentToSave] resolves it, and the basename it
    excludes: that of the parent of [outdir_path], the directory given with
    [-o]. *)
Definition home_path (w : World) : path := get_canonical_path w "$HOME".

Definition excluded_basename (outdir_path : path) : string :=
path_basename (parent outdir_path).

(** A path of valid file names, as [Path.resolve()] returns it. *)
Definition clean_path (p : path) : Prop :=
Forall (fun c => Tree.valid_name c = true) p.

(** The two subdirectories for copies, as path strings. *)
Definition homedir_artifacts (outdir_path : path) : string :=
get_outdir_filename outdir_path "docker_container_homedir_and_model_artifacts".


(** What [saveCmdOutputs] raises for a missing stdout file. *)
Definition stdout_missing_error (args : Namespace) : exn :=
RuntimeError "Error in saveCmdOutputs"
             (Exception (stdout args +++ " is not a valid filename")).

(** The message of [parse_args] for a caller who is not root. *)
Definition rerun_as_root : string :=
"*** Rerun this script as user 'root' or as sudo ***" +++ Str.nl +++ Str.nl.

(** A statement that runs no command and leaves the environment and the
    installed programs alone, however it ends. *)
Definition inert {A} (m : M A) : Prop :=
forall w,
  shell_log (final_world (m w)) = shell_log w
  /\ environ (final_world (m w)) = environ w
  /\ executables (final_world (m w)) = executables w.

(** On a machine with environment [env] and programs [exes], a statement
    that returns has run exactly the commands [cmds], in order. *)
Definition emits {A} (env : list (string * string)) (exes : list string)
         (m : M A) (cmds : list string) : Prop :=
forall w a w',
  environ w = env -> executables w = exes ->
  m w = Ok a w' ->
  map fst (shell_log w') = map fst (shell_log w) ++ cmds
  /\ environ w' = env /\ executables w' = exes.

(** ** The lite run of the specification:
       [-o /tmp/snap -s /tmp/run.log --lite] *)
Module Lite.

Definition argv (program : string) : list string :=
[ program; "-o"; "/tmp/snap"; "-s"; "/tmp/run.log"; "--lite" ].

(** What [parse_args] returns for it, the script being called
    [gather_info_docker.py]. *)
Definition args : Namespace :=
mkNamespace "/tmp/snap/gather_info_docker" false true "/tmp/run.log"
            None None None [].

Definition outdir_path : path := ["tmp"; "snap"; "gather_info_docker"].

Definition archive : path := ["tmp"; "snap"; "gather_info_docker.tar.gz"].

(** The command lines of the run in order, given the value of
    [HABANA_LOGS] and which package manager is installed. *)
Definition commands (logs_path : option string) (found_dpkg found_rpm : bool)
  : list string :=
[ "cp -r -f -L --preserve=timestamps /tmp/run.log /tmp/snap/gather_info_docker/cmd_stdout.txt";
  "env > /tmp/snap/gather_info_docker/env_vars.txt";
  "cp -r -f -L --preserve=timestamps " +++ (py_str_option logs_path +++ "/*")
    +++ " /tmp/snap/gather_info_docker/habana_logs";
  "history -a";
  "cp -r -f -L --preserve=timestamps $HOME/.bash_history /tmp/snap/gather_info_docker/docker_container_history.txt";
  "pip3 list > /tmp/snap/gather_info_docker/docker_container_python_pkgs.txt";
  "du -s -h ~/ > /tmp/snap/gather_info_docker/docker_container_disk_usage.txt";
  "hostname > /tmp/snap/gather_info_docker/machine_hostname.txt";
  "hostname -I > /tmp/snap/gather_info_docker/machine_ipaddr.txt";
  "hl-smi -q > /tmp/snap/gather_info_docker/machine_hlsmi.txt";
  "lspci > /tmp/snap/gather_info_docker/machine_lspci.txt";
  "cat /proc/cpuinfo > /tmp/snap/gather_info_docker/machine_cpuinfo.txt";
  "cat /sys/devices/system/cpu/cpu*/cpufreq/scaling_governor > /tmp/snap/gather_info_docker/machine_cpumode.txt";
  "find /usr/local -type f -name 'libsynapse_helpers*'  2>/dev/null |  grep -v '\.cache' >> /tmp/snap/gather_info_docker/synapse_libs_info.txt";
  "find /usr/local -type f -name 'synapse_logger*'  2>/dev/null  |  grep -v '\.cache' >> /tmp/snap/gather_info_docker/synapse_libs_info.txt";
  "find /usr/local -type f -name 'libhccl*'  2>/dev/null  |  grep -v '\.cache' >> /tmp/snap/gather_info_docker/synapse_libs_info.txt";
  "find /usr/local -type f -name 'graph_writer*'  2>/dev/null  |  grep -v '\.cache' >> /tmp/snap/gather_info_docker/synapse_libs_info.txt";
  "find /usr/local -type f -name 'habana_device*'  2>/dev/null  |  grep -v '\.cache' >> /tmp/snap/gather_info_docker/synapse_libs_info.txt";
  "find /usr/local -type f -name 'synapse_logger*'  2>/dev/null  |  grep -v '\.cache' >> /tmp/snap/gather_info_docker/synapse_libs_info.txt";
  (if found_dpkg
   then "dpkg -l | grep habanalabs >> /tmp/snap/gather_info_docker/package_info.txt"
   else if found_rpm
   then "rpm -l | grep habanalabs >> /tmp/snap/gather_info_docker/package_info.txt"
   else "echo 'Did not find dpkg or rpm package managers' >> /tmp/snap/gather_info_docker/package_info.txt");
  "dmesg >> /tmp/snap/gather_info_docker/dmesg_info.txt";
  "chmod -R 755 /tmp/snap/gather_info_docker";
  "chmod -R 755 gather_info_docker.tar.gz" ].

End Lite.

(* ===================================================================== *)
(** * A reference shell *)
(* ===================================================================== *)

(** One instance of [bash], enough to run the script on the concrete
    machines of the examples below.  It knows the command shapes the script
    emits: a pipeline redirected into a file, [cp -r -f] with sources and a
    destination, and programs that leave the tree as it is.  The output of
    a program is kept symbolic. *)
Module ReferenceShell.

(** [$VAR], a leading [~] and a trailing [/*] in a word.  (The variables
    the script mentions are set on the example machines; a pattern
    without a match stays as typed.) *)
Definition expand_word (w : World) (word : string) : list string :=
  let word := Expand.expandvars w (Expand.expanduser w word) in
  match Str.rev word with
  | String "*"%char (String "/"%char dir_rev) =>
      let dir := Str.rev dir_rev in
      match Os.stat w dir with
      | Some (Dir es) =>
          match filter (fun e => negb (Str.starts_with "." (fst e))) es with
          | [] => [word]
          | visible => map (fun e => dir +++ "/" +++ fst e) visible
          end
      | _ => [word]
      end
  | _ => [word]
  end.

Definition builtins : list string := ["history"; "echo"; "cd"].

Definition available (w : World) (program : string) : bool :=
  existsb (String.eqb program) builtins || Os.find_executable program w.

(** The stages of a pipeline: the words between [|]. *)
Fixpoint stages (words : list string) : list (list string) :=
  match words with
  | [] => [[]]
  | t :: rest =>
      if String.eqb t "|" then [] :: stages rest
      else match stages rest with
           | [] => [[t]]
           | st :: sts => (t :: st) :: sts
           end
  end.

(** A pipeline's status is that of its last stage: 127 when that program
    is not installed. *)
Definition pipeline_status (w : World) (words : list string) : Z :=
  match last (stages words) [] with
  | program :: _ => if available w program then 0%Z else 127%Z
  | [] => 0%Z
  end.

Definition pipeline_output (w : World) (words : list string) : string :=
  if forallb (fun st => match st with
                        | program :: _ => available w program
                        | [] => true
                        end) (stages words)
  then "$(" +++ Str.join " " words +++ ")" +++ Str.nl
  else "".

(** [cp -r]: a directory copied onto a directory is merged into it. *)
Fixpoint overlay (new : node) (old : option node) : node :=
  match new with
  | File data => File data
  | Dir es =>
      let olds := match old with Some (Dir l) => l | _ => [] end in
      Dir ((fix go (l acc : list (string * node)) : list (string * node) :=
              match l with
              | [] => acc
              | (k, child) :: rest =>
                  go rest (Tree.entry_set k (overlay child (Tree.entry_get k acc)) acc)
              end) es olds)
  end.

(** Copy one source to [dst]: into it when [dst] is a directory. *)
Definition cp_one (w : World) (dst : string) (acc : node * Z) (src : string)
  : node * Z :=
  let '(tree, status) := acc in
  let w' := with_fs w tree in
  match Os.stat w' src, Os.locate w' dst with
  | Some n, Some q =>
      let target :=
        match Tree.lookup tree q with
        | Some (Dir _) => q ++ [OsPath.basename src]
        | _ => q
        end in
      match Tree.put tree target (overlay n (Tree.lookup tree target)) with
      | Some tree' => (tree', status)
      | None => (tree, 1%Z)
      end
  | _, _ => (tree, 1%Z)
  end.

Definition redirect (w : World) (append : bool) (words : list string)
           (target : string) : node * Z :=
  match Os.locate w target with
  | Some q =>
      match Tree.lookup (fs w) q with
      | Some (Dir _) => (fs w, 1%Z)
      | found =>
          let before :=
            match found with
            | Some (File data) => if append then data else ""
            | _ => ""
            end in
          match Tree.put (fs w) q (File (before +++ pipeline_output w words)) with
          | Some tree => (tree, pipeline_status w words)
          | None => (fs w, 1%Z)
          end
      end
  | None => (fs w, 1%Z)
  end.

Definition is_flag (word : string) : bool := Str.starts_with "-" word.

Definition bash_model (cmd : string) (w : World) : node * Z :=
  let words := Str.words cmd in
  match rev words with
  | target :: op :: before_rev =>
      if String.eqb op ">" then redirect w false (rev before_rev) target
      else if String.eqb op ">>" then redirect w true (rev before_rev) target
      else
        match words with
        | "cp" :: operands =>
            if available w "cp" then
              match rev (flat_map (expand_word w)
                                  (filter (fun t => negb (is_flag t)) operands)) with
              | dst :: srcs_rev =>
                  fold_left (cp_one w dst) (rev srcs_rev) (fs w, 0%Z)
              | [] => (fs w, 1%Z)
              end
            else (fs w, 127%Z)
        | program :: _ => (fs w, if available w program then 0%Z else 127%Z)
        | [] => (fs w, 0%Z)
        end
  | _ => (fs w, pipeline_status w words)
  end.

End ReferenceShell.

(** ** Example machines *)
Module Demo.

Definition script : string := "/opt/Snapshot_For_Debug/src/gather_info_docker.py".

(** A container with a finished training run: its log in [/tmp/run.log],
    [HABANA_LOGS] unset, and no [hl-smi] installed. *)
Definition container : World :=
  mkWorld
    (Dir [ ("tmp", Dir [ ("run.log", File "epoch 1 loss 0.5") ]);
           ("root", Dir [ (".bash_history", File "python3 train.py");
                          ("train.py", File "import torch");
                          ("snap", File "notes");
                          ("project", Dir [ ("snap", Dir [ ("old", File "x") ]) ]);
                          ("data", Dir [ ("set", Dir [ ("a.bin", File "0") ]) ]) ]);
           ("data", Dir [ ("ckpt", File "weights") ]) ])
    ["root"]
    [ ("HOME", "/root"); ("LD_LIBRARY_PATH", "/usr/lib/habanalabs") ]
    0
    [ "cp"; "env"; "pip3"; "du"; "hostname"; "lspci"; "cat"; "find"; "grep";
      "tail"; "dpkg"; "dmesg"; "chmod" ]
    [ ("python_version", "3.8.10"); ("python_implementation", "CPython");
      ("system", "Linux"); ("machine", "x86_64") ]
    None
    []
    [].

(** The lite run of the specification on that container. *)
Definition lite_run : result unit :=
main ReferenceShell.bash_model (Lite.argv "gather_info_docker.py") script
     container.

(** The same call without the required [-s]. *)
Definition no_stdout_argv : list string :=
[ "gather_info_docker.py"; "-o"; "/tmp/snap" ].

Definition no_stdout_run : result unit :=
main ReferenceShell.bash_model no_stdout_argv script container.

(** Arguments whose stdout file is not there. *)
Definition missing_stdout_args : Namespace :=
mkNamespace "/tmp/snap/gather_info_docker" false true "/tmp/missing.log"
            None None None [].

(** A machine where earlier runs left things behind: a regular file at
    [/tmp/snap], and archives next to [/tmp/snap] and [/tmp/out]. *)
Definition cluttered : World :=
mkWorld
  (Dir [ ("tmp", Dir [ ("run.log", File "epoch 1 loss 0.5");
                       ("snap", File "not a directory");
                       ("snap.tar.gz", File "stale");
                       ("out.tar.gz", File "stale") ]);
         ("root", Dir [ (".bash_history", File "python3 train.py") ]) ])
  ["root"]
  [ ("HOME", "/root") ]
  0
  [ "cp"; "env"; "chmod" ]
  []
  None
  []
  [].

(** [create_output_dir] on the cluttered machine. *)
Definition make_out : result path := create_output_dir "/tmp/out" false cluttered.

(** The home-directory enumeration of a run into [/tmp/snap] on the
    container. *)
Definition home_listing : result (list string) :=
getHomeDirContentToSave Lite.outdir_path container.

End Demo.

(* ===================================================================== *)
(** * Further vocabulary *)
(* ===================================================================== *)

(** A path none of whose components contains a dollar sign:
    [os.path.expandvars] leaves its string alone. *)
Definition dollar_free (p : path) : Prop :=
Forall (fun c => Str.contains "$"%char c = false) p.

(** A command line that spells every option in full and gives values as
    separate arguments: each argument that starts with a dash is the lone
    dash or one of the option strings of [GatherInfoDockerArgParser]. *)
Definition spelled_in_full (args : list string) : Prop :=
Forall (fun arg =>
          Str.starts_with "-" arg = true ->
          arg = "-" \/ ArgParse.find_option arg ArgParse.option_table <> None)
       args.

(** The record of the command line that [main] writes. *)
Definition command_line_record (sys_argv : list string) : string :=
"Command executed as: python3 " +++ Str.join " " sys_argv +++ Str.nl.

(** A statement that returns on every machine. *)
Definition succeeds {A} (m : M A) : Prop :=
forall w, exists a w', m w = Ok a w'.

(** The machine on which [saveCmdOutputs] looks for the stderr file: the
    banner is printed and the stdout file has been copied. *)
Definition after_stdout_copy (bash : string -> World -> node * Z)
         (args : Namespace) (outdir_path : path) (w : World) : World :=
final_world
  ((generateHeader "Saving command outputs" "=" ;;
    saveFile bash outdir_path (stdout args) (Some "stdout")) w).

(** What a file holds; nothing when it is not there. *)
Definition contents (found : option node) : string :=
match found with
| Some (File data) => data
| _ => ""
end.

(** Lines as [print(..., file=f)] writes them, each ended by a newline. *)
Fixpoint lines_text (lines : list string) : string :=
match lines with
| [] => ""
| line :: rest => line +++ Str.nl +++ lines_text rest
end.

(** The report of [savePythonInstallationInfo]: one [print] of five
    lines. *)
Definition python_report (w : World) : string :=
lines_text
  [ "python version: " +++ platform_value w "python_version";
    "python branch: " +++ platform_value w "python_branch";
    "python build version: " +++ platform_value w "python_build";
    "python compiler version: " +++ platform_value w "python_compiler";
    "python implementation: " +++ platform_value w "python_implementation" ].

(** The probes of [saveOSVersionInfo], each a tag and a function of
    [platform], and the line a probe leaves: the value, or the note that
    the call failed. *)
Definition os_probes : list (string * string) :=
[ ("os", "system");
  ("os kernel version", "version");
  ("os release version", "release");
  ("os platform", "platform");
  ("linux distribution", "linux_distribution");
  ("linux os distribution", "dist");
  ("mac version", "mac_ver");
  ("uname", "uname");
  ("architecture", "architecture");
  ("machine", "machine") ].

Definition os_probe_line (w : World) (probe : string * string) : string :=
match assoc (snd probe) (platform_facts w) with
| Some value => fst probe +++ ":  " +++ value
| None => "Failed to run  " +++ snd probe
end.

Definition distro_line (w : World) : string :=
match distro_info w with
| Some info => "Distro info " +++ info
| None => "distro not available"
end.

Definition platform_report (w : World) : string :=
lines_text (map (os_probe_line w) os_probes ++ [distro_line w]).

(** Between two trees only the entry [name] of the directory [dir] has
    changed: [dir] is still a directory, and its other entries, with what
    is below them, are the same. *)
Definition touches_only (dir : path) (name : string) (t t' : node) : Prop :=
(exists es, Tree.lookup t' dir = Some (Dir es))
/\ forall other rest,
     other <> name ->
     Tree.lookup t' (dir ++ other :: rest) = Tree.lookup t (dir ++ other :: rest).

(** A step that wraps the statements [body] in
    [try ... except Exception as exc: raise RuntimeError(...) from exc]:
    what [body] raises leaves the step as "Error in <name>" with that
    exception as its cause, in the same world; what [body] returns the
    step returns; and the step raises nothing else. *)
Definition wraps_failures (name : string) (step body : M unit) : Prop :=
(forall w cause w',
    body w = Raise cause w' ->
    step w = Raise (RuntimeError ("Error in " +++ name) cause) w')
/\ (forall w w', body w = Ok tt w' -> step w = Ok tt w')
/\ (forall w e w',
       step w = Raise e w' ->
       exists cause,
         body w = Raise cause w'
         /\ e = RuntimeError ("Error in " +++ name) cause).


(** ** More example machines *)
Module Examples.

(** The container after an earlier run into [/tmp/snap]: the output
    directory is there, with a stale [tmpfile] and an earlier report in
    it, and the run left its stderr in [/tmp/run.err]. *)
Definition prepared : World :=
with_fs Demo.container
  (Dir [ ("tmp", Dir [ ("run.log", File "epoch 1 loss 0.5");
                       ("run.err", File "warning: slow input");
                       ("snap",
                        Dir [ ("gather_info_docker",
                               Dir [ ("tmpfile", File "stale");
                                     ("python_installation_info.txt",
                                      File "an earlier report") ]) ]) ]);
         ("root", Dir [ (".bash_history", File "python3 train.py");
                        ("train.py", File "import torch");
                        ("project", Dir [ ("snap", Dir []) ]);
                        ("data", Dir [ ("a.bin", File "0") ]) ]) ]).

(** What is in the output directory of that machine. *)
Definition prepared_entries : list (string * node) :=
[ ("tmpfile", File "stale");
  ("python_installation_info.txt", File "an earlier report") ].

(** The same, with directories where files are expected: [tmpfile] in
    the output directory, and [gather_info_docker.tar.gz] beside it. *)
Definition obstructed : World :=
with_fs Demo.container
  (Dir [ ("tmp", Dir [ ("run.log", File "epoch 1 loss 0.5");
                       ("snap",
                        Dir [ ("gather_info_docker",
                               Dir [ ("tmpfile", Dir []) ]);
                              ("gather_info_docker.tar.gz", Dir []) ]) ]);
         ("root", Dir [ (".bash_history", File "python3 train.py") ]) ]).

(** A run with [-o /root]: the output directory is an entry of the home
    directory. *)
Definition home_run : World :=
with_fs Demo.container
  (Dir [ ("tmp", Dir [ ("run.log", File "epoch 1 loss 0.5") ]);
         ("root", Dir [ (".bash_history", File "python3 train.py");
                        ("gather_info_docker",
                         Dir [ ("cmd_stdout.txt", File "epoch 1 loss 0.5");
                               ("habana_logs", Dir []) ]) ]) ]).

Definition home_run_entries : list (string * node) :=
[ ("cmd_stdout.txt", File "epoch 1 loss 0.5"); ("habana_logs", Dir []) ].

(** The container with [HOME] not set. *)
Definition no_home : World :=
mkWorld (fs Demo.container) ["root"] [] 0 (executables Demo.container)
        [] None [] [].

(** Arguments of a full run with a stderr file, present or not. *)
Definition with_stderr : Namespace :=
mkNamespace "/tmp/snap/gather_info_docker" false false "/tmp/run.log"
            (Some "/tmp/run.err") None None [].

Definition with_missing_stderr : Namespace :=
mkNamespace "/tmp/snap/gather_info_docker" false false "/tmp/run.log"
            (Some "/tmp/missing.err") None None [].

(** The command line without [-o]. *)
Definition default_argv : list string :=
[ "gather_info_docker.py"; "-s"; "/tmp/run.log" ].

(** The tree of the container once the directory for the copies of the
    home directory is made, and the entries of [/root] in it. *)
Definition with_artifacts_dir : node :=
match Tree.mkdirs (fs Demo.container)
                  (Os.abspath Demo.container
                              (homedir_artifacts Lite.outdir_path)) with
| Some t => t
| None => Dir []
end.

Definition root_entries : list (string * node) :=
match Tree.lookup (fs Demo.container) ["root"] with
| Some (Dir es) => es
| _ => []
end.

(** What [argparse] makes of the lite command line, and the output
    directory of that run as [create_output_dir] makes it. *)
Definition lite_parsed : Namespace :=
mkNamespace "/tmp/snap" false true "/tmp/run.log" None None None [].

Definition lite_outdir : result path :=
create_output_dir (outdir Lite.args) (clear Lite.args) Demo.container.

(** The enumeration of the home directory in the run with [-o /root]. *)
Definition home_run_listing : result (list string) :=
getHomeDirContentToSave (home_path home_run ++ ["gather_info_docker"]) home_run.

(** The archive step on the prepared machine. *)
Definition prepared_archive : result unit :=
generateTarball ReferenceShell.bash_model Lite.outdir_path prepared.

(** The lite command line with a stdout file that is not there, and the
    record of it in the output directory. *)
Definition missing_stdout_argv : list string :=
[ "gather_info_docker.py"; "-o"; "/tmp/snap"; "-s"; "/tmp/missing.log"; "--lite" ].

Definition missing_stdout_recorded : result unit :=
Os.write_text (str_of_path (joinpath Lite.outdir_path (EXECCMDLINEFILE Demo.script)))
              (command_line_record missing_stdout_argv)
              (final_world lite_outdir).






(** The lite run on the machine where [tmpfile] is a directory: its
    steps, and the first two of them run. *)
Definition obstructed_steps : list (string * M unit) :=
collection_steps ReferenceShell.bash_model (Lite.argv "gather_info_docker.py")
                 Lite.args Lite.outdir_path.

Definition obstructed_start : result unit :=
for_each (firstn 2 obstructed_steps) (fun s => snd s) obstructed.

(** The lite run on the container after [create_output_dir]: the record
    of the command line, and the steps. *)
Definition lite_recorded : result unit :=
Os.write_text (str_of_path (joinpath Lite.outdir_path (EXECCMDLINEFILE Demo.script)))
              ("Command executed as: python3 "
                 +++ Str.join " " (Lite.argv "gather_info_docker.py") +++ Str.nl)
              (final_world lite_outdir).

Definition lite_collected : result unit :=
run ReferenceShell.bash_model (Lite.argv "gather_info_docker.py") Lite.args
    Lite.outdir_path (final_world lite_recorded).

End Examples.

(* ===================================================================== *)
(** * Facts about the directory tree *)
(* ===================================================================== *)

Unset Implicit Arguments.

Module TreeFacts.
Import Tree.

Lemma entry_get_set_same name x es :
  entry_get name (entry_set name x es) = Some x.
Proof.
  induction es as [|[k n] es IH]; simpl.
  - now rewrite String.eqb_refl.
  - destruct (String.eqb name k) eqn:E; simpl; rewrite E; auto.
Qed.

Lemma entry_get_set_other name other x es :
  name <> other ->
  entry_get name (entry_set other x es) = entry_get name es.
Proof.
  intros Hne. induction es as [|[k n] es IH]; simpl.
  - apply String.eqb_neq in Hne. now rewrite Hne.
  - destruct (String.eqb other k) eqn:E; simpl.
    + apply String.eqb_eq in E. subst k.
      apply String.eqb_neq in Hne. now rewrite Hne.
    + destruct (String.eqb name k); auto.
Qed.

Lemma entry_get_del_same name es : entry_get name (entry_del name es) = None.
Proof.
  induction es as [|[k n] es IH]; simpl; auto.
  destruct (String.eqb name k) eqn:E; simpl; auto. now rewrite E.
Qed.

Lemma entry_get_del_other name other es :
  name <> other ->
  entry_get name (entry_del other es) = entry_get name es.
Proof.
  intros Hne. induction es as [|[k n] es IH]; simpl; auto.
  destruct (String.eqb other k) eqn:E; simpl.
  - apply String.eqb_eq in E. subst k.
    apply String.eqb_neq in Hne. now rewrite Hne.
  - now rewrite IH.
Qed.

Lemma lookup_file_inv data p n :
  lookup (File data) p = Some n -> p = [] /\ n = File data.
Proof. destruct p; simpl; intros H; inversion H; auto. Qed.

Lemma lookup_app root p rest :
  lookup root (p ++ rest) =
  match lookup root p with
  | Some n => lookup n rest
  | None => None
  end.
Proof.
  revert root. induction p as [|c p IH]; simpl; intros root; auto.
  destruct root as [|es]; auto.
  destruct (entry_get c es); auto.
Qed.

Lemma del_cons c rest es :
  del (Dir es) (c :: rest) =
  match rest with
  | [] => match entry_get c es with
          | Some _ => Some (Dir (entry_del c es))
          | None => None
          end
  | _ => match entry_get c es with
         | Some child =>
             match del child rest with
             | Some child' => Some (Dir (entry_set c child' es))
             | None => None
             end
         | None => None
         end
  end.
Proof. destruct rest; reflexivity. Qed.

Lemma put_cons c rest es x :
  put (Dir es) (c :: rest) x =
  match rest with
  | [] => Some (Dir (entry_set c x es))
  | _ => match entry_get c es with
         | Some child =>
             match put child rest x with
             | Some child' => Some (Dir (entry_set c child' es))
             | None => None
             end
         | None => None
         end
  end.
Proof. destruct rest; reflexivity. Qed.

(** What was unlinked is gone. *)
Lemma lookup_del_same root p root' :
  del root p = Some root' -> lookup root' p = None.
Proof.
  revert root root'. induction p as [|c rest IH]; intros root root' H.
  - destruct root; discriminate.
  - destruct root as [|es]; [destruct rest; discriminate|].
    rewrite del_cons in H.
    destruct rest as [|c' rest'].
    + destruct (entry_get c es); inversion H; subst. simpl.
      now rewrite entry_get_del_same.
    + destruct (entry_get c es) as [child|]; [|discriminate].
      destruct (del child (c' :: rest')) as [child'|] eqn:Hd; [|discriminate].
      inversion H; subst.
      change (lookup (Dir (entry_set c child' es)) (c :: c' :: rest'))
        with (match entry_get c (entry_set c child' es) with
              | Some ch => lookup ch (c' :: rest')
              | None => None
              end).
      rewrite entry_get_set_same. eauto.
Qed.

(** Unlinking a regular file leaves every directory a directory. *)
Lemma del_file_keeps_dirs root q data root' :
  del root q = Some root' ->
  lookup root q = Some (File data) ->
  forall p es, lookup root p = Some (Dir es) ->
               exists es', lookup root' p = Some (Dir es').
Proof.
  revert root root'. induction q as [|c rest IH]; intros root root' Hd Hq p es Hp.
  - destruct root; discriminate.
  - destruct root as [|entries]; [destruct rest; discriminate|].
    rewrite del_cons in Hd.
    simpl in Hq.
    destruct (entry_get c entries) as [child|] eqn:Hc; [|discriminate].
    destruct p as [|c' p'].
    { destruct rest as [|r rest'];
        [|destruct (del child (r :: rest'))];
        inversion Hd; subst; simpl; eauto. }
    simpl in Hp.
    destruct (String.eqb_spec c' c) as [->|Hne].
    + rewrite Hc in Hp.
      destruct rest as [|r rest'].
      * simpl in Hq. inversion Hq; subst.
        apply lookup_file_inv in Hp. destruct Hp as [_ Hp]. discriminate.
      * destruct (del child (r :: rest')) as [child'|] eqn:Hd'; [|discriminate].
        inversion Hd; subst.
        destruct (IH _ _ Hd' Hq _ _ Hp) as [es' Hes'].
        exists es'. simpl. rewrite entry_get_set_same. exact Hes'.
    + destruct rest as [|r rest'].
      * inversion Hd; subst. exists es. simpl.
        rewrite entry_get_del_other by exact Hne. exact Hp.
      * destruct (del child (r :: rest')) as [child'|]; [|discriminate].
        inversion Hd; subst. exists es. simpl.
        rewrite entry_get_set_other by exact Hne. exact Hp.
Qed.

(** [mkdirs] leaves a directory at its path. *)
Lemma lookup_chain p : exists es, lookup (chain p) p = Some (Dir es).
Proof.
  induction p as [|c p IH]; simpl; eauto.
  now rewrite String.eqb_refl.
Qed.

Lemma lookup_mkdirs root p root' :
  mkdirs root p = Some root' -> exists es, lookup root' p = Some (Dir es).
Proof.
  revert root root'. induction p as [|c p IH]; intros root root' H.
  - destruct root; simpl in H; inversion H; subst; simpl; eauto.
  - destruct root as [|es]; simpl in H; [discriminate|].
    destruct (entry_get c es) as [child|] eqn:Hc.
    + destruct (mkdirs child p) as [child'|] eqn:Hm; [|discriminate].
      inversion H; subst. simpl. rewrite entry_get_set_same. eauto.
    + inversion H; subst. simpl. rewrite entry_get_set_same.
      apply lookup_chain.
Qed.

Lemma mkdirs_is_dir root p root' :
  mkdirs root p = Some root' -> is_dir root' = true.
Proof.
  destruct root as [|es]; destruct p as [|c p]; simpl;
    try discriminate; [intros H; inversion H; auto|].
  destruct (entry_get c es); [destruct (mkdirs n p)|];
    intros H; inversion H; auto.
Qed.

(** Unlinking something that exists below the root works. *)
Lemma del_exists root p n :
  lookup root p = Some n -> p <> [] -> exists root', del root p = Some root'.
Proof.
  revert root. induction p as [|c rest IH]; intros root Hl Hne; [congruence|].
  destruct root as [|es]; [discriminate|].
  simpl in Hl. rewrite del_cons.
  destruct (entry_get c es) as [child|]; [|discriminate].
  destruct rest as [|r rest']; [eauto|].
  destruct (IH child Hl) as [child' Hc]; [discriminate|].
  rewrite Hc. eauto.
Qed.

(** Where a file was unlinked, the directory can be made. *)
Lemma mkdirs_after_del root p data root1 :
  lookup root p = Some (File data) ->
  del root p = Some root1 ->
  exists root2, mkdirs root1 p = Some root2.
Proof.
  revert root root1. induction p as [|c rest IH]; intros root root1 Hl Hd.
  - destruct root; discriminate.
  - destruct root as [|es]; [discriminate|].
    simpl in Hl. rewrite del_cons in Hd.
    destruct (entry_get c es) as [child|]; [|discriminate].
    destruct rest as [|r rest'].
    + inversion Hd; subst. simpl. rewrite entry_get_del_same. eauto.
    + destruct (del child (r :: rest')) as [child'|] eqn:Hc; [|discriminate].
      inversion Hd; subst.
      destruct (IH _ _ Hl Hc) as [root2 H2].
      change (mkdirs (Dir (entry_set c child' es)) (c :: r :: rest'))
        with (match entry_get c (entry_set c child' es) with
              | Some ch =>
                  match mkdirs ch (r :: rest') with
                  | Some ch' => Some (Dir (entry_set c ch' (entry_set c child' es)))
                  | None => None
                  end
              | None => Some (Dir (entry_set c (chain (r :: rest')) (entry_set c child' es)))
              end).
      rewrite entry_get_set_same, H2. eauto.
Qed.

End TreeFacts.

(* ===================================================================== *)
(** * Facts about statements *)
(* ===================================================================== *)

Lemma bind_ok_inv {A B} (m : M A) (k : A -> M B) w b w' :
  bind m k w = Ok b w' ->
  exists a w1, m w = Ok a w1 /\ k a w1 = Ok b w'.
Proof.
  unfold bind. destruct (m w) as [a w1|e w1|c w1]; try discriminate; eauto.
Qed.

Lemma bind_ok {A B} (m : M A) (k : A -> M B) w a w1 :
  m w = Ok a w1 -> bind m k w = k a w1.
Proof. unfold bind. now intros ->. Qed.

Lemma bind_raise {A B} (m : M A) (k : A -> M B) w e w1 :
  m w = Raise e w1 -> bind m k w = Raise e w1.
Proof. unfold bind. now intros ->. Qed.

Lemma try_reraise_ok_inv {A} msg (body : M A) w a w' :
  try_reraise msg body w = Ok a w' -> body w = Ok a w'.
Proof.
  unfold try_reraise, try_except, raise.
  destruct (body w); intros H; inversion H; auto.
Qed.

Lemma try_reraise_ok {A} msg (body : M A) w a w' :
  body w = Ok a w' -> try_reraise msg body w = Ok a w'.
Proof. unfold try_reraise, try_except. now intros ->. Qed.

Lemma try_reraise_raise {A} msg (body : M A) w e w' :
  body w = Raise e w' -> try_reraise msg body w = Raise (RuntimeError msg e) w'.
Proof. unfold try_reraise, try_except, raise. now intros ->. Qed.

(** A [try ... except Exception: raise RuntimeError(msg) from exc] block lets
    nothing out but that [RuntimeError], with the original exception as its
    cause. *)
Lemma try_reraise_raise_inv {A} msg (body : M A) w e w' :
  try_reraise msg body w = Raise e w' ->
  exists cause, body w = Raise cause w' /\ e = RuntimeError msg cause.
Proof.
  unfold try_reraise, try_except, raise.
  destruct (body w); intros H; inversion H; subst; eauto.
Qed.

Lemma makedirs_at_ok_inv p w w' :
  Os.makedirs_at p w = Ok tt w' ->
  exists t, Tree.mkdirs (fs w) p = Some t /\ w' = with_fs w t.
Proof.
  unfold Os.makedirs_at.
  destruct (Tree.mkdirs (fs w) p) as [t|].
  - intros H. inversion H. eauto.
  - destruct (Tree.lookup (fs w) p) as [[|]|]; discriminate.
Qed.

(** The walk through a tree ends where the components say, whatever the
    tree: the tree only decides whether it gets there. *)
Lemma walk_target root cur comps q :
  Os.walk root cur comps = Some q -> q = OsPath.normalize cur comps.
Proof.
  revert cur. induction comps as [|c rest IH]; simpl; intros cur H.
  - now inversion H.
  - destruct (Tree.lookup root cur) as [[|es]|]; try discriminate.
    destruct (String.eqb c "" || String.eqb c "."); [auto|].
    destruct (String.eqb c ".."); auto.
Qed.

(* ===================================================================== *)
(** * Path objects and path strings *)
(* ===================================================================== *)

(** The calls on a resolved [Path] look the path up component by component;
    the calls on a string walk the string.  For a path of valid names the
    two agree, which is what handing the [Path] to [os.path] amounts to. *)

Lemma append_empty_r s : s +++ "" = s.
Proof. induction s as [|c s IH]; simpl; [reflexivity|now rewrite IH]. Qed.

Lemma split_no_sep sep s :
  Str.contains sep s = false -> Str.split sep s = [s].
Proof.
  induction s as [|c s IH]; simpl; intros H; [reflexivity|].
  apply orb_false_elim in H. destruct H as [Hc Hs].
  rewrite Ascii.eqb_sym, Hc, (IH Hs). reflexivity.
Qed.

Lemma split_app_sep sep s rest :
  Str.contains sep s = false ->
  Str.split sep (s +++ String sep rest) = s :: Str.split sep rest.
Proof.
  induction s as [|c s IH]; simpl; intros H.
  - now rewrite Ascii.eqb_refl.
  - apply orb_false_elim in H. destruct H as [Hc Hs].
    rewrite Ascii.eqb_sym, Hc, (IH Hs). reflexivity.
Qed.

(** The pieces of a split do not contain the separator. *)
Lemma split_pieces sep s :
  Forall (fun piece => Str.contains sep piece = false) (Str.split sep s).
Proof.
  induction s as [|c s IH]; simpl.
  - repeat constructor.
  - destruct (Ascii.eqb c sep) eqn:Hc.
    + constructor; [reflexivity|exact IH].
    + destruct (Str.split sep s) as [|piece pieces].
      * repeat constructor. simpl. now rewrite Ascii.eqb_sym, Hc.
      * inversion IH; subst. constructor; [|assumption].
        simpl. rewrite Ascii.eqb_sym, Hc. assumption.
Qed.

Lemma valid_name_inv name :
  Tree.valid_name name = true ->
  String.eqb name "" = false /\ String.eqb name "." = false
  /\ String.eqb name ".." = false /\ Str.contains Str.slash name = false.
Proof.
  unfold Tree.valid_name. intros H.
  apply andb_prop in H. destruct H as [H H4].
  apply andb_prop in H. destruct H as [H H3].
  apply andb_prop in H. destruct H as [H1 H2].
  repeat split; now apply negb_true_iff.
Qed.

(** The string of a clean path is a slash followed by its components with
    slashes between them. *)
Lemma str_of_path_split p :
  clean_path p -> p <> [] ->
  exists rest,
    str_of_path p = String Str.slash rest /\ Str.split Str.slash rest = p.
Proof.
  induction p as [|c p IH]; intros Hclean Hne; [congruence|].
  inversion Hclean as [|? ? Hc Hp]; subst.
  destruct (valid_name_inv _ Hc) as (_ & _ & _ & Hslash).
  destruct p as [|c' p'].
  - exists c. split; [reflexivity|]. now apply split_no_sep.
  - destruct (IH Hp) as (rest' & Hstr & Hsplit); [discriminate|].
    exists (c +++ String Str.slash rest'). split.
    + change (str_of_path (c :: c' :: p'))
        with (String Str.slash (c +++ str_of_path (c' :: p'))).
      now rewrite Hstr.
    + rewrite (split_app_sep _ _ _ Hslash), Hsplit. reflexivity.
Qed.

(** On valid names the walk only descends. *)
Lemma walk_clean root cur p :
  clean_path p ->
  match Os.walk root cur p with
  | Some q => Tree.lookup root q
  | None => None
  end = Tree.lookup root (cur ++ p).
Proof.
  revert cur. induction p as [|c p IH]; intros cur Hclean; simpl.
  - now rewrite app_nil_r.
  - inversion Hclean as [|? ? Hc Hp]; subst.
    destruct (valid_name_inv _ Hc) as (H1 & H2 & H3 & _).
    rewrite (TreeFacts.lookup_app root cur (c :: p)).
    destruct (Tree.lookup root cur) as [[data|es]|] eqn:Hcur.
    + reflexivity.
    + rewrite H1, H2, H3. simpl orb. cbv iota.
      rewrite (IH (cur ++ [c]) Hp), <- app_assoc.
      rewrite (TreeFacts.lookup_app root cur ([c] ++ p)), Hcur. reflexivity.
    + reflexivity.
Qed.

(** [os.stat(str(p))] finds what is at [p]. *)
Lemma stat_str_of_path w p :
  clean_path p -> p <> [] \/ Tree.is_dir (fs w) = true ->
  Os.stat w (str_of_path p) = Tree.lookup (fs w) p.
Proof.
  intros Hclean Hroot. unfold Os.stat, Os.locate.
  destruct p as [|c p].
  - destruct Hroot as [Hne|Hdir]; [congruence|].
    simpl. destruct (fs w) as [|es]; [discriminate|reflexivity].
  - destruct (str_of_path_split (c :: p) Hclean) as (rest & Hstr & Hsplit);
      [discriminate|].
    rewrite Hstr. unfold Os.start, OsPath.isabs, Str.starts_with, Str.slash.
    simpl. fold Str.slash. rewrite Hsplit.
    assert (Hprefix : prefix "" rest = true) by (destruct rest; reflexivity).
    rewrite Hprefix. simpl (Tree.lookup (fs w) []).
    pose proof (walk_clean (fs w) [] (c :: p) Hclean) as Hwalk.
    simpl app in Hwalk.
    destruct (fs w) as [data|es]; [reflexivity|exact Hwalk].
Qed.

(** [os.path.isfile] and [os.path.isdir] on a resolved [Path]. *)
Lemma path_calls_agree w p :
  clean_path p -> p <> [] \/ Tree.is_dir (fs w) = true ->
  Os.path_isfile (str_of_path p) w = Os.isfile_at p w
  /\ Os.path_isdir (str_of_path p) w = Os.isdir_at p w.
Proof.
  intros Hclean Hroot.
  unfold Os.path_isfile, Os.path_isdir, Os.isfile_at, Os.isdir_at.
  rewrite (stat_str_of_path w p Hclean Hroot). auto.
Qed.

Lemma removelast_Forall {A} (P : A -> Prop) l : Forall P l -> Forall P (removelast l).
Proof.
  induction l as [|x l IH]; intros H; [constructor|].
  inversion H; subst. simpl. destruct l; [constructor|].
  constructor; auto.
Qed.

Lemma normalize_clean done comps :
  clean_path done ->
  Forall (fun c => Str.contains Str.slash c = false) comps ->
  clean_path (OsPath.normalize done comps).
Proof.
  revert done. induction comps as [|c comps IH]; intros done Hdone Hcomps; simpl.
  - exact Hdone.
  - inversion Hcomps as [|? ? Hc Hrest]; subst.
    destruct (String.eqb c "") eqn:H1; [now apply IH|].
    destruct (String.eqb c ".") eqn:H2; [now apply IH|].
    simpl orb. cbv iota.
    destruct (String.eqb c "..") eqn:H3.
    + apply IH; [|assumption]. now apply removelast_Forall.
    + apply IH; [|assumption]. apply Forall_app. split; [assumption|].
      constructor; [|constructor].
      unfold Tree.valid_name. now rewrite H1, H2, H3, Hc.
Qed.

(** What [get_canonical_path] returns is a path of valid names, the working
    directory being one. *)
Lemma get_canonical_path_clean w name :
  clean_path (cwd w) -> clean_path (get_canonical_path w name).
Proof.
  intros Hcwd. unfold get_canonical_path, Os.abspath.
  apply normalize_clean; [|apply split_pieces].
  unfold Os.start. destruct (OsPath.isabs _); [constructor|exact Hcwd].
Qed.

(* ===================================================================== *)
(** * The output directory: [create_output_dir] *)
(* ===================================================================== *)

Lemma create_output_dir_returns outdir clear_flag w p w' :
  create_output_dir outdir clear_flag w = Ok p w' ->
  p = get_canonical_path w outdir.
Proof.
  intros H. apply try_reraise_ok_inv in H.
  apply bind_ok_inv in H. destruct H as (w0 & wa & Hget & H).
  inversion Hget; subst w0 wa; clear Hget.
  apply bind_ok_inv in H. destruct H as ([] & w1 & _ & H).
  apply bind_ok_inv in H. destruct H as ([] & w2 & _ & H).
  apply bind_ok_inv in H. destruct H as (w2' & w2'' & _ & H).
  apply bind_ok_inv in H. destruct H as ([] & w3 & _ & H).
  now inversion H.
Qed.

Section OutputDirectory.

Variables (outdir : string) (w : World).

#[local] Abbreviation od_path := (get_canonical_path w outdir).

(** After a successful [os.remove] of a regular file named [name], no
    regular file is found under that name, and directories stay. *)
Lemma remove_postcondition name w0 w1 :
  Os.remove name w0 = Ok tt w1 ->
  Os.path_isfile name w1 = false /\
  (forall p, Os.isdir_at p w0 = true -> Os.isdir_at p w1 = true).
Proof.
  unfold Os.remove, Os.remove_at.
  destruct (Os.locate w0 name) as [q|] eqn:Hq; [|discriminate].
  destruct (Tree.lookup (fs w0) q) as [[data|es]|] eqn:Hl; try discriminate.
  destruct (Tree.del (fs w0) q) as [t|] eqn:Hd; [|discriminate].
  intros H; inversion H; subst; clear H. split.
  - unfold Os.path_isfile, Os.stat, Os.locate in *. simpl.
    destruct (String.eqb name ""); [reflexivity|].
    change (Os.start (with_fs w0 t) name) with (Os.start w0 name).
    destruct (Os.walk t (Os.start w0 name) (Str.split Str.slash name))
      as [q'|] eqn:Hq'; [|reflexivity].
    apply walk_target in Hq. apply walk_target in Hq'. subst q q'.
    now rewrite (TreeFacts.lookup_del_same _ _ _ Hd).
  - intros p. unfold Os.isdir_at. simpl.
    destruct (Tree.lookup (fs w0) p) as [[|es]|] eqn:Hp; try discriminate.
    intros _.
    destruct (TreeFacts.del_file_keeps_dirs _ _ _ _ Hd Hl _ _ Hp) as [es' ->].
    reflexivity.
Qed.

(** C4. Whenever [create_output_dir] returns, with the clear flag set or
    not, it returns the canonical form of the requested path; that path
    is then a directory, and no regular file named [<path>.tar.gz] is left
    beside it. *)
Theorem create_output_dir_postcondition clear_flag p w' :
  create_output_dir outdir clear_flag w = Ok p w' ->
  p = get_canonical_path w outdir
  /\ Os.isdir_at p w' = true
  /\ Os.path_isfile (str_of_path p +++ ".tar.gz") w' = false.
Proof.
  intros H. apply try_reraise_ok_inv in H.
  apply bind_ok_inv in H. destruct H as (w0 & wa & Hget & H).
  inversion Hget; subst w0 wa; clear Hget.
  apply bind_ok_inv in H. destruct H as ([] & w1 & _ & H).
  apply bind_ok_inv in H. destruct H as ([] & w2 & Hmk & H).
  apply bind_ok_inv in H. destruct H as (w2' & w2'' & Hget & H).
  inversion Hget; subst w2' w2''; clear Hget.
  apply bind_ok_inv in H. destruct H as ([] & w3 & Htar & H).
  inversion H; subst p w'; clear H.
  assert (Hdir2 : Os.isdir_at od_path w2 = true).
  { apply makedirs_at_ok_inv in Hmk. destruct Hmk as (t & Hm & ->).
    unfold Os.isdir_at. simpl.
    destruct (TreeFacts.lookup_mkdirs _ _ _ Hm) as [es ->]. reflexivity. }
  split; [reflexivity|].
  destruct (Os.path_isfile (str_of_path od_path +++ ".tar.gz") w2) eqn:Hf.
  - apply bind_ok_inv in Htar. destruct Htar as ([] & wp & Hp & Hrm).
    unfold print in Hp. inversion Hp; subst wp; clear Hp.
    apply remove_postcondition in Hrm. destruct Hrm as [Hgone Hkeep].
    split; [|exact Hgone].
    apply Hkeep. exact Hdir2.
  - inversion Htar; subst w3. auto.
Qed.

(** C8. With the clear flag set and a regular file at the requested path
    (on a machine whose root is a directory), [create_output_dir] returns
    that path, and a directory is there in place of the file. *)
Theorem create_output_dir_replaces_file data :
  Tree.is_dir (fs w) = true ->
  Tree.lookup (fs w) (get_canonical_path w outdir) = Some (File data) ->
  exists w',
    create_output_dir outdir true w = Ok (get_canonical_path w outdir) w'
    /\ Os.isdir_at (get_canonical_path w outdir) w' = true
    /\ Os.isfile_at (get_canonical_path w outdir) w' = false.
Proof.
  intros Hroot Hfile.
  assert (Hne : od_path <> []).
  { intros E. rewrite E in Hfile. simpl in Hfile. inversion Hfile as [E'].
    rewrite E' in Hroot. discriminate. }
  destruct (TreeFacts.del_exists _ _ _ Hfile Hne) as [t1 Hdel].
  destruct (TreeFacts.mkdirs_after_del _ _ _ _ Hfile Hdel) as [t2 Hmk].
  set (msg := "*** Deleting existing file " +++ str_of_path od_path
                +++ "..." +++ Str.nl +++ Str.nl).
  set (w1 := with_fs (with_terminal w (terminal w ++ [Line msg])) t1).
  set (w2 := with_fs w1 t2).
  assert (Hstep :
    exists w3,
      (if Os.path_isfile (str_of_path od_path +++ ".tar.gz") w2 then
         print ("*** Deleting existing file " +++ str_of_path od_path
                  +++ ".tar.gz..." +++ Str.nl +++ Str.nl) ;;
         Os.remove (str_of_path od_path +++ ".tar.gz")
       else ret tt) w2 = Ok tt w3
      /\ Os.isdir_at od_path w3 = true).
  { assert (Hdir2 : Os.isdir_at od_path w2 = true).
    { unfold Os.isdir_at. simpl.
      destruct (TreeFacts.lookup_mkdirs _ _ _ Hmk) as [es ->]. reflexivity. }
    destruct (Os.path_isfile (str_of_path od_path +++ ".tar.gz") w2) eqn:Hf;
      [|eexists; split; [reflexivity|exact Hdir2]].
    set (name := str_of_path od_path +++ ".tar.gz") in *.
    unfold bind, print.
    set (wp := with_terminal w2 _).
    assert (Hrm : exists w3, Os.remove name wp = Ok tt w3).
    { unfold Os.path_isfile, Os.stat in Hf. unfold Os.remove, Os.remove_at.
      change (Os.locate wp name) with (Os.locate w2 name).
      destruct (Os.locate w2 name) as [q|] eqn:Hq; [|discriminate].
      change (fs wp) with (fs w2).
      destruct (Tree.lookup (fs w2) q) as [[d|es]|] eqn:Hl; try discriminate.
      assert (Hqne : q <> []).
      { intros E. subst q. simpl in Hl. simpl in Hl.
        apply TreeFacts.mkdirs_is_dir in Hmk.
        inversion Hl as [E']. unfold w2 in E'. simpl in E'.
        rewrite E' in Hmk. discriminate. }
      destruct (TreeFacts.del_exists _ _ _ Hl Hqne) as [t3 ->]. eauto. }
    destruct Hrm as [w3 Hrm]. exists w3. split; [exact Hrm|].
    apply remove_postcondition in Hrm. apply Hrm. exact Hdir2. }
  destruct Hstep as (w3 & Hstep & Hdir3).
  exists w3. split; [|split; [exact Hdir3|]].
  - apply try_reraise_ok. unfold bind at 1. unfold get_world at 1.
    unfold Os.isfile_at at 1. rewrite Hfile. simpl Tree.is_file.
    cbv iota.
    unfold bind at 1. unfold bind at 1. unfold print at 1.
    unfold Os.remove_at at 1.
    simpl (fs (with_terminal _ _)).
    rewrite Hfile, Hdel. fold msg. fold w1.
    unfold bind at 1. unfold Os.makedirs_at at 1.
    change (fs w1) with t1. rewrite Hmk. fold w2.
    unfold bind at 1. unfold get_world at 1.
    unfold bind at 1. rewrite Hstep. reflexivity.
  - unfold Os.isdir_at, Os.isfile_at in *.
    destruct (Tree.lookup (fs w3) od_path) as [[|]|]; auto; discriminate.
Qed.

End OutputDirectory.

(* ===================================================================== *)
(** * The home directory: what [getHomeDirContentToSave] returns *)
(* ===================================================================== *)

Section HomeDirectory.
Import Tree.

Lemma entry_get_In name es n : entry_get name es = Some n -> In (name, n) es.
Proof.
  induction es as [|[k c] es IH]; simpl; [discriminate|].
  destruct (String.eqb_spec name k) as [->|Hne].
  - intros H; inversion H; auto.
  - auto.
Qed.

Lemma distinct_entry_get es name n :
  distinct (map fst es) = true -> In (name, n) es -> entry_get name es = Some n.
Proof.
  induction es as [|[k c] es IH]; simpl; [contradiction|].
  intros Hd [Hin|Hin].
  - inversion Hin; subst. now rewrite String.eqb_refl.
  - apply andb_prop in Hd. destruct Hd as [Hk Hd].
    destruct (String.eqb_spec name k) as [->|Hne]; [|auto].
    apply negb_true_iff in Hk.
    assert (Hex : existsb (String.eqb k) (map fst es) = true).
    { apply existsb_exists. exists k. split; [|apply String.eqb_refl].
      change k with (fst (k, n)). now apply in_map. }
    congruence.
Qed.

Lemma wf_dir_inv es :
  wf (Dir es) = true ->
  distinct (map fst es) = true
  /\ forall name child, In (name, child) es ->
                        valid_name name = true /\ wf child = true.
Proof.
  simpl. intros H. apply andb_prop in H. destruct H as [Hd Hall].
  split; [exact Hd|]. clear Hd.
  induction es as [|[k c] es IH]; [contradiction|].
  apply andb_prop in Hall. destruct Hall as [Hkc Hall].
  apply andb_prop in Hkc. destruct Hkc as [Hk Hc].
  intros name child [Hin|Hin].
  - inversion Hin; subst. auto.
  - auto.
Qed.

Lemma wf_lookup root p n :
  wf root = true -> lookup root p = Some n -> wf n = true.
Proof.
  revert root. induction p as [|c p IH]; intros root Hwf Hl.
  - simpl in Hl. inversion Hl; subst. exact Hwf.
  - destruct root as [|es]; [discriminate|]. simpl in Hl.
    destruct (entry_get c es) as [child|] eqn:Hc; [|discriminate].
    apply entry_get_In in Hc.
    destruct (wf_dir_inv _ Hwf) as [_ Hall].
    destruct (Hall _ _ Hc) as [_ Hchild]. eauto.
Qed.

(** The scan of [isValidDirToCopy], entry by entry. *)
Lemma isValidDirToCopy_entries es b :
  isValidDirToCopy (Dir es) b = true ->
  forall name child,
    In (name, child) es -> is_dir child = true ->
    name <> b /\ isValidDirToCopy child b = true.
Proof.
  simpl. induction es as [|[k c] es IH]; intros H name child Hin Hdir.
  - contradiction.
  - destruct Hin as [Hin|Hin].
    + inversion Hin; subst. rewrite Hdir in H.
      destruct (String.eqb_spec name b) as [->|Hne]; [discriminate|].
      simpl in H.
      destruct (isValidDirToCopy child b); [auto|discriminate].
    + apply IH; auto.
      destruct (is_dir c); [|exact H].
      destruct (String.eqb k b || negb (isValidDirToCopy c b));
        [discriminate|exact H].
Qed.

Lemma last_cons_cons (a b : string) rest d :
  last (a :: b :: rest) d = last (b :: rest) d.
Proof. reflexivity. Qed.

(** A directory that [isValidDirToCopy] accepts has no directory called
    [b] anywhere below it. *)
Lemma isValidDirToCopy_sound start b :
  isValidDirToCopy start b = true ->
  forall rel es, rel <> [] -> lookup start rel = Some (Dir es) ->
                 last rel "" <> b.
Proof.
  induction start as [data|entries IH] using node_ind'; intros Hv rel es Hne Hl.
  - destruct rel; [congruence|discriminate].
  - destruct rel as [|c rel']; [congruence|]. simpl in Hl.
    destruct (entry_get c entries) as [child|] eqn:Hc; [|discriminate].
    apply entry_get_In in Hc.
    destruct rel' as [|c' rel''].
    + simpl in Hl. inversion Hl; subst child. simpl.
      destruct (isValidDirToCopy_entries _ _ Hv _ _ Hc eq_refl). assumption.
    + assert (Hdir : is_dir child = true).
      { destruct child; [discriminate|reflexivity]. }
      destruct (isValidDirToCopy_entries _ _ Hv _ _ Hc Hdir) as [_ Hchild].
      rewrite last_cons_cons.
      rewrite Forall_forall in IH.
      apply (IH (c, child) Hc Hchild (c' :: rel'') es); [discriminate|exact Hl].
Qed.

(** Every path the loop of [getHomeDirContentToSave] appends comes from an
    entry that is a regular file, or a directory that passed the test. *)
Lemma home_entries_to_save_In start_path b it s :
  In s (home_entries_to_save start_path b it) ->
  exists name entry,
    In (name, entry) it /\ s = OsPath.join start_path name
    /\ (is_file entry = true
        \/ (is_dir entry = true /\ name <> b
            /\ isValidDirToCopy entry b = true)).
Proof.
  induction it as [|[k c] it IH]; simpl; [contradiction|].
  destruct (is_dir c && negb (String.eqb k b) && isValidDirToCopy c b) eqn:Hkeep.
  - intros [<-|Hin].
    + exists k, c. split; [auto|]. split; [reflexivity|]. right.
      apply andb_prop in Hkeep. destruct Hkeep as [Hkeep Hv].
      apply andb_prop in Hkeep. destruct Hkeep as [Hd Hn].
      apply negb_true_iff in Hn. apply String.eqb_neq in Hn. auto.
    + destruct (IH Hin) as (name & entry & H1 & H2). exists name, entry. auto.
  - destruct (is_file c) eqn:Hf.
    + intros [<-|Hin].
      * exists k, c. auto.
      * destruct (IH Hin) as (name & entry & H1 & H2). exists name, entry. auto.
    + intros Hin.
      destruct (IH Hin) as (name & entry & H1 & H2). exists name, entry. auto.
Qed.

(** A regular file among the entries is always appended. *)
Lemma home_entries_to_save_file start_path b it name data :
  In (name, File data) it ->
  In (OsPath.join start_path name) (home_entries_to_save start_path b it).
Proof.
  induction it as [|[k c] it IH]; simpl; [contradiction|].
  intros [Hin|Hin].
  - inversion Hin; subst. simpl. auto.
  - destruct (is_dir c && negb (String.eqb k b) && isValidDirToCopy c b);
      [right; auto|].
    destruct (is_file c); [right|]; auto.
Qed.

Lemma append_cancel_l (a x y : string) : a +++ x = a +++ y -> x = y.
Proof. induction a; simpl; intros H; [assumption|inversion H; auto]. Qed.

Lemma valid_name_not_abs name : valid_name name = true -> OsPath.isabs name = false.
Proof.
  unfold valid_name, OsPath.isabs, Str.starts_with. intros H.
  apply andb_prop in H. destruct H as [_ H].
  apply negb_true_iff in H.
  destruct name as [|c rest]; [reflexivity|]. simpl in *.
  unfold Str.slash in H.
  destruct (Ascii.eqb_spec "/"%char c) as [<-|Hne]; [discriminate|].
  destruct c as [[] [] [] [] [] [] [] []]; try reflexivity. congruence.
Qed.

(** Two entries of one directory with the same path have the same name. *)
Lemma join_injective dir a b :
  valid_name a = true -> valid_name b = true ->
  OsPath.join dir a = OsPath.join dir b -> a = b.
Proof.
  intros Ha Hb. unfold OsPath.join.
  rewrite (valid_name_not_abs _ Ha), (valid_name_not_abs _ Hb).
  destruct (String.eqb dir ""); [auto|].
  destruct (Str.starts_with "/" (Str.rev dir)); intros H.
  - now apply append_cancel_l in H.
  - apply append_cancel_l in H. now apply append_cancel_l in H.
Qed.

Variables (outdir_path : path) (w : World).

#[local] Abbreviation home := (home_path w).
#[local] Abbreviation outdir_basename := (excluded_basename outdir_path).

(** [getHomeDirContentToSave] returns exactly when [$HOME] is a directory,
    and then what its loop collects; only the terminal changes. *)
Lemma getHomeDirContentToSave_inv sv_files w' :
  getHomeDirContentToSave outdir_path w = Ok sv_files w' ->
  exists it,
    lookup (fs w) home = Some (Dir it)
    /\ sv_files = home_entries_to_save (str_of_path home) outdir_basename it.
Proof.
  unfold home_path, excluded_basename, getHomeDirContentToSave. intros H.
  apply bind_ok_inv in H. destruct H as (w0 & wa & Hget & H).
  inversion Hget; subst w0 wa; clear Hget.
  apply bind_ok_inv in H. destruct H as (it & w1 & Hscan & H).
  apply bind_ok_inv in H. destruct H as ([] & w2 & _ & H).
  inversion H; subst. exists it. split; [|reflexivity].
  unfold Os.scandir in Hscan.
  destruct (lookup (fs w) (get_canonical_path w "$HOME")) as [[|es]|];
    try discriminate.
  now inversion Hscan.
Qed.

Lemma for_each_print l w0 : exists w1, for_each l print w0 = Ok tt w1.
Proof.
  revert w0. induction l as [|x l IH]; intros w0; simpl.
  - unfold ret. eauto.
  - unfold bind, print. apply IH.
Qed.

Lemma getHomeDirContentToSave_ok it :
  lookup (fs w) home = Some (Dir it) ->
  exists w',
    getHomeDirContentToSave outdir_path w
    = Ok (home_entries_to_save (str_of_path home) outdir_basename it) w'.
Proof.
  unfold home_path, excluded_basename. intros Hl. unfold getHomeDirContentToSave.
  unfold bind at 1. unfold get_world at 1.
  unfold bind at 1. unfold Os.scandir at 1. rewrite Hl.
  destruct (for_each_print
              (home_entries_to_save
                 (str_of_path (get_canonical_path w "$HOME"))
                 (path_basename (parent outdir_path)) it) w)
    as [w1 Hp].
  unfold bind. rewrite Hp. unfold ret. eauto.
Qed.

(** C5. On a well-formed tree, every path that the home-directory
    enumeration returns is an entry [name] of the home directory such that
    no directory at or below [home/name] has the basename of the configured
    output directory (the parent of [outdir_path]); and an entry with such
    a directory at or below it, like [project] with [project/outdir_base],
    is not in the list at all. *)
Theorem home_enumeration_excludes_outdir sv_files w' :
  wf (fs w) = true ->
  getHomeDirContentToSave outdir_path w = Ok sv_files w' ->
  (forall s, In s sv_files ->
     exists name,
       s = OsPath.join (str_of_path home) name
       /\ forall below es,
            lookup (fs w) (home ++ name :: below) = Some (Dir es) ->
            last (name :: below) "" <> outdir_basename)
  /\ (forall name below es,
        lookup (fs w) (home ++ name :: below) = Some (Dir es) ->
        last (name :: below) "" = outdir_basename ->
        ~ In (OsPath.join (str_of_path home) name) sv_files).
Proof.
  intros Hwf Hrun.
  destruct (getHomeDirContentToSave_inv _ _ Hrun) as (it & Hhome & ->).
  destruct (wf_dir_inv _ (wf_lookup _ _ _ Hwf Hhome)) as [Hdistinct Hvalid].
  assert (Hsound :
    forall s, In s (home_entries_to_save (str_of_path home) outdir_basename it) ->
      exists name,
        (exists entry, In (name, entry) it)
        /\ s = OsPath.join (str_of_path home) name
        /\ forall below es,
             lookup (fs w) (home ++ name :: below) = Some (Dir es) ->
             last (name :: below) "" <> outdir_basename).
  { intros s Hs.
    destruct (home_entries_to_save_In _ _ _ _ Hs)
      as (name & entry & Hin & -> & Hkind).
    exists name. split; [eauto|]. split; [reflexivity|].
    intros below es Hl.
    rewrite TreeFacts.lookup_app, Hhome in Hl. simpl in Hl.
    rewrite (distinct_entry_get _ _ _ Hdistinct Hin) in Hl.
    destruct Hkind as [Hfile|(Hdir & Hname & Hv)].
    - destruct entry; [|discriminate].
      apply TreeFacts.lookup_file_inv in Hl. destruct Hl; discriminate.
    - destruct below as [|c below'].
      + exact Hname.
      + rewrite last_cons_cons.
        apply (isValidDirToCopy_sound _ _ Hv _ es); [discriminate|exact Hl]. }
  split.
  - intros s Hs. destruct (Hsound s Hs) as (name & _ & H). eauto.
  - intros name below es Hl Hlast Hin.
    destruct (Hsound _ Hin) as (name' & [entry' Hin'] & Hjoin & Hfree).
    assert (Hname : In name (map fst it)).
    { rewrite TreeFacts.lookup_app, Hhome in Hl. simpl in Hl.
      destruct (entry_get name it) as [entry|] eqn:He; [|discriminate].
      apply entry_get_In in He. change name with (fst (name, entry)).
      now apply in_map. }
    apply in_map_iff in Hname. destruct Hname as ([k entry] & Hk & Hentry).
    simpl in Hk. subst k.
    assert (name = name').
    { apply (join_injective (str_of_path home)); [| |exact Hjoin].
      - apply (Hvalid _ _ Hentry).
      - apply (Hvalid _ _ Hin'). }
    subst name'. exact (Hfree _ _ Hl Hlast).
Qed.

(** C10. The exclusion by name concerns directories only: a regular file
    directly under the home directory is returned whatever it is called,
    so also when its name is the basename that excludes directories. *)
Theorem home_enumeration_keeps_file_named_like_outdir data :
  lookup (fs w) (home ++ [outdir_basename]) = Some (File data) ->
  exists sv_files w',
    getHomeDirContentToSave outdir_path w = Ok sv_files w'
    /\ In (OsPath.join (str_of_path home) outdir_basename) sv_files.
Proof.
  intros Hl. rewrite TreeFacts.lookup_app in Hl.
  destruct (lookup (fs w) home) as [[|it]|] eqn:Hhome; try discriminate.
  simpl in Hl.
  destruct (entry_get outdir_basename it) as [entry|] eqn:He; [|discriminate].
  inversion Hl; subst entry. apply entry_get_In in He.
  destruct (getHomeDirContentToSave_ok _ Hhome) as [w' Hrun].
  eexists. exists w'. split; [exact Hrun|].
  now apply home_entries_to_save_file with (data := data).
Qed.

End HomeDirectory.

(* ===================================================================== *)
(** * The collection steps *)
(* ===================================================================== *)

Section Steps.

Variable bash : string -> World -> node * Z.
Variable sys_argv : list string.
Variables (args : Namespace) (outdir_path : path).

Lemma generateHeader_eq text sep w :
  generateHeader text sep w
  = Ok tt (with_terminal w (terminal w ++ header_lines text sep)).
Proof.
  unfold generateHeader, bind, print, header_lines. simpl.
  repeat rewrite <- app_assoc. reflexivity.
Qed.

Lemma print_eq text w :
  print text w = Ok tt (with_terminal w (terminal w ++ [Line text])).
Proof. reflexivity. Qed.

Lemma standard_file_name_eq key name w :
  assoc key STANDARD_FILE_NAMES = Some name ->
  standard_file_name key w = Ok name w.
Proof. unfold standard_file_name. now intros ->. Qed.

(** [run_cmd] returns normally whatever the exit status of the command:
    the status only goes into the log. *)
Lemma run_cmd_eq cmd w :
  run_cmd bash cmd w
  = Ok tt (with_shell (with_terminal w (terminal w ++ [Line cmd]))
                      (fst (bash cmd (with_terminal w (terminal w ++ [Line cmd]))))
                      (shell_log w
                         ++ [(cmd, snd (bash cmd (with_terminal w (terminal w ++ [Line cmd]))))])).
Proof.
  unfold run_cmd, bind, print.
  destruct (bash cmd (with_terminal w (terminal w ++ [Line cmd]))). reflexivity.
Qed.

(** ** Lite mode *)

(** C3, as the script has it. With the lite flag set,
    [saveModelSpecificArtifacts] prints its banner and returns: the tree is
    untouched and no command runs, so nothing from the home directory is
    copied, and the directory [docker_container_homedir_and_model_artifacts]
    is not created either (it is there afterwards only if it was there
    before). *)
Theorem lite_skips_home_artifacts w :
  lite args = true ->
  exists w',
    saveModelSpecificArtifacts bash args outdir_path w = Ok tt w'
    /\ fs w' = fs w
    /\ shell_log w' = shell_log w
    /\ Os.path_exists (homedir_artifacts outdir_path) w'
       = Os.path_exists (homedir_artifacts outdir_path) w.
Proof.
  intros Hlite. unfold saveModelSpecificArtifacts. rewrite Hlite.
  rewrite generateHeader_eq. eexists. split; [reflexivity|]. auto.
Qed.

(** ** A missing stdout file *)

(** C6. When the stdout path does not exist, [saveCmdOutputs] raises
    "Error in saveCmdOutputs" caused by "<path> is not a valid filename";
    [run] ends with that very exception, in the world the step left: the
    tree is as it was and no command ran, so no later step, the archive
    step included, did anything, and the process ends with status 1. *)
Theorem missing_stdout_aborts_run w :
  Os.path_exists (stdout args) w = false ->
  exists w',
    saveCmdOutputs bash args outdir_path w = Raise (stdout_missing_error args) w'
    /\ run bash sys_argv args outdir_path w = Raise (stdout_missing_error args) w'
    /\ fs w' = fs w
    /\ shell_log w' = shell_log w
    /\ exit_status (run bash sys_argv args outdir_path w) = 1%Z.
Proof.
  intros Hmissing.
  assert (Hstep : exists w',
             saveCmdOutputs bash args outdir_path w = Raise (stdout_missing_error args) w'
             /\ fs w' = fs w /\ shell_log w' = shell_log w).
  { unfold saveCmdOutputs. eexists. split.
    - apply try_reraise_raise.
      unfold bind at 1. rewrite generateHeader_eq.
      unfold bind at 1. unfold get_world at 1.
      unfold bind at 1.
      change (Os.path_exists (stdout args) (with_terminal w _))
        with (Os.path_exists (stdout args) w).
      rewrite Hmissing.
      unfold bind, print, raise. reflexivity.
    - auto. }
  destruct Hstep as (w' & Hstep & Hfs & Hlog).
  exists w'. unfold run. rewrite (bind_raise _ _ _ _ _ Hstep). auto.
Qed.

(** ** The extra paths of [--copydirs] *)



End Steps.

(* ===================================================================== *)
(** * Failing steps *)
(* ===================================================================== *)

Section ErrorPolicy.

Variable bash : string -> World -> node * Z.
Variable sys_argv : list string.
Variables (args : Namespace) (outdir_path : path).

#[local] Abbreviation steps := (collection_steps bash sys_argv args outdir_path).
#[local] Abbreviation bodies := (step_bodies bash sys_argv args outdir_path).

(** A loop that raises did so in one of its rounds, after the rounds
    before it had returned; the rounds after it never started. *)
Lemma for_each_raise_inv {A} (body : A -> M unit) l w e w' :
  for_each l body w = Raise e w' ->
  exists before x after wk,
    l = before ++ x :: after
    /\ for_each before body w = Ok tt wk
    /\ body x wk = Raise e w'.
Proof.
  revert w. induction l as [|x l IH]; intros w; simpl.
  - discriminate.
  - unfold bind at 1. destruct (body x w) as [[] w1|e1 w1|c w1] eqn:Hx.
    + intros H. destruct (IH _ H) as (before & y & after & wk & -> & Hb & Hy).
      exists (x :: before), y, after, wk. split; [reflexivity|].
      split; [|exact Hy]. simpl. unfold bind. now rewrite Hx.
    + intros H. inversion H; subst.
      exists [], x, l, w. auto.
    + discriminate.
Qed.

(** [run] is its steps one after the other, then the upload stub and the
    closing message. *)
Lemma run_eq_steps w :
  run bash sys_argv args outdir_path w
  = (for_each steps (fun s => snd s) ;;
     uploadTarball ;;
     print "Snapshot script completed successfully (from docker container)") w.
Proof.
  unfold run, collection_steps. simpl for_each. unfold bind.
  repeat match goal with
         | |- context [match ?step ?w0 with _ => _ end] =>
             destruct (step w0) as [[] ?w| |]; try reflexivity
         end.
Qed.

(** A loop ends with the first round that raises. *)
Lemma for_each_raise {A} (body : A -> M unit) before x after w wk e w' :
  for_each before body w = Ok tt wk ->
  body x wk = Raise e w' ->
  for_each (before ++ x :: after) body w = Raise e w'.
Proof.
  revert w. induction before as [|y before IH]; intros w Hbefore Hx.
  - inversion Hbefore; subst. cbn [app for_each]. now apply bind_raise.
  - cbn [app for_each] in *. unfold bind at 1 in Hbefore. unfold bind at 1.
    destruct (body y w) as [[] w1|e1 w1|c w1]; try discriminate.
    now apply IH.
Qed.

(** A [try] block around [body] that re-raises under [name]. *)
Lemma try_reraise_wraps name (step body : M unit) :
  (forall w, step w = try_reraise ("Error in " +++ name) body w) ->
  wraps_failures name step body.
Proof.
  intros Hstep. split; [|split].
  - intros w cause w' Hraise. rewrite Hstep. now apply try_reraise_raise.
  - intros w w' Hok. rewrite Hstep. now apply try_reraise_ok.
  - intros w e w' Hraise. rewrite Hstep in Hraise.
    now apply try_reraise_raise_inv.
Qed.

(** Each step wraps its own statements: the entries of [collection_steps]
    and [step_bodies] go together, place by place. *)
Lemma steps_wrap_their_bodies k name step :
  nth_error steps k = Some (name, step) ->
  exists body,
    nth_error bodies k = Some (name, body) /\ wraps_failures name step body.
Proof.
  unfold collection_steps, step_bodies. intros H.
  do 10 (destruct k as [|k];
         [cbn [nth_error] in H; inversion H; subst; clear H;
          eexists; split; [reflexivity|];
          apply try_reraise_wraps; intros w;
          first [ reflexivity
                | unfold saveModelSpecificArtifacts;
                  destruct (lite args); [|reflexivity];
                  unfold try_reraise, try_except;
                  now rewrite generateHeader_eq ]|]).
  cbn [nth_error] in H. destruct k; discriminate.
Qed.

(** C2, as the script has it.  A command that [/bin/bash] runs never makes
    [run_cmd] raise: its exit status is logged and not looked at.  What a
    step does turn into an error is an exception raised by one of its own
    statements (a Python-level file operation that fails, a missing input
    file): each step of [run] has its statements in [step_bodies] under
    its name, and whenever these raise, the step raises "Error in <step>"
    with that exception as its cause; when they return the step returns,
    and the step raises nothing else.  [run] ends with the exception of
    the first step that raises, in the world as that step left it: the
    steps after it do not run. *)
Theorem step_failures_are_wrapped_and_stop_run :
  (forall cmd w, exists w' status,
      run_cmd bash cmd w = Ok tt w'
      /\ shell_log w' = shell_log w ++ [(cmd, status)])
  /\ (forall k name step,
         nth_error steps k = Some (name, step) ->
         exists body,
           nth_error bodies k = Some (name, body)
           /\ wraps_failures name step body)
  /\ (forall before name step after w wk e w',
         steps = before ++ (name, step) :: after ->
         for_each before (fun s => snd s) w = Ok tt wk ->
         step wk = Raise e w' ->
         run bash sys_argv args outdir_path w = Raise e w')
  /\ (forall w e w',
         run bash sys_argv args outdir_path w = Raise e w' ->
         exists before name step after wk cause,
           steps = before ++ (name, step) :: after
           /\ for_each before (fun s => snd s) w = Ok tt wk
           /\ step wk = Raise e w'
           /\ e = RuntimeError ("Error in " +++ name) cause).
Proof.
  split; [|split; [|split]].
  - intros cmd w. rewrite run_cmd_eq. eexists. eexists. split; reflexivity.
  - exact steps_wrap_their_bodies.
  - intros before name step after w wk e w' Hsplit Hbefore Hstep.
    rewrite run_eq_steps. apply bind_raise. rewrite Hsplit.
    now apply (for_each_raise (fun s : string * M unit => snd s)
                              before (name, step) after w wk).
  - intros w e w' Hrun. rewrite run_eq_steps in Hrun.
    unfold bind at 1 in Hrun.
    destruct (for_each steps (fun s => snd s) w) as [[] w1|e1 w1|c w1] eqn:Hloop.
    + discriminate.
    + inversion Hrun; subst e1 w1; clear Hrun.
      destruct (for_each_raise_inv _ _ _ _ _ Hloop)
        as (before & [name step] & after & wk & Hsplit & Hbefore & Hstep).
      assert (Hin : exists k, nth_error steps k = Some (name, step)).
      { apply In_nth_error. rewrite Hsplit. apply in_or_app. right. left.
        reflexivity. }
      destruct Hin as [k Hk].
      destruct (steps_wrap_their_bodies _ _ _ Hk) as (body & _ & _ & _ & Hinv).
      simpl in Hstep.
      destruct (Hinv _ _ _ Hstep) as (cause & _ & ->).
      exists before, name, step, after, wk, cause. auto.
    + discriminate.
Qed.

End ErrorPolicy.

(* ===================================================================== *)
(** * The commands a run hands to the shell *)
(* ===================================================================== *)


Lemma inert_ret {A} (a : A) : inert (ret a).
Proof. intros w. simpl. auto. Qed.

Lemma inert_raise {A} e : inert (raise (A := A) e).
Proof. intros w. simpl. auto. Qed.

Lemma inert_sys_exit {A} c : inert (sys_exit (A := A) c).
Proof. intros w. simpl. auto. Qed.

Lemma inert_get_world : inert get_world.
Proof. intros w. simpl. auto. Qed.

Lemma inert_print text : inert (print text).
Proof. intros w. simpl. auto. Qed.

Lemma inert_print_help : inert print_help.
Proof. intros w. simpl. auto. Qed.

Lemma inert_parser_error {A} message : inert (parser_error (A := A) message).
Proof. intros w. simpl. auto. Qed.

Lemma inert_bind {A B} (m : M A) (k : A -> M B) :
  inert m -> (forall a, inert (k a)) -> inert (bind m k).
Proof.
  intros Hm Hk w. unfold bind. specialize (Hm w).
  destruct (m w) as [a w1|e w1|c w1]; simpl in *; auto.
  destruct (Hk a w1) as (H1 & H2 & H3). destruct Hm as (G1 & G2 & G3).
  repeat split; congruence.
Qed.

Lemma inert_try_except {A} (body : M A) handler :
  inert body -> (forall e, inert (handler e)) -> inert (try_except body handler).
Proof.
  intros Hm Hk w. unfold try_except. specialize (Hm w).
  destruct (body w) as [a w1|e w1|c w1]; simpl in *; auto.
  destruct (Hk e w1) as (H1 & H2 & H3). destruct Hm as (G1 & G2 & G3).
  repeat split; congruence.
Qed.

Lemma inert_try_reraise {A} msg (body : M A) :
  inert body -> inert (try_reraise msg body).
Proof.
  intros H. apply inert_try_except; [exact H|]. intros e. apply inert_raise.
Qed.

Lemma inert_for_each {A} (body : A -> M unit) l :
  (forall x, inert (body x)) -> inert (for_each l body).
Proof.
  intros H. induction l as [|x l IH]; simpl.
  - apply inert_ret.
  - apply inert_bind; auto.
Qed.

(** Statements that only touch the tree or the working directory. *)
Ltac inert_primitive :=
  intros w; cbv beta delta [Os.remove Os.remove_at Os.rmtree_at Os.makedirs
                            Os.makedirs_at Os.write_text Os.open_append
                            Os.print_to Os.chdir Os.scandir Os.tar_create
                            standard_file_name ret raise];
  repeat (cbv zeta;
          match goal with
          | |- context [match ?x with _ => _ end] => destruct x
          end);
  simpl; auto.

Lemma inert_remove name : inert (Os.remove name).
Proof. inert_primitive. Qed.

Lemma inert_remove_at p : inert (Os.remove_at p).
Proof. inert_primitive. Qed.

Lemma inert_rmtree_at p : inert (Os.rmtree_at p).
Proof. inert_primitive. Qed.

Lemma inert_makedirs_at p : inert (Os.makedirs_at p).
Proof. inert_primitive. Qed.

Lemma inert_makedirs name : inert (Os.makedirs name).
Proof. inert_primitive. Qed.

Lemma inert_write_text name text : inert (Os.write_text name text).
Proof. inert_primitive. Qed.

Lemma inert_open_append name : inert (Os.open_append name).
Proof. inert_primitive. Qed.

Lemma inert_print_to handle text : inert (Os.print_to handle text).
Proof. inert_primitive. Qed.

Lemma inert_chdir name : inert (Os.chdir name).
Proof. inert_primitive. Qed.

Lemma inert_tar_create archive member : inert (Os.tar_create archive member).
Proof. inert_primitive. Qed.

Lemma inert_standard_file_name key : inert (standard_file_name key).
Proof. inert_primitive. Qed.

Lemma inert_generateHeader text sep : inert (generateHeader text sep).
Proof. intros w. rewrite generateHeader_eq. simpl. auto. Qed.

(** Composite statements: binds, branches and the primitives above; the
    shapes are matched as written. *)
Ltac inert_step :=
  match goal with
  | |- forall _, _ => intro
  | |- inert (bind _ _) => apply inert_bind
  | |- inert (try_reraise _ _) => apply inert_try_reraise
  | |- inert (try_except _ _) => apply inert_try_except
  | |- inert (for_each _ _) => apply inert_for_each
  | |- inert (ret _) => apply inert_ret
  | |- inert (raise _) => apply inert_raise
  | |- inert (sys_exit _) => apply inert_sys_exit
  | |- inert get_world => apply inert_get_world
  | |- inert (print _) => apply inert_print
  | |- inert print_help => apply inert_print_help
  | |- inert (parser_error _) => apply inert_parser_error
  | |- inert (generateHeader _ _) => apply inert_generateHeader
  | |- inert (standard_file_name _) => apply inert_standard_file_name
  | |- inert (Os.remove _) => apply inert_remove
  | |- inert (Os.remove_at _) => apply inert_remove_at
  | |- inert (Os.rmtree_at _) => apply inert_rmtree_at
  | |- inert (Os.makedirs_at _) => apply inert_makedirs_at
  | |- inert (Os.makedirs _) => apply inert_makedirs
  | |- inert (Os.write_text _ _) => apply inert_write_text
  | |- inert (Os.open_append _) => apply inert_open_append
  | |- inert (Os.print_to _ _) => apply inert_print_to
  | |- inert (Os.chdir _) => apply inert_chdir
  | |- inert (Os.tar_create _ _) => apply inert_tar_create
  | |- inert (if ?c then _ else _) => destruct c
  | |- inert (match ?x with _ => _ end) => destruct x
  end.

Ltac inert_tac := repeat inert_step.

Lemma inert_create_output_dir outdir clear_flag :
  inert (create_output_dir outdir clear_flag).
Proof. unfold create_output_dir. inert_tac. Qed.

Lemma inert_savePythonInstallationInfo outdir_path :
  inert (savePythonInstallationInfo outdir_path).
Proof. unfold savePythonInstallationInfo. inert_tac. Qed.

Lemma inert_saveOSVersionInfo outdir_path : inert (saveOSVersionInfo outdir_path).
Proof. unfold saveOSVersionInfo, os_info_helper. inert_tac. Qed.

Lemma inert_report_env out_fid name : inert (report_env out_fid name).
Proof. unfold report_env. inert_tac. Qed.

(** ** Counting commands *)

Lemma emits_eq {A} env exes (m : M A) cmds cmds' :
  emits env exes m cmds -> cmds = cmds' -> emits env exes m cmds'.
Proof. now intros H <-. Qed.

Lemma emits_inert {A} env exes (m : M A) : inert m -> emits env exes m [].
Proof.
  intros Hm w a w' Henv Hexe Hok. destruct (Hm w) as (H1 & H2 & H3).
  rewrite Hok in *. simpl in *. rewrite H1, app_nil_r. repeat split; congruence.
Qed.

Lemma emits_bind {A B} env exes (m : M A) (k : A -> M B) c1 c2 :
  emits env exes m c1 -> (forall a, emits env exes (k a) c2) ->
  emits env exes (bind m k) (c1 ++ c2).
Proof.
  intros Hm Hk w b w' Henv Hexe Hok.
  apply bind_ok_inv in Hok. destruct Hok as (a & w1 & Hma & Hkb).
  destruct (Hm _ _ _ Henv Hexe Hma) as (H1 & H2 & H3).
  destruct (Hk a _ _ _ H2 H3 Hkb) as (G1 & G2 & G3).
  rewrite G1, H1, app_assoc. auto.
Qed.

Lemma emits_get_world {B} env exes (k : World -> M B) cmds :
  (forall w0, environ w0 = env -> executables w0 = exes ->
              emits env exes (k w0) cmds) ->
  emits env exes (bind get_world k) cmds.
Proof.
  intros Hk w b w' Henv Hexe Hok. unfold bind, get_world in Hok.
  exact (Hk w Henv Hexe _ _ _ Henv Hexe Hok).
Qed.

Lemma emits_run_cmd bash env exes cmd : emits env exes (run_cmd bash cmd) [cmd].
Proof.
  intros w a w' Henv Hexe Hok. rewrite run_cmd_eq in Hok.
  inversion Hok; subst; clear Hok. simpl. rewrite map_app. auto.
Qed.

Lemma emits_try_reraise {A} env exes msg (body : M A) cmds :
  emits env exes body cmds -> emits env exes (try_reraise msg body) cmds.
Proof.
  intros H w a w' Henv Hexe Hok. apply try_reraise_ok_inv in Hok. eauto.
Qed.

(** A statement that never returns normally promises anything. *)
Lemma emits_no_return {A} env exes (m : M A) cmds :
  (forall w a w', m w <> Ok a w') -> emits env exes m cmds.
Proof. intros H w a w' _ _ Hok. destruct (H _ _ _ Hok). Qed.

Lemma bind_raise_no_return {A B} (m : M A) e w (b : B) w' :
  bind m (fun _ => raise e) w <> Ok b w'.
Proof. unfold bind, raise. destruct (m w); discriminate. Qed.

Lemma saveFile_eq bash outdir_path file key name w :
  assoc key STANDARD_FILE_NAMES = Some name ->
  saveFile bash outdir_path file (Some key) w
  = run_cmd bash ("cp -r -f -L --preserve=timestamps " +++ file +++ " "
                    +++ get_outdir_filename outdir_path name) w.
Proof.
  intros H. unfold saveFile, save_target.
  unfold bind at 1. unfold bind at 1. rewrite (standard_file_name_eq _ _ _ H).
  reflexivity.
Qed.

Lemma emits_saveFile bash env exes outdir_path file key name :
  assoc key STANDARD_FILE_NAMES = Some name ->
  emits env exes (saveFile bash outdir_path file (Some key))
        ["cp -r -f -L --preserve=timestamps " +++ file +++ " "
           +++ get_outdir_filename outdir_path name].
Proof.
  intros H w a w' Henv Hexe Hok. rewrite (saveFile_eq _ _ _ _ _ _ H) in Hok.
  exact (emits_run_cmd _ _ _ _ _ _ _ Henv Hexe Hok).
Qed.

Lemma emits_redirect_to bash env exes outdir_path cmd key name :
  assoc key STANDARD_FILE_NAMES = Some name ->
  emits env exes (redirect_to bash outdir_path cmd key)
        [cmd +++ " > " +++ get_outdir_filename outdir_path name].
Proof.
  intros H w a w' Henv Hexe Hok. unfold redirect_to in Hok.
  unfold bind at 1 in Hok. rewrite (standard_file_name_eq _ _ _ H) in Hok.
  exact (emits_run_cmd _ _ _ _ _ _ _ Henv Hexe Hok).
Qed.


(* ===================================================================== *)
(** * A lite run into [/tmp/snap] *)
(* ===================================================================== *)

Section LiteRun.

Variable bash : string -> World -> node * Z.
Variable program : string.
Variable ACTUAL_CMD : string.

Lemma emits_ret_bind {A B} env exes (x : A) (k : A -> M B) cmds :
  emits env exes (k x) cmds -> emits env exes (bind (ret x) k) cmds.
Proof. intros H w b w' Henv Hexe Hok. exact (H w b w' Henv Hexe Hok). Qed.

Ltac inert_more :=
  solve [ inert_tac
        | apply inert_savePythonInstallationInfo
        | apply inert_saveOSVersionInfo
        | apply inert_report_env ].

(** One rule per shape of statement; the shapes are matched as written. *)
Ltac emits_step :=
  match goal with
  | |- forall _, _ => intro
  | |- emits _ _ (try_reraise _ _) _ => apply emits_try_reraise
  | |- emits _ _ (bind (ret _) _) _ => apply emits_ret_bind
  | |- emits _ _ (bind get_world _) _ =>
      apply emits_get_world;
      let w0 := fresh "w0" in
      let He := fresh "He" in
      let Hx := fresh "Hx" in
      intros w0 He Hx; unfold getenv, Os.find_executable;
      rewrite ?He, ?Hx
  | |- emits _ _ (bind _ (fun _ => raise _)) _ =>
      apply emits_no_return; intros; apply bind_raise_no_return
  | |- emits _ _ (bind _ _) _ => eapply emits_bind
  | |- emits _ _ (run_cmd _ _) _ => apply emits_run_cmd
  | |- emits _ _ (saveFile _ _ _ _) _ => apply emits_saveFile; reflexivity
  | |- emits _ _ (redirect_to _ _ _ _) _ => apply emits_redirect_to; reflexivity
  | |- emits _ _ (if ?c then _ else _) _ => destruct c
  | |- emits _ _ _ _ => apply emits_inert; inert_more
  end.

Ltac emits_tac := repeat emits_step.

Lemma emits_run_lite env exes :
  emits env exes (run bash (Lite.argv program) Lite.args Lite.outdir_path)
        (Lite.commands (assoc "HABANA_LOGS" env)
                       (existsb (String.eqb "dpkg") exes)
                       (existsb (String.eqb "rpm") exes)).
Proof.
  eapply emits_eq.
  - unfold run, saveCmdOutputs, saveCmdlineAndOptions, saveEnvVars,
      saveHabanaLogs, saveModelSpecificArtifacts, saveAdditionalCopyDirs,
      saveDockerRunParameters, saveMachineStatus, saveSystemConfig,
      generateTarball, uploadTarball, saveSynapseLibsInfo, savePackageInfo,
      saveDmesgInfo, find_libs.
    cbv beta iota zeta delta [standard_file_name assoc STANDARD_FILE_NAMES
                              String.eqb Ascii.eqb Bool.eqb Lite.args
                              stderr cmd_name yaml_config lite copydirs stdout].
    emits_tac.
    all: fail.
  - reflexivity.
Qed.

Lemma lookup_put_same root p x root' :
  Tree.put root p x = Some root' -> Tree.lookup root' p = Some x.
Proof.
  revert root root'. induction p as [|c rest IH]; intros root root' H.
  - destruct root; discriminate.
  - destruct root as [|es]; [destruct rest; discriminate|].
    rewrite TreeFacts.put_cons in H.
    destruct rest as [|c' rest'].
    + inversion H; subst. simpl. now rewrite TreeFacts.entry_get_set_same.
    + destruct (Tree.entry_get c es) as [child|]; [|discriminate].
      destruct (Tree.put child (c' :: rest') x) as [child'|] eqn:Hc; [|discriminate].
      inversion H; subst.
      change (Tree.lookup (Dir (Tree.entry_set c child' es)) (c :: c' :: rest'))
        with (match Tree.entry_get c (Tree.entry_set c child' es) with
              | Some ch => Tree.lookup ch (c' :: rest')
              | None => None
              end).
      rewrite TreeFacts.entry_get_set_same. eauto.
Qed.

(** Writing an entry of a directory leaves its other entries alone. *)
Lemma lookup_put_sibling root dir a b rest x root' :
  Tree.put root (dir ++ [a]) x = Some root' -> a <> b ->
  Tree.lookup root' (dir ++ b :: rest) = Tree.lookup root (dir ++ b :: rest).
Proof.
  revert root root'. induction dir as [|c dir IH]; intros root root' H Hab.
  - simpl in H. destruct root as [|es]; [discriminate|].
    inversion H; subst. simpl.
    rewrite TreeFacts.entry_get_set_other by congruence. reflexivity.
  - destruct root as [|es]; [destruct dir; discriminate|].
    change ((c :: dir) ++ [a]) with (c :: (dir ++ [a])) in H.
    rewrite TreeFacts.put_cons in H.
    destruct (dir ++ [a]) as [|c' more] eqn:Hd; [destruct dir; discriminate|].
    destruct (Tree.entry_get c es) as [child|] eqn:Hc; [|discriminate].
    destruct (Tree.put child (c' :: more) x) as [child'|] eqn:Hp; [|discriminate].
    inversion H; subst. simpl.
    rewrite TreeFacts.entry_get_set_same, Hc. eauto.
Qed.

Lemma locate_target w name p :
  Os.locate w name = Some p ->
  p = OsPath.normalize (Os.start w name) (Str.split Str.slash name).
Proof.
  unfold Os.locate. destruct (String.eqb name ""); [discriminate|].
  apply walk_target.
Qed.

Lemma chdir_ok_inv name w w' :
  Os.chdir name w = Ok tt w' ->
  exists p, Os.locate w name = Some p /\ w' = with_cwd w p.
Proof.
  unfold Os.chdir. destruct (Os.locate w name) as [p|]; [|discriminate].
  destruct (Tree.lookup (fs w) p) as [[|es]|]; try discriminate.
  intros H. inversion H. eauto.
Qed.

(** What a successful [tar_create] found and left. *)
Lemma tar_create_ok_inv archive member w w' :
  Os.tar_create archive member w = Ok tt w' ->
  exists q m tree t0,
    Os.locate w archive = Some q
    /\ Tree.put (fs w) q (File "") = Some t0
    /\ Os.locate (with_fs w t0) member = Some m
    /\ Tree.lookup t0 m = Some tree
    /\ Tree.put t0 q (File (Tree.targz member tree)) = Some (fs w').
Proof.
  unfold Os.tar_create.
  destruct (Os.locate w archive) as [q|] eqn:Hq; [|discriminate].
  destruct (Tree.lookup (fs w) q); [discriminate|].
  destruct (Tree.put (fs w) q (File "")) as [t0|] eqn:Ht0; [|discriminate].
  cbv zeta. unfold Os.stat.
  destruct (Os.locate (with_fs w t0) member) as [m|] eqn:Hm; [|discriminate].
  simpl (fs (with_fs _ _)).
  destruct (Tree.lookup t0 m) as [tree|] eqn:Htree; [|discriminate].
  destruct (Tree.put t0 q (File (Tree.targz member tree))) as [t1|] eqn:Ht1;
    [|discriminate].
  intros H. inversion H; subst. simpl. exists q, m, tree, t0. auto.
Qed.

(** The archive step of the lite run, for a shell whose final [chmod] leaves
    the tree alone: the archive is [/tmp/snap/gather_info_docker.tar.gz] and
    holds the tree found at [/tmp/snap/gather_info_docker]. *)
Lemma generateTarball_lite w w' :
  (forall w0, fst (bash "chmod -R 755 gather_info_docker.tar.gz" w0) = fs w0) ->
  generateTarball bash Lite.outdir_path w = Ok tt w' ->
  exists tree,
    Tree.lookup (fs w') Lite.outdir_path = Some tree
    /\ Tree.lookup (fs w') Lite.archive
       = Some (File (Tree.targz "gather_info_docker" tree)).
Proof.
  intros Hchmod H. unfold generateTarball in H.
  apply try_reraise_ok_inv in H.
  apply bind_ok_inv in H. destruct H as ([] & w1 & _ & H).
  apply bind_ok_inv in H. destruct H as ([] & w2 & _ & H).
  apply bind_ok_inv in H. destruct H as ([] & w3 & Hcd & H).
  apply bind_ok_inv in H. destruct H as ([] & w4 & Hpr & H).
  apply bind_ok_inv in H. destruct H as ([] & w5 & Htar & H).
  apply chdir_ok_inv in Hcd. destruct Hcd as (d & Hd & ->).
  apply locate_target in Hd. simpl in Hd. subst d.
  rewrite print_eq in Hpr. inversion Hpr; subst w4; clear Hpr.
  apply tar_create_ok_inv in Htar.
  destruct Htar as (q & m & tree & t0 & Hq & Ht0 & Hm & Htree & Ht1).
  apply locate_target in Hq. apply locate_target in Hm. simpl in Hq, Hm.
  subst q m.
  rewrite run_cmd_eq in H. inversion H; subst w'; clear H.
  simpl (fs (with_shell _ _ _)).
  change ("chmod -R 755 " +++ path_basename Lite.outdir_path +++ ".tar.gz")
    with "chmod -R 755 gather_info_docker.tar.gz".
  rewrite Hchmod. simpl (fs (with_terminal _ _)).
  exists tree. split.
  - rewrite <- Htree.
    apply (lookup_put_sibling t0 ["tmp"; "snap"] "gather_info_docker.tar.gz"
                              "gather_info_docker" []
                              (File (Tree.targz "gather_info_docker" tree))
                              (fs w5) Ht1).
    discriminate.
  - exact (lookup_put_same _ _ _ _ Ht1).
Qed.

Lemma inert_ok {A} (m : M A) w a w' :
  inert m -> m w = Ok a w' ->
  shell_log w' = shell_log w /\ environ w' = environ w
  /\ executables w' = executables w.
Proof. intros Hm Hok. specialize (Hm w). now rewrite Hok in Hm. Qed.

Hypothesis script_name : OsPath.basename ACTUAL_CMD = "gather_info_docker.py".

Lemma parse_args_lite w args w0 :
  parse_args (Lite.argv program) ACTUAL_CMD w = Ok args w0 ->
  args = Lite.args /\ w0 = w.
Proof.
  unfold parse_args.
  change (ArgParse.parse_args (tl (Lite.argv program)))
    with (ArgParse.Parsed
            (mkNamespace "/tmp/snap" false true "/tmp/run.log" None None None [])).
  unfold bind at 1. unfold get_world at 1.
  destruct (negb (euid w =? 0)%Z).
  - unfold bind, print, print_help, sys_exit. discriminate.
  - unfold ret. intros H. inversion H; subst; clear H. split; [|reflexivity].
    unfold TMPDIR, INFO_TARBALL. rewrite script_name. reflexivity.
Qed.

(** C1, as the script has it. Called with [-o /tmp/snap -s /tmp/run.log
    --lite] under its own name, a run that completes (exit status 0) has
    worked in [/tmp/snap/gather_info_docker], the requested directory with
    the script's base name appended: the commands it gave to the shell are
    exactly [Lite.commands], which copy [/tmp/run.log] to [cmd_stdout.txt]
    and write [env_vars.txt], [habana_logs], the container files and the
    machine-status files under that directory; and, the last [chmod] not
    changing the tree, the archive is
    [/tmp/snap/gather_info_docker.tar.gz], inside [/tmp/snap], and holds the
    tree of [/tmp/snap/gather_info_docker]. *)
Theorem lite_snapshot_layout w w' :
  (forall w0, fst (bash "chmod -R 755 gather_info_docker.tar.gz" w0) = fs w0) ->
  main bash (Lite.argv program) ACTUAL_CMD w = Ok tt w' ->
  exit_status (main bash (Lite.argv program) ACTUAL_CMD w) = 0%Z
  /\ map fst (shell_log w')
     = map fst (shell_log w)
         ++ Lite.commands (getenv w "HABANA_LOGS")
                          (Os.find_executable "dpkg" w)
                          (Os.find_executable "rpm" w)
  /\ exists tree,
       Tree.lookup (fs w') Lite.outdir_path = Some tree
       /\ Tree.lookup (fs w') Lite.archive
          = Some (File (Tree.targz "gather_info_docker" tree)).
Proof.
  intros Hchmod Hmain. split; [now rewrite Hmain|].
  unfold main in Hmain.
  change (List.length (Lite.argv program) =? 1)%nat with false in Hmain. cbv iota in Hmain.
  apply bind_ok_inv in Hmain. destruct Hmain as (args & w0 & Hparse & Hmain).
  apply parse_args_lite in Hparse. destruct Hparse as [-> ->].
  apply bind_ok_inv in Hmain. destruct Hmain as (p & w1 & Hcreate & Hmain).
  pose proof (create_output_dir_returns _ _ _ _ _ Hcreate) as Hp.
  change (get_canonical_path w (outdir Lite.args)) with Lite.outdir_path in Hp.
  subst p.
  apply bind_ok_inv in Hmain. destruct Hmain as ([] & w2 & Hwrite & Hrun).
  destruct (inert_ok _ _ _ _ (inert_create_output_dir _ _) Hcreate)
    as (Hlog1 & Henv1 & Hexe1).
  destruct (inert_ok _ _ _ _ (inert_write_text _ _) Hwrite)
    as (Hlog2 & Henv2 & Hexe2).
  split.
  - destruct (emits_run_lite (environ w) (executables w) w2 tt w') as (Hcmds & _).
    + congruence.
    + congruence.
    + exact Hrun.
    + rewrite Hcmds, Hlog2, Hlog1. reflexivity.
  - unfold run in Hrun.
    do 9 (apply bind_ok_inv in Hrun; destruct Hrun as ([] & ?w & _ & Hrun)).
    apply bind_ok_inv in Hrun. destruct Hrun as ([] & w12 & Htar & Hrun).
    destruct (generateTarball_lite _ _ Hchmod Htar) as (tree & Hdir & Harchive).
    unfold uploadTarball, bind, ret, print in Hrun.
    inversion Hrun; subst w'; clear Hrun.
    exists tree. auto.
Qed.

End LiteRun.

(* ===================================================================== *)
(** * More on strings and paths *)
(* ===================================================================== *)

Lemma append_assoc (a b c : string) : (a +++ b) +++ c = a +++ b +++ c.
Proof. induction a as [|x a IH]; simpl; [reflexivity|now rewrite IH]. Qed.

Lemma length_append (a b : string) :
  String.length (a +++ b) = (String.length a + String.length b)%nat.
Proof. induction a as [|x a IH]; simpl; [reflexivity|now rewrite IH]. Qed.

Lemma contains_append c a b :
  Str.contains c (a +++ b) = Str.contains c a || Str.contains c b.
Proof.
  induction a as [|x a IH]; simpl; [reflexivity|].
  now rewrite IH, orb_assoc.
Qed.

(** Reversal, as [dirname] and [join] use it. *)
Lemma rev_acc_append s acc : Str.rev_acc s acc = Str.rev s +++ acc.
Proof.
  unfold Str.rev. revert acc.
  induction s as [|c s IH]; intros acc; simpl; [reflexivity|].
  rewrite (IH (String c acc)), (IH (String c "")), append_assoc. reflexivity.
Qed.

Lemma rev_cons c s : Str.rev (String c s) = Str.rev s +++ String c "".
Proof. unfold Str.rev at 1. simpl. apply rev_acc_append. Qed.

Lemma rev_append a b : Str.rev (a +++ b) = Str.rev b +++ Str.rev a.
Proof.
  induction a as [|c a IH]; simpl.
  - now rewrite append_empty_r.
  - now rewrite !rev_cons, IH, append_assoc.
Qed.

Lemma rev_involutive s : Str.rev (Str.rev s) = s.
Proof.
  induction s as [|c s IH]; [reflexivity|].
  now rewrite rev_cons, rev_append, IH.
Qed.

Lemma contains_rev c s : Str.contains c (Str.rev s) = Str.contains c s.
Proof.
  induction s as [|x s IH]; [reflexivity|].
  rewrite rev_cons, contains_append, IH. simpl.
  now rewrite orb_false_r, orb_comm.
Qed.

(** A clean path only grows under [normpath]. *)
Lemma normalize_descends done p :
  clean_path p -> OsPath.normalize done p = done ++ p.
Proof.
  revert done. induction p as [|c p IH]; intros done Hclean; simpl.
  - now rewrite app_nil_r.
  - inversion Hclean as [|? ? Hc Hp]; subst.
    destruct (valid_name_inv _ Hc) as (H1 & H2 & H3 & _).
    rewrite H1, H2, H3. simpl. rewrite (IH _ Hp), <- app_assoc. reflexivity.
Qed.

Lemma isabs_slash s : OsPath.isabs (String Str.slash s) = true.
Proof. destruct s; reflexivity. Qed.

Lemma isabs_str_of_path p : OsPath.isabs (str_of_path p) = true.
Proof.
  destruct p as [|c p]; [reflexivity|].
  simpl. destruct (map _ p); apply isabs_slash.
Qed.

Lemma split_str_of_path p :
  clean_path p -> Str.split Str.slash (str_of_path p) = "" :: match p with [] => [""] | _ => p end.
Proof.
  intros Hclean. destruct p as [|c p]; [reflexivity|].
  destruct (str_of_path_split (c :: p) Hclean) as (rest & Hstr & Hsplit);
    [discriminate|].
  rewrite Hstr. simpl. rewrite Hsplit. reflexivity.
Qed.

(** [os.path.abspath(str(p))] is [p] again. *)
Lemma abspath_str_of_path w p : clean_path p -> Os.abspath w (str_of_path p) = p.
Proof.
  intros Hclean. unfold Os.abspath, Os.start.
  rewrite isabs_str_of_path, (split_str_of_path p Hclean).
  destruct p as [|c p]; [reflexivity|].
  simpl OsPath.normalize. apply (normalize_descends [] (c :: p) Hclean).
Qed.

Lemma joinpath_valid p name :
  Tree.valid_name name = true -> joinpath p name = p ++ [name].
Proof.
  intros Hname. unfold joinpath.
  rewrite (valid_name_not_abs _ Hname).
  destruct (valid_name_inv _ Hname) as (H1 & H2 & _ & Hs).
  rewrite (split_no_sep _ _ Hs). simpl. now rewrite H1, H2.
Qed.

(** The string of a path, one component at a time. *)
Lemma concat_cons (x : string) l :
  String.concat "" (x :: l) = x +++ String.concat "" l.
Proof. destruct l; simpl; [now rewrite append_empty_r|reflexivity]. Qed.

Lemma concat_app l1 l2 :
  String.concat "" (l1 ++ l2) = String.concat "" l1 +++ String.concat "" l2.
Proof.
  induction l1 as [|x l1 IH]; [reflexivity|].
  change ((x :: l1) ++ l2) with (x :: (l1 ++ l2)).
  now rewrite !concat_cons, IH, append_assoc.
Qed.

Lemma str_of_path_snoc p name :
  str_of_path (p ++ [name])
  = match p with [] => "" | _ => str_of_path p end +++ "/" +++ name.
Proof.
  destruct p as [|c p]; [reflexivity|].
  change (str_of_path ((c :: p) ++ [name]))
    with (String.concat "" (map (fun c => "/" +++ c) ((c :: p) ++ [name]))).
  change (str_of_path (c :: p))
    with (String.concat "" (map (fun c => "/" +++ c) (c :: p))).
  rewrite map_app, concat_app. reflexivity.
Qed.

Lemma get_outdir_filename_valid outdir_path name :
  Tree.valid_name name = true ->
  get_outdir_filename outdir_path name = str_of_path (outdir_path ++ [name]).
Proof. intros H. unfold get_outdir_filename. now rewrite (joinpath_valid _ _ H). Qed.

Lemma lookup_prefix_dir root p q n :
  Tree.lookup root (p ++ q) = Some n -> q <> [] ->
  exists es, Tree.lookup root p = Some (Dir es).
Proof.
  rewrite TreeFacts.lookup_app. intros H Hq.
  destruct (Tree.lookup root p) as [[data|es]|]; try discriminate.
  - destruct q; [congruence|discriminate].
  - eauto.
Qed.

(** When the directories above the last component are there, the walk over
    valid names arrives. *)
Lemma walk_descends root cur p es :
  clean_path p -> p <> [] ->
  Tree.lookup root (cur ++ removelast p) = Some (Dir es) ->
  Os.walk root cur p = Some (cur ++ p).
Proof.
  revert cur es. induction p as [|c p IH]; intros cur es Hclean Hne Hdir;
    [congruence|].
  inversion Hclean as [|? ? Hc Hp]; subst.
  destruct (valid_name_inv _ Hc) as (H1 & H2 & H3 & _).
  destruct p as [|c' p'].
  - simpl in Hdir. rewrite app_nil_r in Hdir.
    simpl. now rewrite Hdir, H1, H2, H3.
  - change (removelast (c :: c' :: p')) with (c :: removelast (c' :: p')) in Hdir.
    destruct (lookup_prefix_dir _ _ _ _ Hdir) as [es0 Hcur]; [discriminate|].
    change (Os.walk root cur (c :: c' :: p'))
      with (match Tree.lookup root cur with
            | Some (Dir _) =>
                if String.eqb c "" || String.eqb c "." then Os.walk root cur (c' :: p')
                else if String.eqb c ".." then Os.walk root (removelast cur) (c' :: p')
                else Os.walk root (cur ++ [c]) (c' :: p')
            | _ => None
            end).
    rewrite Hcur, H1, H2, H3. simpl orb. cbv iota.
    rewrite (IH (cur ++ [c]) es Hp); [now rewrite <- app_assoc|discriminate|].
    now rewrite <- app_assoc.
Qed.

(** [str(p)] leads to [p] when the parent of [p] is a directory. *)
Lemma locate_str_of_path w p es :
  clean_path p -> p <> [] ->
  Tree.lookup (fs w) (removelast p) = Some (Dir es) ->
  Os.locate w (str_of_path p) = Some p.
Proof.
  intros Hclean Hne Hdir. unfold Os.locate, Os.start.
  rewrite isabs_str_of_path, (split_str_of_path p Hclean).
  destruct p as [|c p]; [congruence|].
  assert (Hroot : exists es0, fs w = Dir es0).
  { destruct (removelast (c :: p)) as [|x l] eqn:E.
    - simpl in Hdir. inversion Hdir. eauto.
    - destruct (lookup_prefix_dir (fs w) [] (x :: l) _ Hdir) as [es0 H0];
        [discriminate|]. simpl in H0. inversion H0. eauto. }
  destruct Hroot as [es0 Hroot].
  destruct (str_of_path (c :: p)) eqn:Hs.
  - destruct (str_of_path_split (c :: p) Hclean) as (rest & Hstr & _);
      [discriminate|congruence].
  - simpl String.eqb. cbv iota.
    change (Os.walk (fs w) [] ("" :: c :: p))
      with (match Tree.lookup (fs w) [] with
            | Some (Dir _) => Os.walk (fs w) [] (c :: p)
            | _ => None
            end).
    simpl Tree.lookup. rewrite Hroot. rewrite <- Hroot.
    apply (walk_descends (fs w) [] (c :: p) es Hclean Hne). exact Hdir.
Qed.

(** A file name is looked up in the working directory. *)
Lemma locate_name w name es :
  Tree.valid_name name = true ->
  Tree.lookup (fs w) (cwd w) = Some (Dir es) ->
  Os.locate w name = Some (cwd w ++ [name]).
Proof.
  intros Hname Hcwd. unfold Os.locate, Os.start.
  destruct (valid_name_inv _ Hname) as (H1 & H2 & H3 & Hs).
  rewrite H1, (valid_name_not_abs _ Hname), (split_no_sep _ _ Hs).
  simpl. now rewrite Hcwd, H1, H2, H3.
Qed.

(** ** [os.path.dirname] of a path string *)

Lemma drop_to_slash_rev_skip s t :
  Str.contains Str.slash s = false ->
  OsPath.drop_to_slash_rev (s +++ String Str.slash t) = String Str.slash t.
Proof.
  induction s as [|c s IH]; intros H.
  - cbn [String.append OsPath.drop_to_slash_rev].
    now rewrite Ascii.eqb_refl.
  - cbn [Str.contains] in H. cbn [String.append OsPath.drop_to_slash_rev].
    apply orb_false_elim in H. destruct H as [Hc Hs].
    rewrite Ascii.eqb_sym, Hc. now apply IH.
Qed.

Lemma strip_trailing_slashes_rev_keep s t :
  s <> "" -> Str.contains Str.slash s = false ->
  OsPath.strip_trailing_slashes_rev (s +++ t) = s +++ t.
Proof.
  destruct s as [|c s]; [congruence|]. intros _ H.
  cbn [Str.contains] in H.
  cbn [String.append OsPath.strip_trailing_slashes_rev].
  apply orb_false_elim in H. destruct H as [Hc _].
  now rewrite Ascii.eqb_sym, Hc.
Qed.

Lemma rev_not_empty s : s <> "" -> Str.rev s <> "".
Proof.
  intros Hs E. apply Hs. rewrite <- (rev_involutive s), E. reflexivity.
Qed.

Lemma dirname_snoc p name :
  clean_path p ->
  Tree.valid_name name = true ->
  OsPath.dirname (str_of_path (p ++ [name])) = str_of_path p.
Proof.
  intros Hp Hname.
  destruct (valid_name_inv _ Hname) as (_ & _ & _ & Hs).
  rewrite str_of_path_snoc. unfold OsPath.dirname.
  rewrite !rev_append. change (Str.rev "/") with "/".
  rewrite append_assoc.
  change ("/" +++ ?x) with (String Str.slash x).
  rewrite drop_to_slash_rev_skip by now rewrite contains_rev.
  destruct p as [|c p]; [reflexivity|].
  set (R := Str.rev (str_of_path (c :: p))).
  assert (Hl : exists q x, c :: p = q ++ [x] /\ Tree.valid_name x = true).
  { exists (removelast (c :: p)), (last (c :: p) "").
    split; [apply app_removelast_last; discriminate|].
    assert (Hin : In (last (c :: p) "") (c :: p)).
    { rewrite (app_removelast_last "" (l := c :: p)) at 2 by discriminate.
      apply in_or_app. right. now left. }
    unfold clean_path in Hp. rewrite Forall_forall in Hp. now apply Hp. }
  destruct Hl as (q & x & Hq & Hx).
  destruct (valid_name_inv _ Hx) as (Hx1 & _ & _ & Hxs).
  assert (Hstrip : OsPath.strip_trailing_slashes_rev (String Str.slash R) = R).
  { change (OsPath.strip_trailing_slashes_rev (String Str.slash R))
      with (OsPath.strip_trailing_slashes_rev R).
    unfold R. rewrite Hq, str_of_path_snoc, !rev_append, append_assoc.
    apply strip_trailing_slashes_rev_keep.
    - apply rev_not_empty. intros E. rewrite E in Hx1. discriminate.
    - now rewrite contains_rev. }
  rewrite Hstrip.
  destruct R as [|a r] eqn:ER.
  - exfalso. unfold R in ER.
    rewrite Hq, str_of_path_snoc, !rev_append, append_assoc in ER.
    destruct (Str.rev x) eqn:Ex; [|discriminate].
    apply (rev_not_empty x); [|exact Ex].
    intros E. rewrite E in Hx1. discriminate.
  - rewrite <- ER. unfold R. apply rev_involutive.
Qed.

Lemma dirname_str_of_path p :
  clean_path p -> p <> [] ->
  OsPath.dirname (str_of_path p) = str_of_path (removelast p).
Proof.
  intros Hclean Hne.
  rewrite (app_removelast_last "" Hne) at 1.
  apply dirname_snoc.
  - now apply removelast_Forall.
  - unfold clean_path in Hclean. rewrite Forall_forall in Hclean.
    apply Hclean. rewrite (app_removelast_last "" Hne) at 2.
    apply in_or_app. right. now left.
Qed.

(** ** Canonical paths *)

Lemma expandvars_plain w s :
  Str.contains "$"%char s = false -> Expand.expandvars w s = s.
Proof.
  unfold Expand.expandvars.
  induction s as [|c s IH]; intros H; [reflexivity|].
  cbn [Str.contains] in H. cbn [Expand.expandvars_from].
  apply orb_false_elim in H. destruct H as [Hc Hs].
  rewrite Ascii.eqb_sym, Hc, (IH Hs). reflexivity.
Qed.

Lemma expanduser_absolute w s :
  OsPath.isabs s = true -> Expand.expanduser w s = s.
Proof.
  destruct s as [|c s]; [reflexivity|].
  unfold OsPath.isabs, Str.starts_with. cbn [prefix]. intros H.
  destruct (ascii_dec "/" c) as [<-|]; [reflexivity|discriminate].
Qed.

Lemma str_of_path_dollar_free p :
  dollar_free p -> Str.contains "$"%char (str_of_path p) = false.
Proof.
  intros H. destruct p as [|c p]; [reflexivity|].
  change (str_of_path (c :: p))
    with (String.concat "" (map (fun c => "/" +++ c) (c :: p))).
  induction H as [|x l Hx Hl IH]; [reflexivity|].
  change (map (fun c => "/" +++ c) (x :: l))
    with (("/" +++ x) :: map (fun c => "/" +++ c) l).
  rewrite concat_cons, contains_append, IH.
  simpl. now rewrite Hx.
Qed.

Lemma get_canonical_path_str_of_path w p :
  clean_path p -> dollar_free p -> get_canonical_path w (str_of_path p) = p.
Proof.
  intros Hclean Hfree. unfold get_canonical_path.
  rewrite (expanduser_absolute w _ (isabs_str_of_path p)).
  rewrite (expandvars_plain w _ (str_of_path_dollar_free p Hfree)).
  now apply abspath_str_of_path.
Qed.

(* ===================================================================== *)
(** * More on the directory tree *)
(* ===================================================================== *)

Section MoreTreeFacts.
Import Tree.

Lemma entry_set_same c child es :
  entry_get c es = Some child -> entry_set c child es = es.
Proof.
  induction es as [|[k n] es IH]; simpl; [discriminate|].
  destruct (String.eqb_spec c k) as [->|Hne].
  - intros H. now inversion H.
  - intros H. now rewrite (IH H).
Qed.

(** [mkdir -p] on a directory that is there changes nothing. *)
Lemma mkdirs_existing root p es :
  lookup root p = Some (Dir es) -> mkdirs root p = Some root.
Proof.
  revert root. induction p as [|c p IH]; intros root H.
  - simpl in H. inversion H. reflexivity.
  - destruct root as [|entries]; [discriminate|]. simpl in *.
    destruct (entry_get c entries) as [child|] eqn:Hc; [|discriminate].
    rewrite (IH _ H), (entry_set_same _ _ _ Hc). reflexivity.
Qed.

(** A regular file at [p] is in the way. *)
Lemma mkdirs_blocked root p data :
  lookup root p = Some (File data) -> mkdirs root p = None.
Proof.
  revert root. induction p as [|c p IH]; intros root H.
  - simpl in H. inversion H. reflexivity.
  - destruct root as [|entries]; [discriminate|]. simpl in *.
    destruct (entry_get c entries) as [child|] eqn:Hc; [|discriminate].
    now rewrite (IH _ H).
Qed.

Lemma mkdirs_cons c rest es :
  mkdirs (Dir es) (c :: rest) =
  match entry_get c es with
  | Some child =>
      match mkdirs child rest with
      | Some child' => Some (Dir (entry_set c child' es))
      | None => None
      end
  | None => Some (Dir (entry_set c (chain rest) es))
  end.
Proof. reflexivity. Qed.

Lemma lookup_cons c rest es :
  lookup (Dir es) (c :: rest) =
  match entry_get c es with
  | Some child => lookup child rest
  | None => None
  end.
Proof. reflexivity. Qed.

(** Where something was unlinked, [mkdir -p] makes an empty directory. *)
Lemma mkdirs_empty_after_del root p root1 :
  del root p = Some root1 ->
  exists root2, mkdirs root1 p = Some root2 /\ lookup root2 p = Some (Dir []).
Proof.
  revert root root1. induction p as [|c rest IH]; intros root root1 Hd.
  - destruct root; discriminate.
  - destruct root as [|es]; [destruct rest; discriminate|].
    rewrite TreeFacts.del_cons in Hd.
    destruct (entry_get c es) as [child|]; [|destruct rest; discriminate].
    destruct rest as [|r rest'].
    + inversion Hd; subst. rewrite mkdirs_cons, TreeFacts.entry_get_del_same.
      eexists. split; [reflexivity|].
      rewrite lookup_cons, TreeFacts.entry_get_set_same. reflexivity.
    + destruct (del child (r :: rest')) as [child'|] eqn:Hc; [|discriminate].
      inversion Hd; subst.
      destruct (IH _ _ Hc) as (root2 & H2 & Hl2).
      rewrite mkdirs_cons, TreeFacts.entry_get_set_same, H2.
      eexists. split; [reflexivity|].
      rewrite lookup_cons, TreeFacts.entry_get_set_same. exact Hl2.
Qed.

(** Unlinking an entry leaves its siblings, and what is below them. *)
Lemma lookup_del_sibling root dir a b rest root' :
  del root (dir ++ [a]) = Some root' -> a <> b ->
  lookup root' (dir ++ b :: rest) = lookup root (dir ++ b :: rest).
Proof.
  revert root root'. induction dir as [|c dir IH]; intros root root' Hd Hab.
  - simpl app in *. destruct root as [|es]; [discriminate|].
    rewrite TreeFacts.del_cons in Hd.
    destruct (entry_get a es); inversion Hd; subst.
    rewrite !lookup_cons, TreeFacts.entry_get_del_other; [reflexivity|].
    congruence.
  - change ((c :: dir) ++ [a]) with (c :: (dir ++ [a])) in Hd.
    change ((c :: dir) ++ b :: rest) with (c :: (dir ++ b :: rest)).
    destruct root as [|es]; [destruct (dir ++ [a]); discriminate|].
    rewrite TreeFacts.del_cons in Hd.
    destruct (entry_get c es) as [child|] eqn:Hc;
      [|destruct (dir ++ [a]); discriminate].
    destruct (dir ++ [a]) as [|x l] eqn:E; [destruct dir; discriminate|].
    destruct (del child (x :: l)) as [child'|] eqn:Hd'; [|discriminate].
    inversion Hd; subst.
    rewrite !lookup_cons, TreeFacts.entry_get_set_same, Hc.
    apply (IH _ _ Hd' Hab).
Qed.

(** Something can be put where the parent is a directory. *)
Lemma put_exists root p x es :
  p <> [] -> lookup root (removelast p) = Some (Dir es) ->
  exists root', put root p x = Some root'.
Proof.
  revert root. induction p as [|c p IH]; intros root Hne Hdir; [congruence|].
  destruct p as [|c' p'].
  - simpl in Hdir. inversion Hdir; subst. simpl. eauto.
  - change (removelast (c :: c' :: p')) with (c :: removelast (c' :: p')) in Hdir.
    destruct root as [|entries]; [discriminate|].
    rewrite lookup_cons in Hdir. rewrite TreeFacts.put_cons.
    destruct (entry_get c entries) as [child|]; [|discriminate].
    destruct (IH child) as [child' ->]; [discriminate|exact Hdir|]. eauto.
Qed.

Lemma lookup_parent root p n :
  lookup root p = Some n -> p <> [] ->
  exists es, lookup root (removelast p) = Some (Dir es).
Proof.
  intros H Hne.
  rewrite (app_removelast_last "" Hne) in H.
  apply (lookup_prefix_dir _ _ _ _ H). discriminate.
Qed.

End MoreTreeFacts.

(** ** The archive beside a directory *)

Lemma valid_name_suffix name suffix :
  Tree.valid_name name = true ->
  Str.contains Str.slash suffix = false ->
  (2 <= String.length suffix)%nat ->
  Tree.valid_name (name +++ suffix) = true.
Proof.
  intros Hname Hs Hlen.
  destruct (valid_name_inv _ Hname) as (_ & _ & _ & Hslash).
  unfold Tree.valid_name.
  rewrite contains_append, Hslash, Hs.
  assert (Hl : (3 <= String.length (name +++ suffix))%nat).
  { rewrite length_append.
    destruct name as [|c name]; [discriminate|]. simpl. lia. }
  destruct (String.eqb_spec (name +++ suffix) "") as [E|_];
    [rewrite E in Hl; simpl in Hl; lia|].
  destruct (String.eqb_spec (name +++ suffix) ".") as [E|_];
    [rewrite E in Hl; simpl in Hl; lia|].
  destruct (String.eqb_spec (name +++ suffix) "..") as [E|_];
    [rewrite E in Hl; simpl in Hl; lia|].
  reflexivity.
Qed.

Lemma append_suffix_neq (name suffix : string) :
  suffix <> "" -> name +++ suffix <> name.
Proof.
  intros Hs E. apply (f_equal String.length) in E.
  rewrite length_append in E.
  destruct suffix; [congruence|]. simpl in E. lia.
Qed.

Lemma str_of_path_suffix p name suffix :
  str_of_path (p ++ [name]) +++ suffix = str_of_path (p ++ [name +++ suffix]).
Proof. now rewrite !str_of_path_snoc, !append_assoc. Qed.

(* ===================================================================== *)
(** * [helper_functions.py], further *)
(* ===================================================================== *)

Section CanonicalPaths.

Variable w : World.

(** X1. Canonicalising the string of a canonical path gives the path back,
    as long as no component of it contains a dollar sign (which
    [os.path.expandvars] would read as a variable the second time).  [main]
    relies on this: [parse_args] stores a canonical string in [args.outdir]
    and [create_output_dir] canonicalises it again. *)
Theorem get_canonical_path_idempotent name :
  clean_path (cwd w) ->
  dollar_free (get_canonical_path w name) ->
  get_canonical_path w (get_canonical_path_str w name) = get_canonical_path w name
  /\ get_canonical_path_str w (get_canonical_path_str w name)
     = get_canonical_path_str w name.
Proof.
  intros Hcwd Hfree.
  assert (H : get_canonical_path w (get_canonical_path_str w name)
              = get_canonical_path w name).
  { unfold get_canonical_path_str.
    apply get_canonical_path_str_of_path; [|exact Hfree].
    now apply get_canonical_path_clean. }
  split; [exact H|].
  unfold get_canonical_path_str at 1. now rewrite H.
Qed.

End CanonicalPaths.

Section OutputDirectoryCases.

Variables (outdir : string) (w : World).

#[local] Abbreviation od := (get_canonical_path w outdir).

(** X2. Without the clear flag a regular file at the requested path is
    not touched: [os.makedirs] fails on it, and [create_output_dir] raises
    its [RuntimeError] with that [FileExistsError] as the cause, having
    printed and changed nothing. *)
Theorem create_output_dir_blocked_by_file data :
  Tree.lookup (fs w) (get_canonical_path w outdir) = Some (File data) ->
  create_output_dir outdir false w
  = Raise (RuntimeError ("Error in creating directory " +++ outdir
                           +++ " with clear_flag = False")
                        (FileExistsError
                           (str_of_path (get_canonical_path w outdir))))
          w.
Proof.
  intros Hfile. apply try_reraise_raise.
  unfold bind at 1, get_world at 1.
  unfold bind at 1, ret at 1.
  unfold bind at 1, Os.makedirs_at at 1.
  now rewrite (mkdirs_blocked _ _ _ Hfile), Hfile.
Qed.

Lemma bind_seq_ok {A B C} (m1 : M A) (m2 : M B) (k : B -> M C) w0 b w2 :
  (m1 ;; m2) w0 = Ok b w2 -> (m1 ;; (x <- m2 ;; k x)) w0 = k b w2.
Proof.
  unfold bind. destruct (m1 w0) as [a w1| |]; try discriminate.
  destruct (m2 w1); intros H; inversion H; reflexivity.
Qed.

Lemma rmtree_at_ok p w0 es t :
  Tree.lookup (fs w0) p = Some (Dir es) -> p <> [] ->
  Tree.del (fs w0) p = Some t ->
  Os.rmtree_at p w0 = Ok tt (with_fs w0 t).
Proof.
  intros Hdir Hne Hdel. unfold Os.rmtree_at. rewrite Hdir.
  destruct p; [congruence|]. now rewrite Hdel.
Qed.

(** The last statement of [create_output_dir], the removal of a stale
    archive, leaves what is at the path itself alone. *)
Lemma stale_archive_removal p n w2 :
  clean_path p -> p <> [] ->
  Tree.lookup (fs w2) p = Some n ->
  exists w3,
    (if Os.path_isfile (str_of_path p +++ ".tar.gz") w2 then
       print ("*** Deleting existing file " +++ str_of_path p
                +++ ".tar.gz..." +++ Str.nl +++ Str.nl) ;;
       Os.remove (str_of_path p +++ ".tar.gz")
     else ret tt) w2 = Ok tt w3
    /\ Tree.lookup (fs w3) p = Some n.
Proof.
  intros Hclean Hne Hp.
  destruct (Os.path_isfile (str_of_path p +++ ".tar.gz") w2) eqn:Hf;
    [|exists w2; split; [reflexivity|exact Hp]].
  set (dir := removelast p). set (name := last p "").
  assert (Ep : p = dir ++ [name]) by now apply app_removelast_last.
  assert (Hname : Tree.valid_name name = true).
  { unfold clean_path in Hclean. rewrite Forall_forall in Hclean.
    apply Hclean. rewrite Ep. apply in_or_app. right. now left. }
  assert (Hdirclean : clean_path dir) by now apply removelast_Forall.
  set (q := dir ++ [name +++ ".tar.gz"]).
  assert (Hq : clean_path q).
  { apply Forall_app. split; [exact Hdirclean|].
    constructor; [|constructor].
    apply valid_name_suffix; [exact Hname|reflexivity|simpl; lia]. }
  assert (Es : str_of_path p +++ ".tar.gz" = str_of_path q).
  { rewrite Ep at 1. apply str_of_path_suffix. }
  rewrite Es in *.
  destruct (lookup_parent _ _ _ Hp Hne) as [es Hdir]. fold dir in Hdir.
  assert (Hqne : q <> []) by (unfold q; destruct dir; discriminate).
  unfold Os.path_isfile in Hf.
  rewrite (stat_str_of_path w2 q Hq (or_introl Hqne)) in Hf.
  destruct (Tree.lookup (fs w2) q) as [[d|]|] eqn:Hlq; try discriminate.
  destruct (TreeFacts.del_exists _ _ _ Hlq Hqne) as [t Hdel].
  exists (with_fs (with_terminal w2
                     (terminal w2
                        ++ [Line ("*** Deleting existing file " +++ str_of_path p
                                    +++ ".tar.gz..." +++ Str.nl +++ Str.nl)])) t).
  split.
  - unfold bind, print, Os.remove.
    set (wp := with_terminal w2 _).
    assert (Hloc : Os.locate wp (str_of_path q) = Some q).
    { apply (locate_str_of_path wp q es Hq Hqne).
      unfold q. now rewrite removelast_last. }
    rewrite Hloc. unfold Os.remove_at.
    change (fs wp) with (fs w2). now rewrite Hlq, Hdel.
  - simpl fs. rewrite Ep in Hp |- *.
    rewrite (lookup_del_sibling _ dir (name +++ ".tar.gz") name [] _ Hdel);
      [exact Hp|].
    apply append_suffix_neq. discriminate.
Qed.

(** X3. On a directory that is already there (and is not the root):
    without the clear flag [create_output_dir] returns leaving its entries
    as they are, and with the clear flag it returns leaving it empty. *)
Theorem create_output_dir_on_existing_directory clear_flag es :
  clean_path (cwd w) ->
  get_canonical_path w outdir <> [] ->
  Tree.lookup (fs w) (get_canonical_path w outdir) = Some (Dir es) ->
  exists w',
    create_output_dir outdir clear_flag w = Ok (get_canonical_path w outdir) w'
    /\ Tree.lookup (fs w') (get_canonical_path w outdir)
       = Some (Dir (if clear_flag then [] else es)).
Proof.
  intros Hcwd Hne Hdir.
  assert (Hclean : clean_path od) by now apply get_canonical_path_clean.
  assert (Hmk :
    exists w2,
      ((if clear_flag then
          if Os.isfile_at od w then
            print ("*** Deleting existing file " +++ str_of_path od
                     +++ "..." +++ Str.nl +++ Str.nl) ;;
            Os.remove_at od
          else if Os.isdir_at od w then
            print ("*** Deleting existing directory " +++ str_of_path od
                     +++ "..." +++ Str.nl +++ Str.nl) ;;
            Os.rmtree_at od
          else ret tt
        else ret tt) ;;
       Os.makedirs_at od) w = Ok tt w2
      /\ Tree.lookup (fs w2) od = Some (Dir (if clear_flag then [] else es))).
  { destruct clear_flag.
    - unfold Os.isfile_at, Os.isdir_at. rewrite Hdir. simpl Tree.is_file.
      simpl Tree.is_dir. cbv iota.
      destruct (TreeFacts.del_exists _ _ _ Hdir Hne) as [t1 Hdel].
      destruct (mkdirs_empty_after_del _ _ _ Hdel) as (t2 & Hmk & Hl2).
      eexists. split.
      + unfold bind, print.
        rewrite (rmtree_at_ok od _ es t1); [|exact Hdir|exact Hne|exact Hdel].
        unfold Os.makedirs_at. simpl (fs (with_fs _ _)).
        rewrite Hmk. reflexivity.
      + exact Hl2.
    - exists w. split; [|exact Hdir].
      unfold bind, ret, Os.makedirs_at.
      rewrite (mkdirs_existing _ _ _ Hdir). now destruct w. }
  destruct Hmk as (w2 & Hrun & Hl2).
  destruct (stale_archive_removal od _ w2 Hclean Hne Hl2) as (w3 & Htar & Hl3).
  exists w3. split; [|exact Hl3].
  apply try_reraise_ok.
  unfold bind at 1, get_world at 1.
  rewrite (bind_seq_ok _ _ _ _ _ _ Hrun).
  unfold bind at 1, get_world at 1.
  unfold bind at 1. rewrite Htar. reflexivity.
Qed.

End OutputDirectoryCases.

(* ===================================================================== *)
(** * The command line, further *)
(* ===================================================================== *)

Section OptionParsing.
Import ArgParse.

(** Which option strings lead to a destination. *)
Lemma find_option_dest arg display dest ar :
  find_option arg option_table = Some (display, dest, ar) ->
  (dest = "stdout" -> arg = "-s" \/ arg = "--stdout")
  /\ (dest = "outdir" -> arg = "-o" \/ arg = "--outdir").
Proof.
  unfold option_table, find_option.
  repeat match goal with
         | |- context [String.eqb arg ?k] => destruct (String.eqb_spec arg k)
         end;
    intros H; inversion H; subst; split; intros E; try discriminate; auto.
Qed.

(** A property of the namespace that only storing into [dest0] can break
    holds at the end of the command line, when no argument is an option
    string for [dest0]. *)
Lemma parse_invariant (dest0 : string) (P : partial -> Prop) (Q : outcome -> Prop) :
  (forall dest ns, P ns -> P (store_true dest ns)) ->
  (forall values ns, P ns -> P (store_copydirs values ns)) ->
  (forall arg ns, P ns -> P (add_extra arg ns)) ->
  (forall dest value ns, dest <> dest0 -> P ns -> P (store dest value ns)) ->
  (forall ns, P ns -> Q (finish ns)) ->
  Q Help -> (forall message, Q (Error message)) ->
  forall args ns wt,
    (forall arg display ar,
        In arg args -> find_option arg option_table <> Some (display, dest0, ar)) ->
    P ns ->
    (forall display dest, wt = One display dest -> dest <> dest0) ->
    Q (parse args ns wt).
Proof.
  intros Hflag Hdirs Hextra Hstore Hfinish Hhelp Herror.
  induction args as [|arg rest IH]; intros ns wt Hargs HP Hwt.
  - simpl. destruct wt as [|display dest|display [|v got]]; simpl; auto.
  - assert (Hrest : forall a display ar,
               In a rest -> find_option a option_table <> Some (display, dest0, ar)).
    { intros a display ar Hin. apply Hargs. now right. }
    cbn [parse].
    destruct (looks_like_option arg).
    + assert (Hclose : match close wt ns with
                       | inl ns' => P ns'
                       | inr _ => True
                       end).
      { destruct wt as [|display dest|display [|v got]]; simpl; auto. }
      destruct (close wt ns) as [ns'|message]; [|apply Herror].
      destruct (find_option arg option_table) as [[[display dest] ar]|] eqn:Hopt.
      * destruct ar.
        -- apply IH; auto. discriminate.
        -- apply IH; auto. intros d1 d2 E. inversion E; subst.
           intros ->. apply (Hargs arg d1 OneValue); [now left|exact Hopt].
        -- apply IH; auto. discriminate.
        -- exact Hhelp.
      * apply IH; auto. discriminate.
    + destruct wt as [|display dest|display got].
      * apply IH; auto.
      * apply IH; auto; [|discriminate].
        apply Hstore; [|exact HP]. now apply (Hwt display dest).
      * apply IH; auto. discriminate.
Qed.

Lemma p_stdout_store_true dest ns : p_stdout (store_true dest ns) = p_stdout ns.
Proof.
  destruct ns. unfold store_true.
  repeat match goal with
         | |- context [String.eqb ?a ?b] => destruct (String.eqb a b)
         end; reflexivity.
Qed.

Lemma p_outdir_store_true dest ns : p_outdir (store_true dest ns) = p_outdir ns.
Proof.
  destruct ns. unfold store_true.
  repeat match goal with
         | |- context [String.eqb ?a ?b] => destruct (String.eqb a b)
         end; reflexivity.
Qed.

Lemma p_stdout_store dest value ns :
  dest <> "stdout" -> p_stdout (store dest value ns) = p_stdout ns.
Proof.
  intros Hd. destruct ns. unfold store.
  destruct (String.eqb_spec dest "stdout"); [congruence|].
  repeat match goal with
         | |- context [String.eqb ?a ?b] => destruct (String.eqb a b)
         end; reflexivity.
Qed.

Lemma p_outdir_store dest value ns :
  dest <> "outdir" -> p_outdir (store dest value ns) = p_outdir ns.
Proof.
  intros Hd. destruct ns. unfold store.
  destruct (String.eqb_spec dest "outdir"); [congruence|].
  repeat match goal with
         | |- context [String.eqb ?a ?b] => destruct (String.eqb a b)
         end; reflexivity.
Qed.

Lemma no_option_for dest0 a b args :
  (forall arg display ar,
      find_option arg option_table = Some (display, dest0, ar) ->
      arg = a \/ arg = b) ->
  ~ In a args -> ~ In b args ->
  forall arg display ar,
    In arg args -> find_option arg option_table <> Some (display, dest0, ar).
Proof.
  intros Hdest Ha Hb arg display ar Hin Hopt.
  destruct (Hdest _ _ _ Hopt); subst; contradiction.
Qed.

(** Without [-s] or [--stdout] on it a command line is not accepted. *)
Lemma parse_args_requires_stdout args ns :
  ~ In "-s" args -> ~ In "--stdout" args -> parse_args args <> Parsed ns.
Proof.
  intros Hs Hstdout. unfold parse_args.
  apply (parse_invariant "stdout" (fun p => p_stdout p = None)
                         (fun o => o <> Parsed ns)).
  - intros. now rewrite p_stdout_store_true.
  - intros values []. auto.
  - intros arg []. auto.
  - intros. now rewrite p_stdout_store.
  - intros p Hp. unfold finish. rewrite Hp. discriminate.
  - discriminate.
  - discriminate.
  - apply (no_option_for "stdout" "-s" "--stdout"); auto.
    intros arg display ar Hopt.
    now apply (find_option_dest _ _ _ _ Hopt).
  - reflexivity.
  - discriminate.
Qed.

(** Without [-o] or [--outdir] the output directory is the default. *)
Lemma parse_args_default_outdir args ns :
  ~ In "-o" args -> ~ In "--outdir" args ->
  parse_args args = Parsed ns -> outdir ns = "./".
Proof.
  intros Ho Houtdir. unfold parse_args.
  apply (parse_invariant "outdir" (fun p => p_outdir p = "./")
                         (fun o => o = Parsed ns -> outdir ns = "./")).
  - intros. now rewrite p_outdir_store_true.
  - intros values []. auto.
  - intros arg []. auto.
  - intros. now rewrite p_outdir_store.
  - intros p Hp. unfold finish.
    destruct (p_stdout p); [|discriminate].
    destruct (p_extras p); [|discriminate].
    intros E. inversion E. exact Hp.
  - discriminate.
  - discriminate.
  - apply (no_option_for "outdir" "-o" "--outdir"); auto.
    intros arg display ar Hopt.
    now apply (find_option_dest _ _ _ _ Hopt).
  - reflexivity.
  - discriminate.
Qed.

End OptionParsing.

Lemma parse_help_inv args ns wt :
  ArgParse.parse args ns wt = ArgParse.Help -> In "-h" args \/ In "--help" args.
Proof.
  revert ns wt. induction args as [|arg rest IH]; intros ns wt.
  - simpl. destruct (ArgParse.close wt ns) as [ns'|]; [|discriminate].
    unfold ArgParse.finish. destruct (ArgParse.p_stdout ns'); [|discriminate].
    destruct (ArgParse.p_extras ns'); discriminate.
  - cbn [ArgParse.parse].
    assert (Hrest : forall ns' wt',
               ArgParse.parse rest ns' wt' = ArgParse.Help ->
               In "-h" (arg :: rest) \/ In "--help" (arg :: rest)).
    { intros ns' wt' H. destruct (IH _ _ H); [left|right]; now right. }
    destruct (ArgParse.looks_like_option arg).
    + destruct (ArgParse.close wt ns) as [ns'|]; [|discriminate].
      destruct (ArgParse.find_option arg ArgParse.option_table)
        as [[[display dest] ar]|] eqn:Hopt; [|apply Hrest].
      destruct ar; try apply Hrest.
      intros _. revert Hopt. unfold ArgParse.option_table, ArgParse.find_option.
      repeat match goal with
             | |- context [String.eqb arg ?k] => destruct (String.eqb_spec arg k)
             end;
        intros H; inversion H; subst; [left|right]; now left.
    + destruct wt; apply Hrest.
Qed.

(* ===================================================================== *)
(** * From the command line to the first step *)
(* ===================================================================== *)

Section EntryPoint.

Variable bash : string -> World -> node * Z.
Variable sys_argv : list string.
Variable ACTUAL_CMD : string.

(** [parse_args] returns only to root, with what [argparse] parsed and
    the output directory made canonical and extended by [TMPDIR]. *)
Lemma parse_args_ok_inv w args w0 :
  parse_args sys_argv ACTUAL_CMD w = Ok args w0 ->
  exists parsed,
    ArgParse.parse_args (tl sys_argv) = ArgParse.Parsed parsed
    /\ euid w = 0%Z /\ w0 = w
    /\ args = mkNamespace
                (str_of_path (joinpath (get_canonical_path w (outdir parsed))
                                       (TMPDIR ACTUAL_CMD)))
                (clear parsed) (lite parsed) (stdout parsed) (stderr parsed)
                (yaml_config parsed) (cmd_name parsed) (copydirs parsed).
Proof.
  unfold parse_args.
  destruct (ArgParse.parse_args (tl sys_argv)) as [parsed| |message].
  - unfold bind at 1, get_world at 1.
    destruct (euid w =? 0)%Z eqn:Hroot; simpl negb; cbv iota.
    + unfold ret. intros H. inversion H; subst. exists parsed.
      apply Z.eqb_eq in Hroot. auto.
    + unfold bind, print, print_help, sys_exit. discriminate.
  - unfold bind, print_help, sys_exit. discriminate.
  - unfold parser_error. discriminate.
Qed.

Lemma basename_no_slash name :
  Str.contains Str.slash (OsPath.basename name) = false.
Proof.
  unfold OsPath.basename.
  pose proof (split_pieces Str.slash name) as H.
  induction H as [|x l Hx Hl IH]; [reflexivity|].
  destruct l; [exact Hx|exact IH].
Qed.

Lemma valid_name_EXECCMDLINEFILE :
  Tree.valid_name (EXECCMDLINEFILE ACTUAL_CMD) = true.
Proof.
  unfold Tree.valid_name, EXECCMDLINEFILE.
  rewrite !contains_append, basename_no_slash. reflexivity.
Qed.

(** X4. The directory the script works in is never the one given with
    [-o]: it is the subdirectory of it named after the script
    ([TMPDIR], the script's file name without extension).  Given a
    [TMPDIR] that is a file name, and no dollar sign in a component,
    this is the path [create_output_dir] returns to [main]. *)
Theorem output_directory_is_named_after_script w parsed args w0 p w1 :
  clean_path (cwd w) ->
  Tree.valid_name (TMPDIR ACTUAL_CMD) = true ->
  dollar_free (get_canonical_path w (outdir parsed) ++ [TMPDIR ACTUAL_CMD]) ->
  ArgParse.parse_args (tl sys_argv) = ArgParse.Parsed parsed ->
  parse_args sys_argv ACTUAL_CMD w = Ok args w0 ->
  create_output_dir (outdir args) (clear args) w0 = Ok p w1 ->
  p = get_canonical_path w (outdir parsed) ++ [TMPDIR ACTUAL_CMD].
Proof.
  intros Hcwd Hname Hfree Hparsed Hargs Hcreate.
  apply parse_args_ok_inv in Hargs.
  destruct Hargs as (parsed' & Hparsed' & _ & -> & ->).
  rewrite Hparsed in Hparsed'. inversion Hparsed'; subst parsed'.
  rewrite (create_output_dir_returns _ _ _ _ _ Hcreate). simpl outdir.
  rewrite (joinpath_valid _ _ Hname).
  apply get_canonical_path_str_of_path; [|exact Hfree].
  apply Forall_app. split; [now apply get_canonical_path_clean|].
  constructor; [exact Hname|constructor].
Qed.

(** X5. Without [-o] or [--outdir] on a command line that spells its
    options in full, the directory is [TMPDIR] under the working
    directory. *)
Theorem default_output_directory w args w0 :
  clean_path (cwd w) ->
  Tree.valid_name (TMPDIR ACTUAL_CMD) = true ->
  spelled_in_full (tl sys_argv) ->
  ~ In "-o" (tl sys_argv) -> ~ In "--outdir" (tl sys_argv) ->
  parse_args sys_argv ACTUAL_CMD w = Ok args w0 ->
  outdir args = str_of_path (cwd w ++ [TMPDIR ACTUAL_CMD]).
Proof.
  intros Hcwd Hname _ Ho Houtdir Hargs.
  apply parse_args_ok_inv in Hargs.
  destruct Hargs as (parsed & Hparsed & _ & _ & ->). simpl outdir.
  rewrite (parse_args_default_outdir _ _ Ho Houtdir Hparsed).
  rewrite (joinpath_valid _ _ Hname). reflexivity.
Qed.

(** X6. [-s/--stdout] is required: a command line without it (its
    options spelled in full) ends in the usage error with status 2, or,
    when it asks for help, in the help text with status 0; the files and
    the shell are not touched. *)
Theorem stdout_option_is_required w :
  List.length sys_argv <> 1%nat ->
  spelled_in_full (tl sys_argv) ->
  ~ In "-s" (tl sys_argv) -> ~ In "--stdout" (tl sys_argv) ->
  (exists message,
      main bash sys_argv ACTUAL_CMD w
      = SysExit 2 (with_terminal w (terminal w ++ [UsageError message])))
  \/ ((In "-h" (tl sys_argv) \/ In "--help" (tl sys_argv))
      /\ main bash sys_argv ACTUAL_CMD w
         = SysExit 0 (with_terminal w (terminal w ++ [HelpText]))).
Proof.
  intros Hlen _ Hs Hstdout. unfold main.
  destruct (List.length sys_argv =? 1)%nat eqn:E;
    [apply Nat.eqb_eq in E; contradiction|].
  unfold bind at 1, parse_args.
  destruct (ArgParse.parse_args (tl sys_argv)) as [parsed| |message] eqn:Hparse.
  - destruct (parse_args_requires_stdout _ parsed Hs Hstdout Hparse).
  - right. split; [|reflexivity].
    exact (parse_help_inv _ _ _ Hparse).
  - left. exists message. reflexivity.
Qed.

Lemma create_output_dir_isdir outdir clear_flag w p w' :
  create_output_dir outdir clear_flag w = Ok p w' ->
  exists es, Tree.lookup (fs w') p = Some (Dir es).
Proof.
  intros H. pose proof (create_output_dir_returns _ _ _ _ _ H) as Hp.
  apply try_reraise_ok_inv in H.
  apply bind_ok_inv in H. destruct H as (w0 & wa & Hget & H).
  inversion Hget; subst w0 wa; clear Hget.
  apply bind_ok_inv in H. destruct H as ([] & w1 & _ & H).
  apply bind_ok_inv in H. destruct H as ([] & w2 & Hmk & H).
  apply bind_ok_inv in H. destruct H as (w2' & w2'' & Hget & H).
  inversion Hget; subst w2' w2''; clear Hget.
  apply bind_ok_inv in H. destruct H as ([] & w3 & Htar & H).
  inversion H; subst w'; clear H. rewrite <- Hp in *.
  assert (Hdir2 : Os.isdir_at p w2 = true).
  { apply makedirs_at_ok_inv in Hmk. destruct Hmk as (t & Hm & ->).
    unfold Os.isdir_at. simpl.
    destruct (TreeFacts.lookup_mkdirs _ _ _ Hm) as [es ->]. reflexivity. }
  assert (Hdir3 : Os.isdir_at p w3 = true).
  { destruct (Os.path_isfile (str_of_path p +++ ".tar.gz") w2) eqn:Hf.
    - apply bind_ok_inv in Htar. destruct Htar as ([] & wp & Hpr & Hrm).
      unfold print in Hpr. inversion Hpr; subst wp; clear Hpr.
      apply remove_postcondition in Hrm. now apply Hrm.
    - inversion Htar; subst w3. exact Hdir2. }
  unfold Os.isdir_at in Hdir3.
  destruct (Tree.lookup (fs w3) p) as [[|es]|]; try discriminate. eauto.
Qed.

(** X7. Before the first step runs, [main] has written the record of its
    own command line into the output directory, replacing a file of that
    name from an earlier run: [run] starts on a machine where
    [execution-command-line-<script>.txt] holds [sys.argv] joined by
    spaces, unless a directory is in the way. *)
Theorem main_records_command_line w args w0 p w1 :
  clean_path (cwd w) ->
  List.length sys_argv <> 1%nat ->
  parse_args sys_argv ACTUAL_CMD w = Ok args w0 ->
  create_output_dir (outdir args) (clear args) w0 = Ok p w1 ->
  Os.isdir_at (p ++ [EXECCMDLINEFILE ACTUAL_CMD]) w1 = false ->
  exists w2,
    main bash sys_argv ACTUAL_CMD w = run bash sys_argv args p w2
    /\ Tree.lookup (fs w2) (p ++ [EXECCMDLINEFILE ACTUAL_CMD])
       = Some (File (command_line_record sys_argv))
    /\ shell_log w2 = shell_log w.
Proof.
  intros Hcwd Hlen Hargs Hcreate Hnodir.
  pose proof (parse_args_ok_inv _ _ _ Hargs) as (parsed & _ & _ & Ew0 & _).
  subst w0.
  pose proof (create_output_dir_returns _ _ _ _ _ Hcreate) as Hp.
  assert (Hclean : clean_path p).
  { rewrite Hp. now apply get_canonical_path_clean. }
  destruct (create_output_dir_isdir _ _ _ _ _ Hcreate) as [es Hdir].
  pose proof valid_name_EXECCMDLINEFILE as Hname.
  set (q := p ++ [EXECCMDLINEFILE ACTUAL_CMD]) in *.
  assert (Hq : clean_path q).
  { apply Forall_app. split; [exact Hclean|]. constructor; [exact Hname|constructor]. }
  assert (Hqne : q <> []) by (unfold q; destruct p; discriminate).
  assert (Hloc : Os.locate w1 (str_of_path q) = Some q).
  { apply (locate_str_of_path w1 q es Hq Hqne).
    unfold q. now rewrite removelast_last. }
  destruct (put_exists (fs w1) q (File (command_line_record sys_argv)) es Hqne)
    as [t Hput].
  { unfold q. now rewrite removelast_last. }
  exists (with_fs w1 t). split; [|split].
  - unfold main.
    destruct (List.length sys_argv =? 1)%nat eqn:E;
      [apply Nat.eqb_eq in E; contradiction|].
    rewrite (bind_ok _ _ _ _ _ Hargs), (bind_ok _ _ _ _ _ Hcreate).
    rewrite (joinpath_valid _ _ Hname). fold q.
    unfold bind at 1, Os.write_text. rewrite Hloc.
    unfold Os.isdir_at in Hnodir.
    fold (command_line_record sys_argv).
    destruct (Tree.lookup (fs w1) q) as [[|]|]; try discriminate;
      now rewrite Hput.
  - simpl. exact (lookup_put_same _ _ _ _ Hput).
  - simpl.
    destruct (inert_ok _ _ _ _ (inert_create_output_dir _ _) Hcreate) as (-> & _).
    reflexivity.
Qed.

End EntryPoint.

(* ===================================================================== *)
(** * Exit statuses *)
(* ===================================================================== *)

Section ExitStatus.

Variable bash : string -> World -> node * Z.
Variable sys_argv : list string.
Variable ACTUAL_CMD : string.

(** C9, as the script has it, for command lines that spell their options
    in full.  Without any argument the help text is printed and the
    status is 1.  A command line that [argparse] rejects ends with the
    usage error and status 2; one without [-s/--stdout] (and without a
    request for help) is among them.  An accepted command line without
    root privilege ends with the message, the help text and status 1.
    And when every stage returns, so does [main], which is status 0,
    while a step that raises makes it 1. *)
Theorem exit_statuses w :
  spelled_in_full (tl sys_argv) ->
  (List.length sys_argv = 1%nat ->
     main bash sys_argv ACTUAL_CMD w
     = SysExit 1 (with_terminal w (terminal w ++ [HelpText])))
  /\ (forall message,
         List.length sys_argv <> 1%nat ->
         ArgParse.parse_args (tl sys_argv) = ArgParse.Error message ->
         main bash sys_argv ACTUAL_CMD w
         = SysExit 2 (with_terminal w (terminal w ++ [UsageError message])))
  /\ (List.length sys_argv <> 1%nat ->
      ~ In "-s" (tl sys_argv) -> ~ In "--stdout" (tl sys_argv) ->
      ~ In "-h" (tl sys_argv) -> ~ In "--help" (tl sys_argv) ->
      exists message,
        main bash sys_argv ACTUAL_CMD w
        = SysExit 2 (with_terminal w (terminal w ++ [UsageError message])))
  /\ (forall parsed,
         List.length sys_argv <> 1%nat ->
         ArgParse.parse_args (tl sys_argv) = ArgParse.Parsed parsed ->
         euid w <> 0%Z ->
         main bash sys_argv ACTUAL_CMD w
         = SysExit 1 (with_terminal w
                        (terminal w ++ [Line rerun_as_root; HelpText])))
  /\ (forall args outdir_path w0 w1 w2 r,
         List.length sys_argv <> 1%nat ->
         parse_args sys_argv ACTUAL_CMD w = Ok args w0 ->
         create_output_dir (outdir args) (clear args) w0 = Ok outdir_path w1 ->
         Os.write_text
           (str_of_path (joinpath outdir_path (EXECCMDLINEFILE ACTUAL_CMD)))
           ("Command executed as: python3 " +++ Str.join " " sys_argv +++ Str.nl)
           w1 = Ok tt w2 ->
         run bash sys_argv args outdir_path w2 = r ->
         main bash sys_argv ACTUAL_CMD w = r
         /\ (forall w3, r = Ok tt w3 ->
                        exit_status (main bash sys_argv ACTUAL_CMD w) = 0%Z)
         /\ (forall e w3, r = Raise e w3 ->
                          exit_status (main bash sys_argv ACTUAL_CMD w) = 1%Z)).
Proof.
  intros _.
  assert (Hlen : forall n, n <> 1%nat -> (n =? 1)%nat = false).
  { intros n Hn. now apply Nat.eqb_neq. }
  assert (Herror : forall message,
             List.length sys_argv <> 1%nat ->
             ArgParse.parse_args (tl sys_argv) = ArgParse.Error message ->
             main bash sys_argv ACTUAL_CMD w
             = SysExit 2 (with_terminal w (terminal w ++ [UsageError message]))).
  { intros message Hn Hparse. unfold main. rewrite (Hlen _ Hn).
    unfold bind at 1. unfold parse_args. rewrite Hparse. reflexivity. }
  split; [|split; [|split; [|split]]].
  - intros Hone. unfold main. rewrite Hone. reflexivity.
  - exact Herror.
  - intros Hn Hs Hstdout Hh Hhelp.
    destruct (ArgParse.parse_args (tl sys_argv)) as [parsed| |message] eqn:Hparse.
    + destruct (parse_args_requires_stdout _ parsed Hs Hstdout Hparse).
    + destruct (parse_help_inv _ _ _ Hparse); contradiction.
    + exists message. now apply Herror.
  - intros parsed Hn Hparse Heuid. unfold main. rewrite (Hlen _ Hn).
    unfold bind at 1. unfold parse_args. rewrite Hparse.
    unfold bind at 1. unfold get_world at 1.
    apply Z.eqb_neq in Heuid. rewrite Heuid. simpl negb. cbv iota.
    unfold bind, print, print_help, sys_exit, rerun_as_root. simpl.
    rewrite <- app_assoc. reflexivity.
  - intros args outdir_path w0 w1 w2 r Hn Hparse Hcreate Hwrite Hrun.
    assert (Hmain : main bash sys_argv ACTUAL_CMD w = r).
    { unfold main. rewrite (Hlen _ Hn).
      rewrite (bind_ok _ _ _ _ _ Hparse).
      rewrite (bind_ok _ _ _ _ _ Hcreate).
      rewrite (bind_ok _ _ _ _ _ Hwrite). exact Hrun. }
    split; [exact Hmain|]. rewrite Hmain. split.
    + intros w3 ->. reflexivity.
    + intros e w3 ->. reflexivity.
Qed.

End ExitStatus.

(* ===================================================================== *)
(** * Statements that cannot fail *)
(* ===================================================================== *)

Lemma succeeds_ret {A} (a : A) : succeeds (ret a).
Proof. intros w. now exists a, w. Qed.

Lemma succeeds_bind {A B} (m : M A) (k : A -> M B) :
  succeeds m -> (forall a, succeeds (k a)) -> succeeds (bind m k).
Proof.
  intros Hm Hk w. destruct (Hm w) as (a & w1 & H1).
  destruct (Hk a w1) as (b & w2 & H2).
  exists b, w2. now rewrite (bind_ok _ _ _ _ _ H1).
Qed.

Lemma succeeds_get_world : succeeds get_world.
Proof. intros w. now exists w, w. Qed.

Lemma succeeds_print text : succeeds (print text).
Proof. intros w. eexists _, _. reflexivity. Qed.

Lemma succeeds_generateHeader text sep : succeeds (generateHeader text sep).
Proof. intros w. eexists _, _. apply generateHeader_eq. Qed.

Lemma succeeds_run_cmd bash cmd : succeeds (run_cmd bash cmd).
Proof. intros w. eexists _, _. apply run_cmd_eq. Qed.

Lemma succeeds_try_reraise {A} msg (body : M A) :
  succeeds body -> succeeds (try_reraise msg body).
Proof.
  intros H w. destruct (H w) as (a & w' & Hok).
  exists a, w'. now apply try_reraise_ok.
Qed.

Lemma succeeds_for_each {A} (body : A -> M unit) l :
  (forall x, succeeds (body x)) -> succeeds (for_each l body).
Proof.
  intros H. induction l as [|x l IH]; [apply succeeds_ret|].
  simpl. apply succeeds_bind; [apply H|intros _; exact IH].
Qed.

Lemma succeeds_saveFile bash outdir_path file key name :
  assoc key STANDARD_FILE_NAMES = Some name ->
  succeeds (saveFile bash outdir_path file (Some key)).
Proof.
  intros H w. eexists _, _. rewrite (saveFile_eq _ _ _ _ _ _ H).
  apply run_cmd_eq.
Qed.

Lemma succeeds_redirect_to bash outdir_path cmd key name :
  assoc key STANDARD_FILE_NAMES = Some name ->
  succeeds (redirect_to bash outdir_path cmd key).
Proof.
  intros H w. eexists _, _. unfold redirect_to.
  rewrite (bind_ok _ _ _ _ _ (standard_file_name_eq _ _ w H)).
  apply run_cmd_eq.
Qed.

Ltac succeeds_step :=
  match goal with
  | |- forall _, _ => intro
  | |- succeeds (try_reraise _ _) => apply succeeds_try_reraise
  | |- succeeds (bind _ _) => apply succeeds_bind
  | |- succeeds (ret _) => apply succeeds_ret
  | |- succeeds get_world => apply succeeds_get_world
  | |- succeeds (print _) => apply succeeds_print
  | |- succeeds (generateHeader _ _) => apply succeeds_generateHeader
  | |- succeeds (run_cmd _ _) => apply succeeds_run_cmd
  | |- succeeds (for_each _ _) => apply succeeds_for_each
  | |- succeeds (saveFile _ _ _ (Some _)) =>
      eapply succeeds_saveFile; reflexivity
  | |- succeeds (redirect_to _ _ _ _) =>
      eapply succeeds_redirect_to; reflexivity
  | |- succeeds (if ?c then _ else _) => destruct c
  end.

Ltac succeeds_tac := repeat succeeds_step.

(** The commands of a statement that cannot fail. *)
Lemma succeeds_emits (m : M unit) cmds w :
  succeeds m -> emits (environ w) (executables w) m cmds ->
  exists w',
    m w = Ok tt w' /\ map fst (shell_log w') = map fst (shell_log w) ++ cmds.
Proof.
  intros Hs He. destruct (Hs w) as ([] & w' & Hok).
  exists w'. split; [exact Hok|].
  now destruct (He w tt w' eq_refl eq_refl Hok).
Qed.

Ltac inert_known :=
  solve [ inert_tac
        | apply inert_savePythonInstallationInfo
        | apply inert_saveOSVersionInfo
        | apply inert_report_env ].

(** One rule per shape of statement, matched as written. *)
Ltac commands_step :=
  match goal with
  | |- forall _, _ => intro
  | |- emits _ _ (try_reraise _ _) _ => apply emits_try_reraise
  | |- emits _ _ (bind (ret _) _) _ => apply emits_ret_bind
  | |- emits _ _ (bind get_world _) _ =>
      apply emits_get_world;
      let w0 := fresh "w0" in
      let He := fresh "He" in
      let Hx := fresh "Hx" in
      intros w0 He Hx; unfold getenv, Os.find_executable;
      rewrite ?He, ?Hx
  | |- emits _ _ (bind _ (fun _ => raise _)) _ =>
      apply emits_no_return; intros; apply bind_raise_no_return
  | |- emits _ _ (bind _ _) _ => eapply emits_bind
  | |- emits _ _ (run_cmd _ _) _ => apply emits_run_cmd
  | |- emits _ _ (saveFile _ _ _ (Some _)) _ => apply emits_saveFile; reflexivity
  | |- emits _ _ (redirect_to _ _ _ _) _ => apply emits_redirect_to; reflexivity
  | |- emits _ _ (if ?c then _ else _) _ => destruct c
  | |- emits _ _ _ _ => apply emits_inert; inert_known
  end.

Ltac commands_tac := repeat commands_step.

(* ===================================================================== *)
(** * The canonical names *)
(* ===================================================================== *)

Lemma assoc_In k (l : list (string * string)) v : assoc k l = Some v -> In (k, v) l.
Proof.
  induction l as [|[k' v'] l IH]; simpl; [discriminate|].
  destruct (String.eqb_spec k k') as [->|_].
  - intros H. inversion H. now left.
  - intros H. right. auto.
Qed.

Lemma distinct_values (l : list (string * string)) k k' v :
  Tree.distinct (map snd l) = true ->
  In (k, v) l -> In (k', v) l -> k = k'.
Proof.
  induction l as [|[a b] l IH]; simpl; [contradiction|].
  intros Hd H1 H2. apply andb_prop in Hd. destruct Hd as [Hhead Htail].
  assert (Hfresh : forall x, In (x, b) l -> False).
  { intros x Hin. apply negb_true_iff in Hhead.
    assert (Hex : existsb (String.eqb b) (map snd l) = true).
    { apply existsb_exists. exists b. split; [|apply String.eqb_refl].
      apply in_map_iff. now exists (x, b). }
    congruence. }
  destruct H1 as [E1|H1], H2 as [E2|H2].
  - congruence.
  - inversion E1; subst. destruct (Hfresh _ H2).
  - inversion E2; subst. destruct (Hfresh _ H1).
  - now apply IH.
Qed.

Section Names.

Variable outdir_path : path.

(** X8. Every canonical name of [STANDARD_FILE_NAMES] is a plain file
    name, so the artifact it names lies directly in the output directory,
    and no two keys share a name: two artifacts never overwrite each
    other. *)
Theorem standard_file_names_do_not_collide key name :
  assoc key STANDARD_FILE_NAMES = Some name ->
  Tree.valid_name name = true
  /\ get_outdir_filename outdir_path name = str_of_path (outdir_path ++ [name])
  /\ forall key', assoc key' STANDARD_FILE_NAMES = Some name -> key' = key.
Proof.
  intros Hkey.
  assert (Hvalid : Tree.valid_name name = true).
  { assert (Hall : forallb (fun kv => Tree.valid_name (snd kv))
                           STANDARD_FILE_NAMES = true) by reflexivity.
    rewrite forallb_forall in Hall.
    exact (Hall _ (assoc_In _ _ _ Hkey)). }
  split; [exact Hvalid|]. split.
  - now apply get_outdir_filename_valid.
  - intros key' Hkey'.
    apply (distinct_values STANDARD_FILE_NAMES key' key name);
      [reflexivity| |]; now apply assoc_In.
Qed.

End Names.

(* ===================================================================== *)
(** * Copying one file: [saveFile] and [saveFileNoSymlink] *)
(* ===================================================================== *)

Section Copying.

Variable bash : string -> World -> node * Z.
Variable outdir_path : path.

Lemma filter_clean l :
  clean_path l -> filter (fun c => negb (String.eqb c "")) l = l.
Proof.
  induction 1 as [|x l Hx Hl IH]; [reflexivity|].
  destruct (valid_name_inv _ Hx) as (H1 & _). simpl. now rewrite H1, IH.
Qed.

Lemma joinpath_absolute p q :
  clean_path q -> joinpath p (str_of_path q) = q.
Proof.
  intros Hq. unfold joinpath.
  rewrite isabs_str_of_path, (split_str_of_path q Hq).
  destruct q as [|c q]; [reflexivity|].
  change (filter ?f ("" :: ?l)) with (filter f l).
  now apply filter_clean.
Qed.

(** X9. Called without a type on an absolute path, [saveFile] and
    [saveFileNoSymlink] do not copy into the output directory:
    [joinpath] with an absolute name is that name, so the command they
    run copies the file onto itself. *)
Theorem untyped_save_of_absolute_path q w :
  clean_path q ->
  get_outdir_filename outdir_path (str_of_path q) = str_of_path q
  /\ (exists w' status,
         saveFile bash outdir_path (str_of_path q) None w = Ok tt w'
         /\ shell_log w'
            = shell_log w
                ++ [("cp -r -f -L --preserve=timestamps " +++ str_of_path q
                       +++ " " +++ str_of_path q, status)])
  /\ (exists w' status,
         saveFileNoSymlink bash outdir_path (str_of_path q) None w = Ok tt w'
         /\ shell_log w'
            = shell_log w
                ++ [("cp -r -f --preserve=timestamps " +++ str_of_path q
                       +++ " " +++ str_of_path q, status)]).
Proof.
  intros Hq.
  assert (Hname : get_outdir_filename outdir_path (str_of_path q) = str_of_path q).
  { unfold get_outdir_filename. now rewrite joinpath_absolute. }
  split; [exact Hname|]. split.
  - unfold saveFile, save_target. unfold bind at 1, ret at 1.
    rewrite Hname, run_cmd_eq. eexists _, _. split; reflexivity.
  - unfold saveFileNoSymlink, save_target. unfold bind at 1, ret at 1.
    rewrite Hname, run_cmd_eq. eexists _, _. split; reflexivity.
Qed.

End Copying.

(* ===================================================================== *)
(** * Steps made of shell commands only *)
(* ===================================================================== *)

Section ShellSteps.

Variable bash : string -> World -> node * Z.
Variable sys_argv : list string.
Variables (args : Namespace) (outdir_path : path).

#[local] Abbreviation out := (get_outdir_filename outdir_path).

(** X10. [saveCmdlineAndOptions] cannot fail.  With [--cmd_name] it
    flushes the shell history and searches it for the name, leaving out
    the lines that mention the script itself; with [--yaml_config] it
    copies that file; with neither it does nothing at all. *)
Theorem saveCmdlineAndOptions_cannot_fail w :
  exists w',
    saveCmdlineAndOptions bash sys_argv args outdir_path w = Ok tt w'
    /\ map fst (shell_log w')
       = map fst (shell_log w)
           ++ match cmd_name args with
              | Some name =>
                  [ "history -a";
                    "grep " +++ name +++ " $HOME/.bash_history | grep -v "
                      +++ OsPath.basename (this_file sys_argv)
                      +++ " | tail -1 > " +++ out "cmdline_invocation.txt" ]
              | None => []
              end
           ++ match yaml_config args with
              | Some yaml =>
                  [ "cp -r -f -L --preserve=timestamps " +++ yaml +++ " "
                      +++ out "model_yaml_config.txt" ]
              | None => []
              end
    /\ (cmd_name args = None -> yaml_config args = None -> w' = w).
Proof.
  destruct (succeeds_emits
              (saveCmdlineAndOptions bash sys_argv args outdir_path)
              (match cmd_name args with
               | Some name =>
                   [ "history -a";
                     "grep " +++ name +++ " $HOME/.bash_history | grep -v "
                       +++ OsPath.basename (this_file sys_argv)
                       +++ " | tail -1 > " +++ out "cmdline_invocation.txt" ]
               | None => []
               end
               ++ match yaml_config args with
                  | Some yaml =>
                      [ "cp -r -f -L --preserve=timestamps " +++ yaml +++ " "
                          +++ out "model_yaml_config.txt" ]
                  | None => []
                  end) w) as (w' & Hok & Hlog).
  - unfold saveCmdlineAndOptions.
    cbv beta iota zeta delta [standard_file_name assoc STANDARD_FILE_NAMES
                              String.eqb Ascii.eqb Bool.eqb].
    destruct (cmd_name args), (yaml_config args); succeeds_tac.
  - unfold saveCmdlineAndOptions.
    cbv beta iota zeta delta [standard_file_name assoc STANDARD_FILE_NAMES
                              String.eqb Ascii.eqb Bool.eqb].
    destruct (cmd_name args), (yaml_config args);
      (eapply emits_eq; [commands_tac|reflexivity]).
  - exists w'. split; [exact Hok|]. split; [exact Hlog|].
    intros Hc Hy. unfold saveCmdlineAndOptions in Hok.
    rewrite Hc, Hy in Hok. now inversion Hok.
Qed.

(** X11. [saveDockerRunParameters] cannot fail, whatever the commands
    return: it flushes the shell history, copies it, and writes the
    package list and the disk usage of the home directory. *)
Theorem saveDockerRunParameters_cannot_fail w :
  exists w',
    saveDockerRunParameters bash outdir_path w = Ok tt w'
    /\ map fst (shell_log w')
       = map fst (shell_log w)
           ++ [ "history -a";
                "cp -r -f -L --preserve=timestamps $HOME/.bash_history "
                  +++ out "docker_container_history.txt";
                "pip3 list > " +++ out "docker_container_python_pkgs.txt";
                "du -s -h ~/ > " +++ out "docker_container_disk_usage.txt" ].
Proof.
  apply succeeds_emits.
  - unfold saveDockerRunParameters. succeeds_tac.
  - unfold saveDockerRunParameters.
    eapply emits_eq; [commands_tac|reflexivity].
Qed.

(** X12. [saveMachineStatus] cannot fail, whatever the commands return
    ([hl-smi] missing, say): it runs its six commands in order, each
    redirected into its own file of the output directory. *)
Theorem saveMachineStatus_cannot_fail w :
  exists w',
    saveMachineStatus bash outdir_path w = Ok tt w'
    /\ map fst (shell_log w')
       = map fst (shell_log w)
           ++ [ "hostname > " +++ out "machine_hostname.txt";
                "hostname -I > " +++ out "machine_ipaddr.txt";
                "hl-smi -q > " +++ out "machine_hlsmi.txt";
                "lspci > " +++ out "machine_lspci.txt";
                "cat /proc/cpuinfo > " +++ out "machine_cpuinfo.txt";
                "cat /sys/devices/system/cpu/cpu*/cpufreq/scaling_governor > "
                  +++ out "machine_cpumode.txt" ].
Proof.
  apply succeeds_emits.
  - unfold saveMachineStatus. succeeds_tac.
  - unfold saveMachineStatus.
    eapply emits_eq; [commands_tac|reflexivity].
Qed.

End ShellSteps.

(* ===================================================================== *)
(** * The first steps: outputs, environment, logs *)
(* ===================================================================== *)

(** Looking a path up does not depend on what the terminal shows. *)
Lemma stat_with_terminal w t name :
  Os.stat (with_terminal w t) name = Os.stat w name.
Proof. reflexivity. Qed.

Lemma split_not_nil sep s : Str.split sep s <> [].
Proof.
  destruct s as [|c s]; simpl; [discriminate|].
  destruct (Ascii.eqb c sep); [discriminate|].
  destruct (Str.split sep s); discriminate.
Qed.

Lemma split_app sep a b :
  Str.split sep (a +++ String sep b) = Str.split sep a ++ Str.split sep b.
Proof.
  induction a as [|c a IH]; simpl.
  - now rewrite Ascii.eqb_refl.
  - rewrite IH. destruct (Ascii.eqb c sep); [reflexivity|].
    pose proof (split_not_nil sep a) as Hne.
    destruct (Str.split sep a); [congruence|reflexivity].
Qed.

Lemma normalize_app done l1 l2 :
  OsPath.normalize done (l1 ++ l2)
  = OsPath.normalize (OsPath.normalize done l1) l2.
Proof.
  revert done. induction l1 as [|c l1 IH]; intros done; [reflexivity|].
  simpl. destruct (String.eqb c "" || String.eqb c "."); [apply IH|].
  destruct (String.eqb c ".."); apply IH.
Qed.

(** A path string that ends in a file name does not lead to the root. *)
Lemma locate_snoc_not_root w p name q :
  Tree.valid_name name = true ->
  Os.locate w (str_of_path (p ++ [name])) = Some q -> q <> [].
Proof.
  intros Hname Hq. apply locate_target in Hq. subst q.
  rewrite str_of_path_snoc.
  change ("/" +++ name) with (String Str.slash name).
  rewrite split_app, normalize_app.
  destruct (valid_name_inv _ Hname) as (H1 & H2 & H3 & Hs).
  rewrite (split_no_sep _ _ Hs). simpl. rewrite H1, H2, H3. simpl.
  destruct (OsPath.normalize _ _); discriminate.
Qed.

Section FirstSteps.

Variable bash : string -> World -> node * Z.
Variables (args : Namespace) (outdir_path : path).

#[local] Abbreviation out := (get_outdir_filename outdir_path).

#[local] Abbreviation copy_stdout :=
  ("cp -r -f -L --preserve=timestamps " +++ stdout args +++ " "
     +++ out "cmd_stdout.txt").

Lemma after_stdout_copy_eq w :
  (generateHeader "Saving command outputs" "=" ;;
   saveFile bash outdir_path (stdout args) (Some "stdout")) w
  = Ok tt (after_stdout_copy bash args outdir_path w).
Proof.
  unfold after_stdout_copy.
  rewrite (bind_ok _ _ _ _ _ (generateHeader_eq _ _ w)).
  rewrite (saveFile_eq bash outdir_path _ "stdout" "cmd_stdout.txt") by reflexivity.
  now rewrite run_cmd_eq.
Qed.

Lemma after_stdout_copy_log w :
  map fst (shell_log (after_stdout_copy bash args outdir_path w))
  = map fst (shell_log w) ++ [copy_stdout].
Proof.
  unfold after_stdout_copy.
  rewrite (bind_ok _ _ _ _ _ (generateHeader_eq _ _ w)).
  rewrite (saveFile_eq bash outdir_path _ "stdout" "cmd_stdout.txt") by reflexivity.
  rewrite run_cmd_eq. simpl. now rewrite map_app.
Qed.

(** The step up to the check of the stderr file. *)
Lemma saveCmdOutputs_after_stdout w :
  Os.path_exists (stdout args) w = true ->
  saveCmdOutputs bash args outdir_path w
  = try_reraise "Error in saveCmdOutputs"
      (match stderr args with
       | Some err =>
           w' <- get_world ;;
           if Os.path_exists err w'
           then saveFile bash outdir_path err (Some "stderr")
           else
             print ("The filename specified by " +++ err +++ " does not exist") ;;
             raise (Exception (err +++ " is not a valid filename"))
       | None => ret tt
       end)
      (after_stdout_copy bash args outdir_path w).
Proof.
  intros Hout. unfold saveCmdOutputs, try_reraise, try_except.
  pose proof (after_stdout_copy_eq w) as Hcopy.
  unfold bind at 1 in Hcopy. unfold bind at 1.
  destruct (generateHeader "Saving command outputs" "=" w) as [[] wh| |] eqn:Hh;
    try discriminate.
  rewrite generateHeader_eq in Hh. inversion Hh; subst wh; clear Hh.
  unfold bind at 1, get_world at 1.
  unfold Os.path_exists at 1. rewrite stat_with_terminal.
  unfold Os.path_exists in Hout.
  destruct (Os.stat w (stdout args)); [|discriminate].
  unfold bind at 1. now rewrite Hcopy.
Qed.

(** X13. A stderr file that was asked for and is not there makes
    [saveCmdOutputs] fail, but only after the stdout file has been
    copied: the copy command is in the log, then the step raises
    [RuntimeError("Error in saveCmdOutputs")] whose cause names the
    stderr file. *)
Theorem missing_stderr_aborts_after_stdout_copy err w :
  stderr args = Some err ->
  Os.path_exists (stdout args) w = true ->
  Os.path_exists err (after_stdout_copy bash args outdir_path w) = false ->
  exists w',
    saveCmdOutputs bash args outdir_path w
    = Raise (RuntimeError "Error in saveCmdOutputs"
                          (Exception (err +++ " is not a valid filename"))) w'
    /\ map fst (shell_log w') = map fst (shell_log w) ++ [copy_stdout]
    /\ fs w' = fs (after_stdout_copy bash args outdir_path w).
Proof.
  intros Herr Hout Hmissing.
  rewrite (saveCmdOutputs_after_stdout w Hout), Herr.
  eexists. split.
  - apply try_reraise_raise.
    unfold bind at 1, get_world at 1. rewrite Hmissing.
    unfold bind, print, raise. reflexivity.
  - simpl. split; [apply after_stdout_copy_log|reflexivity].
Qed.

(** X14. When the files it is given exist, [saveCmdOutputs] returns
    having run one dereferencing copy for the stdout file and, if a stderr
    file was given, one more for that, each into its canonical name. *)
Theorem saveCmdOutputs_copies w :
  Os.path_exists (stdout args) w = true ->
  (forall err, stderr args = Some err ->
               Os.path_exists err (after_stdout_copy bash args outdir_path w) = true) ->
  exists w',
    saveCmdOutputs bash args outdir_path w = Ok tt w'
    /\ map fst (shell_log w')
       = map fst (shell_log w)
           ++ copy_stdout
           :: match stderr args with
              | Some err =>
                  [ "cp -r -f -L --preserve=timestamps " +++ err +++ " "
                      +++ out "cmd_stderr.txt" ]
              | None => []
              end.
Proof.
  intros Hout Herr.
  rewrite (saveCmdOutputs_after_stdout w Hout).
  destruct (stderr args) as [err|].
  - specialize (Herr err eq_refl).
    eexists. split.
    + apply try_reraise_ok.
      unfold bind at 1, get_world at 1. rewrite Herr.
      rewrite (saveFile_eq bash outdir_path _ "stderr" "cmd_stderr.txt") by reflexivity.
      apply run_cmd_eq.
    + simpl. rewrite map_app, after_stdout_copy_log, <- app_assoc. reflexivity.
  - eexists. split; [reflexivity|apply after_stdout_copy_log].
Qed.

(** ** [saveEnvVars] and the stale [tmpfile] *)

Lemma remove_gone name w0 w1 :
  Os.remove name w0 = Ok tt w1 -> Os.path_exists name w1 = false.
Proof.
  unfold Os.remove, Os.remove_at.
  destruct (Os.locate w0 name) as [q|] eqn:Hq; [|discriminate].
  destruct (Tree.lookup (fs w0) q) as [[data|es]|] eqn:Hl; try discriminate.
  destruct (Tree.del (fs w0) q) as [t|] eqn:Hd; [|discriminate].
  intros H; inversion H; subst; clear H.
  unfold Os.path_exists, Os.stat.
  destruct (Os.locate (with_fs w0 t) name) as [q'|] eqn:Hq'; [|reflexivity].
  apply locate_target in Hq. apply locate_target in Hq'.
  change (Os.start (with_fs w0 t) name) with (Os.start w0 name) in Hq'.
  subst q q'. simpl fs.
  now rewrite (TreeFacts.lookup_del_same _ _ _ Hd).
Qed.

(** X15. [saveEnvVars] first clears a stale [tmpfile] out of the output
    directory: provided no directory has that name, the dump of the
    environment is the one command of the step, and it runs on a machine
    where [tmpfile] does not exist. *)
Theorem saveEnvVars_clears_tmpfile w :
  Os.path_isdir (out TMPFILENAME) w = false ->
  exists w1,
    Os.path_exists (out TMPFILENAME) w1 = false
    /\ shell_log w1 = shell_log w
    /\ saveEnvVars bash outdir_path w
       = run_cmd bash ("env > " +++ out "env_vars.txt") w1.
Proof.
  intros Hnodir.
  set (wh := with_terminal w (terminal w
               ++ header_lines "Saving environment variables" "=")).
  assert (Hclear :
    exists w1,
      (if Os.path_exists (out TMPFILENAME) wh
       then Os.remove (out TMPFILENAME) else ret tt) wh = Ok tt w1
      /\ Os.path_exists (out TMPFILENAME) w1 = false
      /\ shell_log w1 = shell_log w).
  { destruct (Os.path_exists (out TMPFILENAME) wh) eqn:Hex.
    - unfold Os.path_exists, Os.path_isdir in *.
      change (Os.stat wh (out TMPFILENAME))
        with (Os.stat w (out TMPFILENAME)) in Hex.
      unfold Os.stat in Hex, Hnodir.
      destruct (Os.locate w (out TMPFILENAME)) as [q|] eqn:Hq; [|discriminate].
      destruct (Tree.lookup (fs w) q) as [[data|es]|] eqn:Hl; try discriminate.
      assert (Hqne : q <> []).
      { unfold get_outdir_filename in Hq.
        rewrite (joinpath_valid outdir_path TMPFILENAME) in Hq by reflexivity.
        now apply (locate_snoc_not_root w outdir_path TMPFILENAME q). }
      destruct (TreeFacts.del_exists _ _ _ Hl Hqne) as [t Hdel].
      assert (Hrm : Os.remove (out TMPFILENAME) wh = Ok tt (with_fs wh t)).
      { unfold Os.remove, Os.remove_at.
        change (Os.locate wh (out TMPFILENAME))
          with (Os.locate w (out TMPFILENAME)).
        rewrite Hq. change (fs wh) with (fs w). now rewrite Hl, Hdel. }
      exists (with_fs wh t). split; [exact Hrm|]. split; [|reflexivity].
      exact (remove_gone _ _ _ Hrm).
    - exists wh. auto. }
  destruct Hclear as (w1 & Hrun & Hgone & Hlog).
  exists w1. split; [exact Hgone|]. split; [exact Hlog|].
  unfold saveEnvVars.
  assert (Hbody :
    (generateHeader "Saving environment variables" "=" ;;
     w0 <- get_world ;;
     (if Os.path_exists (out TMPFILENAME) w0
      then Os.remove (out TMPFILENAME) else ret tt) ;;
     file <- standard_file_name "envvars" ;;
     run_cmd bash ("env > " +++ out file)) w
    = run_cmd bash ("env > " +++ out "env_vars.txt") w1).
  { rewrite (bind_ok _ _ _ _ _ (generateHeader_eq _ _ w)). fold wh.
    unfold bind at 1, get_world at 1.
    rewrite (bind_ok _ _ _ _ _ Hrun).
    now rewrite (bind_ok _ _ _ _ _ (standard_file_name_eq "envvars" _ w1 eq_refl)). }
  unfold try_reraise, try_except. rewrite Hbody, run_cmd_eq. reflexivity.
Qed.

(** X16. A directory called [tmpfile] in the output directory makes
    [saveEnvVars] fail: [os.remove] refuses a directory, and the step
    raises its [RuntimeError] with that as the cause, before any command
    is run and without changing a file. *)
Theorem saveEnvVars_fails_on_tmpfile_directory w :
  Os.path_isdir (out TMPFILENAME) w = true ->
  exists filename w',
    saveEnvVars bash outdir_path w
    = Raise (RuntimeError "Error in saveEnvVars" (IsADirectoryError filename)) w'
    /\ fs w' = fs w /\ shell_log w' = shell_log w.
Proof.
  intros Hdir. unfold Os.path_isdir, Os.stat in Hdir.
  destruct (Os.locate w (out TMPFILENAME)) as [q|] eqn:Hq; [|discriminate].
  destruct (Tree.lookup (fs w) q) as [[data|es]|] eqn:Hl; try discriminate.
  exists (str_of_path q).
  eexists. split.
  - unfold saveEnvVars. apply try_reraise_raise.
    rewrite (bind_ok _ _ _ _ _ (generateHeader_eq _ _ w)).
    unfold bind at 1, get_world at 1.
    unfold Os.path_exists at 1. rewrite stat_with_terminal.
    unfold Os.stat. rewrite Hq, Hl.
    apply bind_raise. unfold Os.remove.
    change (Os.locate (with_terminal w _) (out TMPFILENAME))
      with (Os.locate w (out TMPFILENAME)).
    rewrite Hq. unfold Os.remove_at. simpl fs. rewrite Hl. reflexivity.
  - split; reflexivity.
Qed.

(** X17. [saveHabanaLogs] makes the [habana_logs] directory and copies
    [$HABANA_LOGS/*] into it; with [HABANA_LOGS] unset the source of the
    copy is the literal [None/*], since the value of [os.getenv] is
    formatted as it is. *)
Theorem saveHabanaLogs_copies_from_variable w :
  Tree.mkdirs (fs w) (Os.abspath w (out "habana_logs")) <> None ->
  exists w' status,
    saveHabanaLogs bash outdir_path w = Ok tt w'
    /\ shell_log w'
       = shell_log w
           ++ [("cp -r -f -L --preserve=timestamps "
                  +++ (match getenv w "HABANA_LOGS" with
                       | Some logs_path => logs_path
                       | None => "None"
                       end +++ "/*")
                  +++ " " +++ out "habana_logs", status)].
Proof.
  intros Hmk.
  destruct (Tree.mkdirs (fs w) (Os.abspath w (out "habana_logs"))) as [t|] eqn:Ht;
    [|congruence].
  unfold saveHabanaLogs.
  eexists _, _. split.
  - apply try_reraise_ok.
    rewrite (bind_ok _ _ _ _ _ (generateHeader_eq _ _ w)).
    rewrite (bind_ok _ _ _ _ _ (standard_file_name_eq "habanalogs" _ _ eq_refl)).
    unfold bind at 1, Os.makedirs, Os.makedirs_at.
    change (Os.abspath (with_terminal w _) (out "habana_logs"))
      with (Os.abspath w (out "habana_logs")).
    simpl (fs (with_terminal _ _)). rewrite Ht.
    unfold bind at 1, get_world at 1.
    rewrite (saveFile_eq bash outdir_path _ "habanalogs" "habana_logs") by reflexivity.
    apply run_cmd_eq.
  - simpl. unfold py_str_option, getenv. simpl. reflexivity.
Qed.

End FirstSteps.

(* ===================================================================== *)
(** * The home directory, further *)
(* ===================================================================== *)

Section HomeDirectoryComplete.
Import Tree.

(** The scan of [isValidDirToCopy] accepts a directory none of whose
    subdirectories is refused. *)
Lemma isValidDirToCopy_from_entries es b :
  (forall name child,
      In (name, child) es -> is_dir child = true ->
      name <> b /\ isValidDirToCopy child b = true) ->
  isValidDirToCopy (Dir es) b = true.
Proof.
  simpl. induction es as [|[k c] es IH]; intros H; [reflexivity|].
  assert (Hrest : forall name child,
             In (name, child) es -> is_dir child = true ->
             name <> b /\ isValidDirToCopy child b = true).
  { intros name child Hin. apply H. now right. }
  destruct (is_dir c) eqn:Hdir; [|now apply IH].
  destruct (H k c (or_introl eq_refl) Hdir) as [Hk Hv].
  apply String.eqb_neq in Hk. rewrite Hk, Hv. simpl. now apply IH.
Qed.

Lemma isValidDirToCopy_complete start b :
  wf start = true ->
  (forall rel es, rel <> [] -> lookup start rel = Some (Dir es) ->
                  last rel "" <> b) ->
  isValidDirToCopy start b = true.
Proof.
  induction start as [data|entries IH] using node_ind'; intros Hwf Hfree;
    [reflexivity|].
  destruct (wf_dir_inv _ Hwf) as [Hdistinct Hvalid].
  apply isValidDirToCopy_from_entries.
  intros name child Hin Hdir.
  pose proof (distinct_entry_get _ _ _ Hdistinct Hin) as Hget.
  destruct child as [|es']; [discriminate|].
  split.
  - apply (Hfree [name] es'); [discriminate|]. simpl. now rewrite Hget.
  - rewrite Forall_forall in IH.
    apply (IH (name, Dir es') Hin).
    + apply (Hvalid _ _ Hin).
    + intros rel es Hne Hl.
      destruct rel as [|c rel']; [congruence|].
      rewrite <- (last_cons_cons name c rel' "").
      apply (Hfree (name :: c :: rel') es); [discriminate|].
      rewrite lookup_cons, Hget. exact Hl.
Qed.

(** X18. What [isValidDirToCopy] decides, on a well-formed tree: a
    directory is accepted exactly when no directory below it, at any
    depth, has the excluded base name. *)
Theorem isValidDirToCopy_characterised start b :
  is_dir start = true ->
  wf start = true ->
  isValidDirToCopy start b = true
  <-> (forall rel es, rel <> [] -> lookup start rel = Some (Dir es) ->
                      last rel "" <> b).
Proof.
  intros _ Hwf. split.
  - apply isValidDirToCopy_sound.
  - now apply isValidDirToCopy_complete.
Qed.

(** A directory among the entries that passes the test is appended. *)
Lemma home_entries_to_save_dir start_path b it name es :
  In (name, Dir es) it -> name <> b -> isValidDirToCopy (Dir es) b = true ->
  In (OsPath.join start_path name) (home_entries_to_save start_path b it).
Proof.
  intros Hin Hname Hv.
  induction it as [|[k c] it IH]; [contradiction|].
  cbn [home_entries_to_save].
  destruct Hin as [Hin|Hin].
  - inversion Hin; subst. apply String.eqb_neq in Hname.
    rewrite Hname, Hv. now left.
  - destruct (is_dir c && negb (String.eqb k b) && isValidDirToCopy c b);
      [right; auto|].
    destruct (is_file c); [right|]; auto.
Qed.

Variables (outdir_path : path) (w : World).

#[local] Abbreviation home := (home_path w).
#[local] Abbreviation outdir_basename := (excluded_basename outdir_path).

(** An entry with no directory of the excluded name at or below it is
    in the list. *)
Lemma home_entry_listed sv_files w' name entry :
  wf (fs w) = true ->
  getHomeDirContentToSave outdir_path w = Ok sv_files w' ->
  lookup (fs w) (home ++ [name]) = Some entry ->
  (forall below es,
      lookup (fs w) (home ++ name :: below) = Some (Dir es) ->
      last (name :: below) "" <> outdir_basename) ->
  In (OsPath.join (str_of_path home) name) sv_files.
Proof.
  intros Hwf Hrun Hentry Hfree.
  destruct (getHomeDirContentToSave_inv _ _ _ _ Hrun) as (it & Hhome & ->).
  destruct (wf_dir_inv _ (wf_lookup _ _ _ Hwf Hhome)) as [Hdistinct Hvalid].
  rewrite TreeFacts.lookup_app, Hhome in Hentry. simpl in Hentry.
  destruct (entry_get name it) as [entry0|] eqn:Hget; [|discriminate].
  inversion Hentry; subst entry0; clear Hentry.
  pose proof (entry_get_In _ _ _ Hget) as Hin.
  assert (Hbelow : forall below,
             lookup (fs w) (home ++ name :: below) = lookup entry below).
  { intros below. rewrite TreeFacts.lookup_app, Hhome.
    simpl. now rewrite Hget. }
  destruct entry as [data|es].
  - now apply home_entries_to_save_file with (data := data).
  - apply home_entries_to_save_dir with (es := es); [exact Hin| |].
    + apply (Hfree [] es). now rewrite Hbelow.
    + apply isValidDirToCopy_complete; [apply (Hvalid _ _ Hin)|].
      intros rel es' Hne Hl.
      destruct rel as [|c rel']; [congruence|].
      rewrite <- (last_cons_cons name c rel' "").
      apply (Hfree (c :: rel') es'). now rewrite Hbelow.
Qed.

(** X19. Which entries of the home directory [getHomeDirContentToSave]
    returns, on a well-formed tree: an entry is in the list exactly when
    no directory at or below it has the excluded base name.  Regular
    files, and directories free of that name, are all listed. *)
Theorem home_enumeration_characterised sv_files w' name entry :
  wf (fs w) = true ->
  getHomeDirContentToSave outdir_path w = Ok sv_files w' ->
  lookup (fs w) (home ++ [name]) = Some entry ->
  In (OsPath.join (str_of_path home) name) sv_files
  <-> (forall below es,
          lookup (fs w) (home ++ name :: below) = Some (Dir es) ->
          last (name :: below) "" <> outdir_basename).
Proof.
  intros Hwf Hrun Hentry. split;
    [|now apply home_entry_listed with (w' := w') (entry := entry)].
  destruct (getHomeDirContentToSave_inv _ _ _ _ Hrun) as (it & Hhome & ->).
  destruct (wf_dir_inv _ (wf_lookup _ _ _ Hwf Hhome)) as [Hdistinct Hvalid].
  rewrite TreeFacts.lookup_app, Hhome in Hentry. simpl in Hentry.
  destruct (entry_get name it) as [entry0|] eqn:Hget; [|discriminate].
  inversion Hentry; subst entry0; clear Hentry.
  pose proof (entry_get_In _ _ _ Hget) as Hin.
  intros Hlisted below es Hl.
  rewrite TreeFacts.lookup_app, Hhome in Hl. simpl in Hl. rewrite Hget in Hl.
  destruct (home_entries_to_save_In _ _ _ _ Hlisted)
    as (name' & entry' & Hin' & Hjoin & Hkind).
  assert (name = name').
  { apply (join_injective (str_of_path home)); [| |exact Hjoin].
    - apply (Hvalid _ _ Hin).
    - apply (Hvalid _ _ Hin'). }
  subst name'.
  rewrite (distinct_entry_get _ _ _ Hdistinct Hin') in Hget.
  inversion Hget; subst entry'; clear Hget.
  destruct Hkind as [Hfile|(Hdir & Hname & Hv)].
  - destruct entry; [|discriminate].
    apply TreeFacts.lookup_file_inv in Hl. destruct Hl; discriminate.
  - destruct below as [|c below']; [exact Hname|].
    rewrite last_cons_cons.
    apply (isValidDirToCopy_sound _ _ Hv _ es); [discriminate|exact Hl].
Qed.

End HomeDirectoryComplete.

Section OutputDirectoryUnderHome.
Import Tree.

Variable w : World.

(** X20. The exclusion goes by the base name of the parent of the output
    directory, that is of the directory given with [-o].  When that
    directory is the home directory itself, the excluded name is the
    home directory's own, and the output directory, an entry of the home
    directory under the name [tmpdir], is listed for copying like any
    other entry (unless a directory named like the home directory lies
    in it). *)
Theorem output_directory_directly_under_home_is_listed tmpdir es sv_files w' :
  wf (fs w) = true ->
  lookup (fs w) (home_path w ++ [tmpdir]) = Some (Dir es) ->
  (forall below es',
      lookup (fs w) (home_path w ++ tmpdir :: below) = Some (Dir es') ->
      last (tmpdir :: below) "" <> last (home_path w) "") ->
  getHomeDirContentToSave (home_path w ++ [tmpdir]) w = Ok sv_files w' ->
  excluded_basename (home_path w ++ [tmpdir]) = last (home_path w) ""
  /\ In (OsPath.join (str_of_path (home_path w)) tmpdir) sv_files.
Proof.
  intros Hwf Hdir Hfree Hrun.
  assert (Hb : excluded_basename (home_path w ++ [tmpdir]) = last (home_path w) "").
  { unfold excluded_basename, parent, path_basename.
    now rewrite removelast_last. }
  split; [exact Hb|].
  apply (home_entry_listed (home_path w ++ [tmpdir]) w sv_files w' tmpdir (Dir es));
    auto.
  now rewrite Hb.
Qed.

End OutputDirectoryUnderHome.

(* ===================================================================== *)
(** * Copying the home directory: [saveModelSpecificArtifacts] *)
(* ===================================================================== *)

Lemma inert_scandir p : inert (Os.scandir p).
Proof. inert_primitive. Qed.

Lemma inert_getHomeDirContentToSave outdir_path :
  inert (getHomeDirContentToSave outdir_path).
Proof.
  unfold getHomeDirContentToSave.
  apply inert_bind; [apply inert_get_world|intros w0].
  apply inert_bind; [apply inert_scandir|intros it].
  inert_tac.
Qed.

Section HomeCopy.

Variable bash : string -> World -> node * Z.
Variables (args : Namespace) (outdir_path : path).

(** The command that copies one entry of the home directory. *)
#[local] Abbreviation copy_home_entry :=
  (fun sv_file : string =>
     "cp -r -f -L --preserve=timestamps " +++ sv_file +++ " "
       +++ homedir_artifacts outdir_path).

Lemma copy_loop l w0 :
  exists w1,
    for_each l (fun sv_file => saveFile bash outdir_path sv_file
                                        (Some "dockerc_homedir")) w0
    = Ok tt w1
    /\ map fst (shell_log w1) = map fst (shell_log w0) ++ map copy_home_entry l.
Proof.
  revert w0. induction l as [|x l IH]; intros w0.
  - exists w0. split; [reflexivity|]. simpl. now rewrite app_nil_r.
  - cbn [for_each].
    rewrite (bind_ok _ _ _ _ _
               (eq_trans (saveFile_eq bash outdir_path x "dockerc_homedir"
                            "docker_container_homedir_and_model_artifacts" w0 eq_refl)
                         (run_cmd_eq bash _ w0))).
    destruct (IH (with_shell
                    (with_terminal w0 (terminal w0 ++ [Line (copy_home_entry x)]))
                    (fst (bash (copy_home_entry x)
                               (with_terminal w0 (terminal w0 ++ [Line (copy_home_entry x)]))))
                    (shell_log w0
                       ++ [(copy_home_entry x,
                            snd (bash (copy_home_entry x)
                                      (with_terminal w0 (terminal w0 ++ [Line (copy_home_entry x)]))))])))
      as (w1 & Hrun & Hlog).
    exists w1. split; [exact Hrun|].
    rewrite Hlog. simpl shell_log. rewrite map_app, <- app_assoc. reflexivity.
Qed.

(** X21. Without [--lite], once the directory for the copies is made
    and the home directory can be scanned, [saveModelSpecificArtifacts]
    returns, and the commands it has run are one dereferencing copy per
    entry that the enumeration lists, in that order, all into that one
    directory.  The enumeration sees the tree with the new directory in
    it. *)
Theorem saveModelSpecificArtifacts_copies_each_entry w t it :
  lite args = false ->
  Tree.mkdirs (fs w) (Os.abspath w (homedir_artifacts outdir_path)) = Some t ->
  Tree.lookup t (home_path w) = Some (Dir it) ->
  exists w',
    saveModelSpecificArtifacts bash args outdir_path w = Ok tt w'
    /\ map fst (shell_log w')
       = map fst (shell_log w)
           ++ map copy_home_entry
                  (home_entries_to_save (str_of_path (home_path w))
                                        (excluded_basename outdir_path) it).
Proof.
  intros Hlite Hmk Hhome.
  set (wh := with_terminal w
               (terminal w
                  ++ header_lines
                       "Saving model artifacts, datasets, training run output directories, and other contents of $HOME"
                       "=")).
  set (w1 := with_fs wh t).
  destruct (getHomeDirContentToSave_ok outdir_path w1 it Hhome) as [w2 Hlist].
  destruct (inert_ok _ _ _ _ (inert_getHomeDirContentToSave outdir_path) Hlist)
    as (Hlog2 & _).
  set (sv_files := home_entries_to_save (str_of_path (home_path w))
                                        (excluded_basename outdir_path) it) in *.
  destruct (copy_loop sv_files
              (with_terminal w2
                 (terminal w2 ++ [Line ("files_dirs_to_save:  "
                                          +++ py_repr_list sv_files)])))
    as (w' & Hcopy & Hlog).
  exists w'. split.
  - unfold saveModelSpecificArtifacts. rewrite Hlite.
    apply try_reraise_ok.
    rewrite (bind_ok _ _ _ _ _ (generateHeader_eq _ _ w)). fold wh.
    rewrite (bind_ok _ _ _ _ _
               (standard_file_name_eq "dockerc_homedir" _ wh eq_refl)).
    unfold bind at 1, Os.makedirs, Os.makedirs_at.
    change (Os.abspath wh ?n) with (Os.abspath w n).
    change (fs wh) with (fs w).
    fold (homedir_artifacts outdir_path). rewrite Hmk. fold w1.
    change (home_path w1) with (home_path w) in Hlist.
    rewrite (bind_ok _ _ _ _ _ Hlist).
    rewrite (bind_ok _ _ _ _ _ (print_eq _ w2)).
    exact Hcopy.
  - rewrite Hlog. simpl shell_log. rewrite Hlog2. reflexivity.
Qed.

End HomeCopy.

(* ===================================================================== *)
(** * The reports of [saveSystemConfig] *)
(* ===================================================================== *)

Lemma lines_text_snoc lines line :
  lines_text (lines ++ [line]) = lines_text lines +++ line +++ Str.nl.
Proof.
  induction lines as [|l lines IH]; cbn [lines_text app].
  - now rewrite append_empty_r.
  - now rewrite IH, !append_assoc.
Qed.

(** ** Writing into one file of a directory *)

Lemma touches_only_refl dir name t es :
  Tree.lookup t dir = Some (Dir es) -> touches_only dir name t t.
Proof. intros H. split; eauto. Qed.

Lemma touches_only_trans dir name t1 t2 t3 :
  touches_only dir name t1 t2 -> touches_only dir name t2 t3 ->
  touches_only dir name t1 t3.
Proof.
  intros [_ H12] [Hdir H23]. split; [exact Hdir|].
  intros other rest Hne. now rewrite H23, H12.
Qed.

Lemma lookup_put_dir root dir name x root' es :
  Tree.lookup root dir = Some (Dir es) ->
  Tree.put root (dir ++ [name]) x = Some root' ->
  exists es', Tree.lookup root' dir = Some (Dir es').
Proof.
  intros _ Hput.
  rewrite <- (removelast_last dir name).
  apply (lookup_parent root' (dir ++ [name]) x).
  - exact (lookup_put_same _ _ _ _ Hput).
  - destruct dir; discriminate.
Qed.

Lemma touches_only_put dir name t x t' es :
  Tree.lookup t dir = Some (Dir es) ->
  Tree.put t (dir ++ [name]) x = Some t' ->
  touches_only dir name t t'.
Proof.
  intros Hdir Hput. split.
  - exact (lookup_put_dir _ _ _ _ _ _ Hdir Hput).
  - intros other rest Hne.
    apply (lookup_put_sibling t dir name other rest x t' Hput). congruence.
Qed.

(** [open(name, 'a')] on a file of a directory: the file is there
    afterwards, with what it held before. *)
Lemma open_append_ok w dir name es :
  clean_path dir -> Tree.valid_name name = true ->
  Tree.lookup (fs w) dir = Some (Dir es) ->
  Os.isdir_at (dir ++ [name]) w = false ->
  exists t,
    Os.open_append (str_of_path (dir ++ [name])) w
    = Ok (dir ++ [name]) (with_fs w t)
    /\ Tree.lookup t (dir ++ [name])
       = Some (File (contents (Tree.lookup (fs w) (dir ++ [name]))))
    /\ touches_only dir name (fs w) t.
Proof.
  intros Hclean Hname Hdir Hnodir. unfold Os.open_append.
  assert (Hq : clean_path (dir ++ [name])).
  { apply Forall_app. split; [exact Hclean|]. now constructor. }
  assert (Hqne : dir ++ [name] <> []) by (destruct dir; discriminate).
  rewrite (locate_str_of_path w (dir ++ [name]) es Hq Hqne)
    by now rewrite removelast_last.
  unfold Os.isdir_at in Hnodir.
  destruct (Tree.lookup (fs w) (dir ++ [name])) as [[data|]|] eqn:Hl;
    try discriminate.
  - exists (fs w). split; [now destruct w|]. split; [exact Hl|].
    now apply touches_only_refl with (es := es).
  - destruct (put_exists (fs w) (dir ++ [name]) (File "") es Hqne) as [t Hput].
    { now rewrite removelast_last. }
    rewrite Hput. exists t. split; [reflexivity|].
    split; [exact (lookup_put_same _ _ _ _ Hput)|].
    now apply touches_only_put with (x := File "") (es := es).
Qed.

(** [print(text, file=f)] adds one line at the end. *)
Lemma print_to_ok w t dir name data text :
  Tree.lookup t (dir ++ [name]) = Some (File data) ->
  exists t',
    Os.print_to (dir ++ [name]) text (with_fs w t) = Ok tt (with_fs w t')
    /\ Tree.lookup t' (dir ++ [name]) = Some (File (data +++ text +++ Str.nl))
    /\ touches_only dir name t t'.
Proof.
  intros Hq. unfold Os.print_to. simpl fs. rewrite Hq.
  assert (Hqne : dir ++ [name] <> []) by (destruct dir; discriminate).
  destruct (lookup_parent _ _ _ Hq Hqne) as [es Hdir].
  destruct (put_exists t (dir ++ [name]) (File (data +++ text +++ Str.nl)) es
              Hqne Hdir) as [t' Hput].
  rewrite Hput. exists t'. split; [reflexivity|].
  split; [exact (lookup_put_same _ _ _ _ Hput)|].
  rewrite removelast_last in Hdir.
  now apply touches_only_put with (x := File (data +++ text +++ Str.nl)) (es := es).
Qed.

Section Reports.

Variable outdir_path : path.

#[local] Abbreviation out := (get_outdir_filename outdir_path).

(** What [savePythonInstallationInfo] does in an existing output
    directory. *)
Lemma savePythonInstallationInfo_run w es :
  clean_path outdir_path ->
  Tree.lookup (fs w) outdir_path = Some (Dir es) ->
  Os.isdir_at (outdir_path ++ ["python_installation_info.txt"]) w = false ->
  exists t,
    savePythonInstallationInfo outdir_path w
    = Ok tt (with_fs
               (with_terminal w
                  (terminal w ++ [Line ("Saving python installation info to "
                                          +++ out "python_installation_info.txt")]))
               t)
    /\ Tree.lookup t (outdir_path ++ ["python_installation_info.txt"])
       = Some (File (contents (Tree.lookup (fs w)
                                 (outdir_path ++ ["python_installation_info.txt"]))
                       +++ python_report w))
    /\ touches_only outdir_path "python_installation_info.txt" (fs w) t.
Proof.
  intros Hclean Hdir Hnodir.
  set (wp := with_terminal w
               (terminal w ++ [Line ("Saving python installation info to "
                                       +++ out "python_installation_info.txt")])).
  destruct (open_append_ok wp outdir_path "python_installation_info.txt" es
              Hclean eq_refl Hdir Hnodir) as (t & Hopen & Ht & Honly).
  change (fs wp) with (fs w) in Ht, Honly.
  destruct (print_to_ok wp t outdir_path "python_installation_info.txt" _
              ("python version: " +++ platform_value w "python_version" +++ Str.nl
               +++ "python branch: " +++ platform_value w "python_branch" +++ Str.nl
               +++ "python build version: " +++ platform_value w "python_build"
               +++ Str.nl
               +++ "python compiler version: "
               +++ platform_value w "python_compiler" +++ Str.nl
               +++ "python implementation: "
               +++ platform_value w "python_implementation")
              Ht) as (t' & Hprint & Ht' & Honly').
  exists t'. split; [|split].
  - unfold savePythonInstallationInfo.
    rewrite (bind_ok _ _ _ _ _ (standard_file_name_eq "python_info" _ w eq_refl)).
    rewrite (bind_ok _ _ _ _ _ (print_eq _ w)). fold wp.
    rewrite (get_outdir_filename_valid outdir_path
               "python_installation_info.txt" eq_refl).
    rewrite (bind_ok _ _ _ _ _ Hopen).
    unfold bind at 1, get_world at 1.
    exact Hprint.
  - rewrite Ht'. unfold python_report. cbn [lines_text].
    rewrite !append_assoc, append_empty_r. reflexivity.
  - exact (touches_only_trans _ _ _ _ _ Honly Honly').
Qed.

(** X22. [savePythonInstallationInfo] opens its file for appending:
    in an existing output directory it returns, the file then holds what
    it held before followed by the five lines of the report, nothing
    else in the output directory changes, and no command is run.  A
    second run without [--clear] leaves two reports. *)
Theorem savePythonInstallationInfo_appends w es :
  clean_path outdir_path ->
  Tree.lookup (fs w) outdir_path = Some (Dir es) ->
  Os.isdir_at (outdir_path ++ ["python_installation_info.txt"]) w = false ->
  exists w',
    savePythonInstallationInfo outdir_path w = Ok tt w'
    /\ Tree.lookup (fs w') (outdir_path ++ ["python_installation_info.txt"])
       = Some (File (contents (Tree.lookup (fs w)
                                 (outdir_path ++ ["python_installation_info.txt"]))
                       +++ python_report w))
    /\ (forall other rest,
           other <> "python_installation_info.txt" ->
           Tree.lookup (fs w') (outdir_path ++ other :: rest)
           = Tree.lookup (fs w) (outdir_path ++ other :: rest))
    /\ shell_log w' = shell_log w.
Proof.
  intros Hclean Hdir Hnodir.
  destruct (savePythonInstallationInfo_run w es Hclean Hdir Hnodir)
    as (t & Hrun & Ht & _ & Honly).
  eexists. split; [exact Hrun|]. split; [exact Ht|].
  split; [exact Honly|reflexivity].
Qed.

(** One probe of [saveOSVersionInfo] leaves one line, whether the
    function of [platform] answers or fails. *)
Lemma os_info_helper_ok w t dir name data tag fn :
  Tree.lookup t (dir ++ [name]) = Some (File data) ->
  exists t',
    os_info_helper (dir ++ [name]) tag fn (with_fs w t) = Ok tt (with_fs w t')
    /\ Tree.lookup t' (dir ++ [name])
       = Some (File (data +++ os_probe_line w (tag, fn) +++ Str.nl))
    /\ touches_only dir name t t'.
Proof.
  intros Hq. unfold os_info_helper, os_probe_line, try_except.
  unfold bind at 1, get_world at 1.
  change (platform_facts (with_fs w t)) with (platform_facts w).
  simpl fst. simpl snd.
  destruct (assoc fn (platform_facts w)) as [v|].
  - destruct (print_to_ok w t dir name data (tag +++ ":  " +++ v) Hq)
      as (t' & Hprint & Ht').
    rewrite Hprint. eauto.
  - unfold raise.
    destruct (print_to_ok w t dir name data ("Failed to run  " +++ fn) Hq)
      as (t' & Hprint & Ht').
    rewrite Hprint. eauto.
Qed.

(** A run of probes, as a loop over their list. *)
Lemma os_probes_ok w dir name probes t data :
  Tree.lookup t (dir ++ [name]) = Some (File data) ->
  exists t',
    for_each probes (fun p => os_info_helper (dir ++ [name]) (fst p) (snd p))
             (with_fs w t)
    = Ok tt (with_fs w t')
    /\ Tree.lookup t' (dir ++ [name])
       = Some (File (data +++ lines_text (map (os_probe_line w) probes)))
    /\ touches_only dir name t t'.
Proof.
  revert t data.
  induction probes as [|[tag fn] probes IH]; intros t data Hq.
  - exists t. split; [reflexivity|]. split.
    + simpl. now rewrite append_empty_r.
    + destruct (lookup_parent _ _ _ Hq) as [es Hdir];
        [destruct dir; discriminate|].
      rewrite removelast_last in Hdir.
      now apply touches_only_refl with (es := es).
  - destruct (os_info_helper_ok w t dir name data tag fn Hq)
      as (t1 & Hrun & Ht1 & Honly1).
    destruct (IH t1 _ Ht1) as (t' & Hrest & Ht' & Honly').
    exists t'. split; [|split].
    + cbn [for_each]. simpl fst. simpl snd.
      now rewrite (bind_ok _ _ _ _ _ Hrun).
    + rewrite Ht'. simpl. now rewrite !append_assoc.
    + exact (touches_only_trans _ _ _ _ _ Honly1 Honly').
Qed.

Lemma bind_for_each_ok {A B} (l : list A) (body : A -> M unit) (k : M B) w w1 :
  for_each l body w = Ok tt w1 ->
  fold_right (fun x rest => body x ;; rest) k l w = k w1.
Proof.
  revert w. induction l as [|x l IH]; intros w; simpl.
  - intros H. now inversion H.
  - unfold bind at 1 2. destruct (body x w) as [[] w0| |]; try discriminate.
    apply IH.
Qed.

(** What [saveOSVersionInfo] does in an existing output directory. *)
Lemma saveOSVersionInfo_run w es :
  clean_path outdir_path ->
  Tree.lookup (fs w) outdir_path = Some (Dir es) ->
  Os.isdir_at (outdir_path ++ ["platform_config_info.txt"]) w = false ->
  exists t,
    saveOSVersionInfo outdir_path w
    = Ok tt (with_fs
               (with_terminal w
                  (terminal w ++ [Line ("Saving platform configuration info to "
                                          +++ out "platform_config_info.txt")]))
               t)
    /\ Tree.lookup t (outdir_path ++ ["platform_config_info.txt"])
       = Some (File (contents (Tree.lookup (fs w)
                                 (outdir_path ++ ["platform_config_info.txt"]))
                       +++ platform_report w))
    /\ touches_only outdir_path "platform_config_info.txt" (fs w) t.
Proof.
  intros Hclean Hdir Hnodir.
  set (wp := with_terminal w
               (terminal w ++ [Line ("Saving platform configuration info to "
                                       +++ out "platform_config_info.txt")])).
  destruct (open_append_ok wp outdir_path "platform_config_info.txt" es
              Hclean eq_refl Hdir Hnodir) as (t & Hopen & Ht & Honly).
  change (fs wp) with (fs w) in Ht, Honly.
  destruct (os_probes_ok wp outdir_path "platform_config_info.txt" os_probes t _ Ht)
    as (t1 & Hprobes & Ht1 & Honly1).
  destruct (print_to_ok wp t1 outdir_path "platform_config_info.txt" _
              (distro_line w) Ht1) as (t2 & Hdistro & Ht2 & Honly2).
  exists t2. split; [|split].
  - unfold saveOSVersionInfo.
    rewrite (bind_ok _ _ _ _ _
               (standard_file_name_eq "platform_config_info" _ w eq_refl)).
    rewrite (bind_ok _ _ _ _ _ (print_eq _ w)). fold wp.
    rewrite (get_outdir_filename_valid outdir_path
               "platform_config_info.txt" eq_refl).
    rewrite (bind_ok _ _ _ _ _ Hopen).
    etransitivity.
    { apply (bind_for_each_ok os_probes
               (fun p => os_info_helper
                           (outdir_path ++ ["platform_config_info.txt"])
                           (fst p) (snd p))
               (w0 <- get_world ;;
                match distro_info w0 with
                | Some info =>
                    Os.print_to (outdir_path ++ ["platform_config_info.txt"])
                                ("Distro info " +++ info)
                | None =>
                    Os.print_to (outdir_path ++ ["platform_config_info.txt"])
                                "distro not available"
                end) _ _ Hprobes). }
    unfold bind, get_world.
    change (distro_info (with_fs wp t1)) with (distro_info w).
    unfold distro_line in Hdistro.
    destruct (distro_info w); exact Hdistro.
  - rewrite Ht2. unfold platform_report.
    rewrite lines_text_snoc, !append_assoc. reflexivity.
  - exact (touches_only_trans _ _ _ _ _ Honly
             (touches_only_trans _ _ _ _ _ Honly1 Honly2)).
Qed.

(** X23. [saveOSVersionInfo] is best effort field by field: in an
    existing output directory it returns whichever functions of
    [platform] fail (and whether or not [distro] can be imported), and
    appends exactly eleven lines to its file: for each of the ten probes
    the value or the note [Failed to run], then the distribution line.
    Nothing else in the output directory changes and no command is
    run. *)
Theorem saveOSVersionInfo_tolerates_failing_probes w es :
  clean_path outdir_path ->
  Tree.lookup (fs w) outdir_path = Some (Dir es) ->
  Os.isdir_at (outdir_path ++ ["platform_config_info.txt"]) w = false ->
  exists w',
    saveOSVersionInfo outdir_path w = Ok tt w'
    /\ Tree.lookup (fs w') (outdir_path ++ ["platform_config_info.txt"])
       = Some (File (contents (Tree.lookup (fs w)
                                 (outdir_path ++ ["platform_config_info.txt"]))
                       +++ platform_report w))
    /\ (forall other rest,
           other <> "platform_config_info.txt" ->
           Tree.lookup (fs w') (outdir_path ++ other :: rest)
           = Tree.lookup (fs w) (outdir_path ++ other :: rest))
    /\ shell_log w' = shell_log w.
Proof.
  intros Hclean Hdir Hnodir.
  destruct (saveOSVersionInfo_run w es Hclean Hdir Hnodir)
    as (t & Hrun & Ht & _ & Honly).
  eexists. split; [exact Hrun|]. split; [exact Ht|].
  split; [exact Honly|reflexivity].
Qed.

End Reports.

(** The walk stops where a directory on the way is missing. *)
Lemma walk_missing root cur p :
  clean_path p -> p <> [] ->
  Tree.lookup root (cur ++ removelast p) = None ->
  Os.walk root cur p = None.
Proof.
  revert cur. induction p as [|c p IH]; intros cur Hclean Hne Hnone;
    [congruence|].
  inversion Hclean as [|? ? Hc Hp]; subst.
  destruct (valid_name_inv _ Hc) as (H1 & H2 & H3 & _).
  destruct p as [|c' p'].
  - simpl in Hnone. rewrite app_nil_r in Hnone. simpl. now rewrite Hnone.
  - change (removelast (c :: c' :: p')) with (c :: removelast (c' :: p')) in Hnone.
    change (Os.walk root cur (c :: c' :: p'))
      with (match Tree.lookup root cur with
            | Some (Dir _) =>
                if String.eqb c "" || String.eqb c "." then Os.walk root cur (c' :: p')
                else if String.eqb c ".." then Os.walk root (removelast cur) (c' :: p')
                else Os.walk root (cur ++ [c]) (c' :: p')
            | _ => None
            end).
    destruct (Tree.lookup root cur) as [[|es]|]; try reflexivity.
    rewrite H1, H2, H3. simpl orb. cbv iota.
    apply IH; [exact Hp|discriminate|].
    now rewrite <- app_assoc.
Qed.

Lemma locate_missing w p :
  clean_path p -> p <> [] ->
  Tree.lookup (fs w) (removelast p) = None ->
  Os.locate w (str_of_path p) = None.
Proof.
  intros Hclean Hne Hnone. unfold Os.locate, Os.start.
  rewrite isabs_str_of_path, (split_str_of_path p Hclean).
  destruct p as [|c p]; [congruence|].
  destruct (str_of_path (c :: p)) eqn:Hs.
  - destruct (str_of_path_split (c :: p) Hclean) as (rest & Hstr & _);
      [discriminate|congruence].
  - simpl String.eqb. cbv iota.
    change (Os.walk (fs w) [] ("" :: c :: p))
      with (match Tree.lookup (fs w) [] with
            | Some (Dir _) => Os.walk (fs w) [] (c :: p)
            | _ => None
            end).
    destruct (Tree.lookup (fs w) []) as [[|es]|]; try reflexivity.
    now apply walk_missing.
Qed.

(* ===================================================================== *)
(** * [saveSystemConfig] without an output directory *)
(* ===================================================================== *)

Section SystemConfig.

Variable bash : string -> World -> node * Z.
Variable outdir_path : path.

(** X24. The reports of [saveSystemConfig] are written by Python itself,
    so here a failure is noticed: when the output directory is not there,
    the first [open] fails and the step raises
    [RuntimeError("Error in saveSystemConfig")] with that failure as the
    cause, before any command is run and without changing a file. *)
Theorem saveSystemConfig_needs_output_directory w :
  clean_path outdir_path ->
  Tree.lookup (fs w) outdir_path = None ->
  exists cause w',
    saveSystemConfig bash outdir_path w
    = Raise (RuntimeError "Error in saveSystemConfig" cause) w'
    /\ fs w' = fs w /\ shell_log w' = shell_log w.
Proof.
  intros Hclean Hnone.
  assert (Hq : clean_path (outdir_path ++ ["python_installation_info.txt"])).
  { apply Forall_app. split; [exact Hclean|]. now constructor. }
  assert (Hqne : outdir_path ++ ["python_installation_info.txt"] <> [])
    by (destruct outdir_path; discriminate).
  eexists _, _. split.
  - unfold saveSystemConfig. apply try_reraise_raise.
    rewrite (bind_ok _ _ _ _ _ (generateHeader_eq _ _ w)).
    apply bind_raise. unfold savePythonInstallationInfo.
    rewrite (bind_ok _ _ _ _ _ (standard_file_name_eq "python_info" _ _ eq_refl)).
    rewrite (get_outdir_filename_valid outdir_path
               "python_installation_info.txt" eq_refl).
    rewrite (bind_ok _ _ _ _ _ (print_eq _ _)).
    apply bind_raise. unfold Os.open_append.
    rewrite locate_missing; [reflexivity|exact Hq|exact Hqne|].
    rewrite removelast_last. exact Hnone.
  - split; reflexivity.
Qed.

End SystemConfig.

(* ===================================================================== *)
(** * The archive: [generateTarball] *)
(* ===================================================================== *)

Section Tarball.

Variable bash : string -> World -> node * Z.
Variable outdir_path : path.

#[local] Abbreviation tardir_name := (path_basename outdir_path).
#[local] Abbreviation tarfile_name := (path_basename outdir_path +++ ".tar.gz").
#[local] Abbreviation archive_path :=
  (parent outdir_path ++ [path_basename outdir_path +++ ".tar.gz"]).

Lemma outdir_parts :
  clean_path outdir_path -> outdir_path <> [] ->
  outdir_path = parent outdir_path ++ [tardir_name]
  /\ clean_path (parent outdir_path)
  /\ Tree.valid_name tardir_name = true
  /\ Tree.valid_name tarfile_name = true
  /\ tarfile_name <> tardir_name.
Proof.
  intros Hclean Hne.
  assert (E : outdir_path = parent outdir_path ++ [tardir_name])
    by now apply app_removelast_last.
  assert (Hname : Tree.valid_name tardir_name = true).
  { unfold clean_path in Hclean. rewrite Forall_forall in Hclean.
    apply Hclean. rewrite E at 2. apply in_or_app. right. now left. }
  split; [exact E|]. split; [now apply removelast_Forall|].
  split; [exact Hname|]. split.
  - apply valid_name_suffix; [exact Hname|reflexivity|simpl; lia].
  - apply append_suffix_neq. discriminate.
Qed.

(** Where [os.chdir(parent_dir)] goes. *)
Lemma chdir_parent w w' :
  clean_path outdir_path -> outdir_path <> [] ->
  Os.chdir (OsPath.dirname (str_of_path outdir_path)) w = Ok tt w' ->
  w' = with_cwd w (parent outdir_path)
  /\ exists es, Tree.lookup (fs w) (parent outdir_path) = Some (Dir es).
Proof.
  intros Hclean Hne H.
  rewrite (dirname_str_of_path _ Hclean Hne) in H.
  unfold Os.chdir in H.
  destruct (Os.locate w (str_of_path (removelast outdir_path))) as [p|] eqn:Hp;
    [|discriminate].
  pose proof (locate_target _ _ _ Hp) as E.
  change (OsPath.normalize (Os.start w ?n) (Str.split Str.slash ?n))
    with (Os.abspath w n) in E.
  rewrite abspath_str_of_path in E by now apply removelast_Forall.
  subst p.
  destruct (Tree.lookup (fs w) (removelast outdir_path)) as [[|es]|] eqn:Hl;
    try discriminate.
  inversion H. split; [reflexivity|]. eauto.
Qed.

Lemma chdir_str_of_path p w es :
  clean_path p -> Tree.lookup (fs w) p = Some (Dir es) ->
  Os.chdir (str_of_path p) w = Ok tt (with_cwd w p).
Proof.
  intros Hclean Hdir. unfold Os.chdir.
  assert (Hloc : Os.locate w (str_of_path p) = Some p).
  { destruct p as [|c rest].
    - simpl in Hdir. inversion Hdir as [Hroot].
      unfold Os.locate, Os.start. simpl. now rewrite Hroot.
    - destruct (lookup_parent _ _ _ Hdir) as [es' Hes']; [discriminate|].
      now apply (locate_str_of_path w (c :: rest) es'). }
  now rewrite Hloc, Hdir.
Qed.

Lemma tar_create_cwd archive member w w' :
  Os.tar_create archive member w = Ok tt w' -> cwd w' = cwd w.
Proof.
  unfold Os.tar_create.
  destruct (Os.locate w archive) as [q|]; [|discriminate].
  destruct (Tree.lookup (fs w) q); [discriminate|].
  destruct (Tree.put (fs w) q (File "")) as [t0|]; [|discriminate].
  cbv zeta.
  destruct (Os.stat (with_fs w t0) member) as [tree|]; [|discriminate].
  destruct (Tree.put t0 q (File (Tree.targz member tree))); [|discriminate].
  intros H. now inversion H.
Qed.

(** X25. When [generateTarball] returns, the working directory of the
    process is the parent of the output directory, and (the final
    [chmod] of the archive leaving the tree alone) the archive
    [<name>.tar.gz] lies in that parent, beside the output directory,
    and holds the tree of the output directory under its base name. *)
Theorem generateTarball_leaves_archive_beside_directory w w' :
  clean_path outdir_path -> outdir_path <> [] ->
  (forall w0,
      fst (bash ("chmod -R 755 " +++ path_basename outdir_path +++ ".tar.gz") w0)
      = fs w0) ->
  generateTarball bash outdir_path w = Ok tt w' ->
  cwd w' = parent outdir_path
  /\ exists tree,
       Tree.lookup (fs w') outdir_path = Some tree
       /\ Tree.lookup (fs w')
                      (parent outdir_path ++ [path_basename outdir_path +++ ".tar.gz"])
          = Some (File (Tree.targz (path_basename outdir_path) tree)).
Proof.
  intros Hclean Hne Hchmod H.
  destruct (outdir_parts Hclean Hne) as (E & Hparent & Hdirname & Hfilename & Hneq).
  unfold generateTarball in H.
  apply try_reraise_ok_inv in H.
  apply bind_ok_inv in H. destruct H as ([] & w1 & _ & H).
  apply bind_ok_inv in H. destruct H as ([] & w2 & _ & H).
  apply bind_ok_inv in H. destruct H as ([] & w3 & Hcd & H).
  apply bind_ok_inv in H. destruct H as ([] & w4 & Hpr & H).
  apply bind_ok_inv in H. destruct H as ([] & w5 & Htar & H).
  destruct (chdir_parent _ _ Hclean Hne Hcd) as (-> & es & Hdir).
  rewrite print_eq in Hpr. inversion Hpr; subst w4; clear Hpr.
  pose proof (tar_create_cwd _ _ _ _ Htar) as Hcwd. simpl in Hcwd.
  apply tar_create_ok_inv in Htar.
  destruct Htar as (q & m & tree & t0 & Hq & Ht0 & Hm & Htree & Ht1).
  match type of Hq with
  | Os.locate ?w0 _ = _ => rewrite (locate_name w0 _ es Hfilename Hdir) in Hq
  end.
  inversion Hq; subst q; clear Hq. simpl cwd in *.
  assert (Hdir0 : exists es0, Tree.lookup t0 (parent outdir_path) = Some (Dir es0)).
  { rewrite <- (removelast_last (parent outdir_path) tarfile_name).
    apply (lookup_parent t0 archive_path (File "")).
    - exact (lookup_put_same _ _ _ _ Ht0).
    - destruct (parent outdir_path); discriminate. }
  destruct Hdir0 as [es0 Hdir0].
  match type of Hm with
  | Os.locate ?w0 _ = _ => rewrite (locate_name w0 _ es0 Hdirname Hdir0) in Hm
  end.
  inversion Hm; subst m; clear Hm. simpl cwd in *.
  rewrite <- E in Htree.
  rewrite run_cmd_eq in H. inversion H; subst w'; clear H.
  split; [exact Hcwd|].
  simpl (fs (with_shell _ _ _)). rewrite Hchmod. simpl (fs (with_terminal _ _)).
  exists tree. split.
  - rewrite <- Htree.
    pose proof (lookup_put_sibling t0 (parent outdir_path) tarfile_name
                  tardir_name [] (File (Tree.targz tardir_name tree)) (fs w5)
                  Ht1 Hneq) as G.
    rewrite <- E in G. exact G.
  - exact (lookup_put_same _ _ _ _ Ht1).
Qed.

(** X26. [tarfile.open(..., 'x:gz')] creates the archive exclusively:
    when something is already at [<name>.tar.gz] beside the output
    directory (a directory of that name, say, which [create_output_dir]
    does not remove) and the first [chmod] leaves the tree alone,
    [generateTarball] raises its [RuntimeError] with [FileExistsError]
    as the cause and what was there stays. *)
Theorem generateTarball_refuses_existing_archive w n :
  clean_path outdir_path -> outdir_path <> [] ->
  (forall w0,
      fst (bash ("chmod -R 755 " +++ str_of_path outdir_path) w0) = fs w0) ->
  Tree.lookup (fs w)
              (parent outdir_path ++ [path_basename outdir_path +++ ".tar.gz"])
  = Some n ->
  exists w',
    generateTarball bash outdir_path w
    = Raise (RuntimeError "Error in generateTarball"
                          (FileExistsError (path_basename outdir_path +++ ".tar.gz")))
            w'
    /\ fs w' = fs w.
Proof.
  intros Hclean Hne Hchmod Hthere.
  destruct (outdir_parts Hclean Hne) as (E & Hparent & Hdirname & Hfilename & Hneq).
  destruct (lookup_parent _ _ _ Hthere) as [es Hdir];
    [destruct (parent outdir_path); discriminate|].
  rewrite removelast_last in Hdir.
  eexists. split.
  - unfold generateTarball. apply try_reraise_raise.
    rewrite (bind_ok _ _ _ _ _ (run_cmd_eq bash _ w)).
    rewrite (bind_ok _ _ _ _ _ (generateHeader_eq _ _ _)).
    rewrite (dirname_str_of_path _ Hclean Hne).
    match goal with
    | |- bind (Os.chdir ?name) _ ?w0 = _ =>
        assert (Hcd : Os.chdir name w0 = Ok tt (with_cwd w0 (parent outdir_path)))
    end.
    { apply (chdir_str_of_path _ _ es Hparent).
      simpl fs. rewrite Hchmod. exact Hdir. }
    rewrite (bind_ok _ _ _ _ _ Hcd).
    rewrite (bind_ok _ _ _ _ _ (print_eq _ _)).
    apply bind_raise. unfold Os.tar_create.
    rewrite (locate_name _ _ es Hfilename).
    + simpl cwd. simpl fs. rewrite Hchmod. simpl fs. rewrite Hthere. reflexivity.
    + simpl cwd. simpl fs. rewrite Hchmod. simpl fs. exact Hdir.
  - simpl. rewrite Hchmod. reflexivity.
Qed.

End Tarball.

(* ===================================================================== *)
(** * [saveSystemConfig] in an existing output directory *)
(* ===================================================================== *)

Section SystemConfigRuns.

Variable bash : string -> World -> node * Z.
Variable outdir_path : path.

#[local] Abbreviation out := (get_outdir_filename outdir_path).

Lemma report_env_ok w t dir name data var :
  Tree.lookup t (dir ++ [name]) = Some (File data) ->
  exists t' data',
    report_env (dir ++ [name]) var (with_fs w t) = Ok tt (with_fs w t')
    /\ Tree.lookup t' (dir ++ [name]) = Some (File data').
Proof.
  intros Hq. unfold report_env. unfold bind at 1, get_world at 1.
  destruct (getenv (with_fs w t) var) as [[|c rest]|].
  - destruct (print_to_ok w t dir name data (var +++ " is unset") Hq)
      as (t' & Hprint & Ht' & _). eauto.
  - destruct (print_to_ok w t dir name data (var +++ " " +++ String c rest) Hq)
      as (t' & Hprint & Ht' & _). eauto.
  - destruct (print_to_ok w t dir name data (var +++ " is unset") Hq)
      as (t' & Hprint & Ht' & _). eauto.
Qed.

Lemma saveSynapseLibsInfo_ok w es :
  clean_path outdir_path ->
  Tree.lookup (fs w) outdir_path = Some (Dir es) ->
  Os.isdir_at (outdir_path ++ ["synapse_libs_info.txt"]) w = false ->
  exists w', saveSynapseLibsInfo bash outdir_path w = Ok tt w'.
Proof.
  intros Hclean Hdir Hnodir.
  set (wp := with_terminal w
               (terminal w ++ [Line ("Saving LD_LIBRARY_PATH setting to "
                                       +++ out "synapse_libs_info.txt")])).
  destruct (open_append_ok wp outdir_path "synapse_libs_info.txt" es
              Hclean eq_refl Hdir Hnodir) as (t & Hopen & Ht & _).
  destruct (report_env_ok wp t outdir_path "synapse_libs_info.txt" _
              "LD_LIBRARY_PATH" Ht) as (t1 & d1 & Hld & Ht1).
  set (wq := with_terminal wp
               (terminal wp ++ [Line ("Saving DYLD_LIBRARY_PATH setting to "
                                        +++ out "synapse_libs_info.txt")])).
  destruct (report_env_ok wq t1 outdir_path "synapse_libs_info.txt" _
              "DYLD_LIBRARY_PATH" Ht1) as (t2 & d2 & Hdyld & Ht2).
  assert (Htail : succeeds
    (print ("Saving Synapse libs info to " +++ out "synapse_libs_info.txt") ;;
     run_cmd bash ("find /usr/local -type f -name 'libsynapse_helpers*'  2>/dev/null |  grep -v '\.cache' >> "
                     +++ out "synapse_libs_info.txt") ;;
     find_libs bash "synapse_logger*" (out "synapse_libs_info.txt") ;;
     find_libs bash "libhccl*" (out "synapse_libs_info.txt") ;;
     find_libs bash "graph_writer*" (out "synapse_libs_info.txt") ;;
     find_libs bash "habana_device*" (out "synapse_libs_info.txt") ;;
     find_libs bash "synapse_logger*" (out "synapse_libs_info.txt"))).
  { unfold find_libs. succeeds_tac. }
  destruct (Htail (with_fs wq t2)) as ([] & w' & Hrest).
  exists w'. unfold saveSynapseLibsInfo.
  rewrite (bind_ok _ _ _ _ _
             (standard_file_name_eq "synapse_libs_info" _ w eq_refl)).
  rewrite (bind_ok _ _ _ _ _ (print_eq _ w)). fold wp.
  rewrite (get_outdir_filename_valid outdir_path "synapse_libs_info.txt" eq_refl)
    at 1.
  rewrite (bind_ok _ _ _ _ _ Hopen).
  rewrite (bind_ok _ _ _ _ _ Hld).
  rewrite (bind_ok _ _ _ _ _ (print_eq _ _)).
  change (with_terminal (with_fs wp t1) ?l) with (with_fs wq t1).
  rewrite (bind_ok _ _ _ _ _ Hdyld).
  exact Hrest.
Qed.

Lemma succeeds_savePackageInfo : succeeds (savePackageInfo bash outdir_path).
Proof.
  unfold savePackageInfo.
  apply succeeds_bind; [intros w; eexists _, _;
                        apply (standard_file_name_eq "package_info" _ w eq_refl)|].
  intros file. succeeds_tac.
Qed.

Lemma succeeds_saveDmesgInfo : succeeds (saveDmesgInfo bash outdir_path).
Proof.
  unfold saveDmesgInfo.
  apply succeeds_bind; [intros w; eexists _, _;
                        apply (standard_file_name_eq "dmesg_info" _ w eq_refl)|].
  intros file. succeeds_tac.
Qed.

Lemma emits_saveSystemConfig env exes :
  emits env exes (saveSystemConfig bash outdir_path)
    [ "find /usr/local -type f -name 'libsynapse_helpers*'  2>/dev/null |  grep -v '\.cache' >> "
        +++ out "synapse_libs_info.txt";
      "find /usr/local -type f -name 'synapse_logger*'  2>/dev/null  |  grep -v '\.cache' >> "
        +++ out "synapse_libs_info.txt";
      "find /usr/local -type f -name 'libhccl*'  2>/dev/null  |  grep -v '\.cache' >> "
        +++ out "synapse_libs_info.txt";
      "find /usr/local -type f -name 'graph_writer*'  2>/dev/null  |  grep -v '\.cache' >> "
        +++ out "synapse_libs_info.txt";
      "find /usr/local -type f -name 'habana_device*'  2>/dev/null  |  grep -v '\.cache' >> "
        +++ out "synapse_libs_info.txt";
      "find /usr/local -type f -name 'synapse_logger*'  2>/dev/null  |  grep -v '\.cache' >> "
        +++ out "synapse_libs_info.txt";
      (if existsb (String.eqb "dpkg") exes
       then "dpkg -l | grep habanalabs >> " +++ out "package_info.txt"
       else if existsb (String.eqb "rpm") exes
       then "rpm -l | grep habanalabs >> " +++ out "package_info.txt"
       else "echo 'Did not find dpkg or rpm package managers' >> "
              +++ out "package_info.txt");
      "dmesg >> " +++ out "dmesg_info.txt" ].
Proof.
  eapply emits_eq.
  - unfold saveSystemConfig, saveSynapseLibsInfo, savePackageInfo,
      saveDmesgInfo, find_libs.
    cbv beta iota zeta delta [standard_file_name assoc STANDARD_FILE_NAMES
                              String.eqb Ascii.eqb Bool.eqb].
    commands_tac.
    all: fail.
  - simpl. destruct (existsb (String.eqb "dpkg") exes);
      [|destruct (existsb (String.eqb "rpm") exes)]; reflexivity.
Qed.

(** X27. In an existing output directory in which none of its three
    report files is a directory, [saveSystemConfig] returns, whatever
    the commands do: both reports written by Python and the opening of
    the third come before the first command.  The commands are the six
    searches for vendor libraries ([synapse_logger*] twice), the query of
    the package manager, [dpkg] before [rpm], and [dmesg], each appending
    to its file. *)
Theorem saveSystemConfig_returns_in_output_directory w es :
  clean_path outdir_path ->
  Tree.lookup (fs w) outdir_path = Some (Dir es) ->
  Forall (fun name => Os.isdir_at (outdir_path ++ [name]) w = false)
         [ "python_installation_info.txt"; "platform_config_info.txt";
           "synapse_libs_info.txt" ] ->
  exists w',
    saveSystemConfig bash outdir_path w = Ok tt w'
    /\ map fst (shell_log w')
       = map fst (shell_log w)
           ++ [ "find /usr/local -type f -name 'libsynapse_helpers*'  2>/dev/null |  grep -v '\.cache' >> "
                  +++ out "synapse_libs_info.txt";
                "find /usr/local -type f -name 'synapse_logger*'  2>/dev/null  |  grep -v '\.cache' >> "
                  +++ out "synapse_libs_info.txt";
                "find /usr/local -type f -name 'libhccl*'  2>/dev/null  |  grep -v '\.cache' >> "
                  +++ out "synapse_libs_info.txt";
                "find /usr/local -type f -name 'graph_writer*'  2>/dev/null  |  grep -v '\.cache' >> "
                  +++ out "synapse_libs_info.txt";
                "find /usr/local -type f -name 'habana_device*'  2>/dev/null  |  grep -v '\.cache' >> "
                  +++ out "synapse_libs_info.txt";
                "find /usr/local -type f -name 'synapse_logger*'  2>/dev/null  |  grep -v '\.cache' >> "
                  +++ out "synapse_libs_info.txt";
                (if Os.find_executable "dpkg" w
                 then "dpkg -l | grep habanalabs >> " +++ out "package_info.txt"
                 else if Os.find_executable "rpm" w
                 then "rpm -l | grep habanalabs >> " +++ out "package_info.txt"
                 else "echo 'Did not find dpkg or rpm package managers' >> "
                        +++ out "package_info.txt");
                "dmesg >> " +++ out "dmesg_info.txt" ].
Proof.
  intros Hclean Hdir Hfiles.
  inversion Hfiles as [|? ? Hpy Hfiles1]; subst.
  inversion Hfiles1 as [|? ? Hos Hfiles2]; subst.
  inversion Hfiles2 as [|? ? Hsyn _]; subst.
  clear Hfiles Hfiles1 Hfiles2.
  assert (Hok : exists w', saveSystemConfig bash outdir_path w = Ok tt w').
  { set (wh := with_terminal w
                 (terminal w
                    ++ header_lines "Saving miscellaneous system configuration info"
                                    "=")).
    destruct (savePythonInstallationInfo_run outdir_path wh es Hclean Hdir Hpy)
      as (t1 & Hrun1 & _ & Honly1).
    match type of Hrun1 with _ = Ok tt ?x => set (w1 := x) in * end.
    destruct Honly1 as [[es1 Hdir1] Hsame1].
    assert (Hos1 : Os.isdir_at (outdir_path ++ ["platform_config_info.txt"]) w1
                   = false).
    { unfold Os.isdir_at. simpl fs.
      rewrite (Hsame1 "platform_config_info.txt" []) by discriminate.
      exact Hos. }
    destruct (saveOSVersionInfo_run outdir_path w1 es1 Hclean Hdir1 Hos1)
      as (t2 & Hrun2 & _ & Honly2).
    match type of Hrun2 with _ = Ok tt ?x => set (w2 := x) in * end.
    destruct Honly2 as [[es2 Hdir2] Hsame2].
    assert (Hsyn2 : Os.isdir_at (outdir_path ++ ["synapse_libs_info.txt"]) w2
                    = false).
    { unfold Os.isdir_at. simpl fs.
      rewrite (Hsame2 "synapse_libs_info.txt" []) by discriminate.
      simpl fs.
      rewrite (Hsame1 "synapse_libs_info.txt" []) by discriminate.
      exact Hsyn. }
    destruct (saveSynapseLibsInfo_ok w2 es2 Hclean Hdir2 Hsyn2) as [w3 Hrun3].
    destruct (succeeds_savePackageInfo w3) as ([] & w4 & Hrun4).
    destruct (succeeds_saveDmesgInfo w4) as ([] & w5 & Hrun5).
    exists w5. unfold saveSystemConfig. apply try_reraise_ok.
    rewrite (bind_ok _ _ _ _ _ (generateHeader_eq _ _ w)). fold wh.
    rewrite (bind_ok _ _ _ _ _ Hrun1), (bind_ok _ _ _ _ _ Hrun2).
    rewrite (bind_ok _ _ _ _ _ Hrun3), (bind_ok _ _ _ _ _ Hrun4).
    exact Hrun5. }
  destruct Hok as [w' Hok]. exists w'. split; [exact Hok|].
  now destruct (emits_saveSystemConfig (environ w) (executables w) w tt w'
                  eq_refl eq_refl Hok).
Qed.

End SystemConfigRuns.

(* ===================================================================== *)
(** * The home directory when [HOME] is not set *)
(* ===================================================================== *)

Section HomeUnset.

Variables (outdir_path : path) (w : World).

(** X28. With [HOME] unset, [os.path.expandvars] leaves ["$HOME"] as it
    is, so the home directory of the enumeration is the entry literally
    called [$HOME] of the working directory; when there is no such entry,
    [getHomeDirContentToSave] raises [FileNotFoundError] for it. *)
Theorem home_unset_scans_literal_directory :
  getenv w "HOME" = None ->
  home_path w = cwd w ++ ["$HOME"]
  /\ (Tree.lookup (fs w) (cwd w ++ ["$HOME"]) = None ->
      getHomeDirContentToSave outdir_path w
      = Raise (FileNotFoundError (str_of_path (cwd w ++ ["$HOME"]))) w).
Proof.
  intros Hunset.
  assert (Hhome : home_path w = cwd w ++ ["$HOME"]).
  { unfold home_path, get_canonical_path.
    change (Expand.expanduser w "$HOME") with "$HOME".
    assert (E : Expand.expandvars w "$HOME" = "$HOME").
    { unfold Expand.expandvars. cbn. unfold Expand.value_or.
      now rewrite Hunset. }
    rewrite E. reflexivity. }
  split; [exact Hhome|].
  intros Hmissing. unfold getHomeDirContentToSave.
  unfold bind at 1, get_world at 1.
  fold (home_path w). rewrite Hhome.
  unfold bind at 1, Os.scandir. now rewrite Hmissing.
Qed.

End HomeUnset.

(* ===================================================================== *)
(** * A missing stdout file, seen from [main] *)
(* ===================================================================== *)

(** Writing below one entry of a directory leaves what is below its other
    entries alone. *)
Lemma lookup_put_other_branch root dir a more b rest x root' :
  Tree.put root (dir ++ a :: more) x = Some root' -> a <> b ->
  Tree.lookup root' (dir ++ b :: rest) = Tree.lookup root (dir ++ b :: rest).
Proof.
  revert root root'. induction dir as [|c dir IH]; intros root root' H Hab.
  - cbn [app] in *. destruct root as [|es]; [destruct more; discriminate|].
    rewrite TreeFacts.put_cons in H.
    destruct more as [|c' more].
    + inversion H; subst. simpl.
      rewrite TreeFacts.entry_get_set_other by congruence. reflexivity.
    + destruct (Tree.entry_get a es) as [child|]; [|discriminate].
      destruct (Tree.put child (c' :: more) x) as [child'|]; [|discriminate].
      inversion H; subst. simpl.
      rewrite TreeFacts.entry_get_set_other by congruence. reflexivity.
  - destruct root as [|es]; [destruct dir; discriminate|].
    change ((c :: dir) ++ a :: more) with (c :: (dir ++ a :: more)) in H.
    rewrite TreeFacts.put_cons in H.
    destruct (dir ++ a :: more) as [|c' more'] eqn:Hd; [destruct dir; discriminate|].
    destruct (Tree.entry_get c es) as [child|] eqn:Hc; [|discriminate].
    destruct (Tree.put child (c' :: more') x) as [child'|] eqn:Hp; [|discriminate].
    inversion H; subst. simpl.
    rewrite TreeFacts.entry_get_set_same, Hc. eauto.
Qed.

(** What a successful [open(name, 'w')] and write did. *)
Lemma write_text_ok_inv name text w w' :
  Os.write_text name text w = Ok tt w' ->
  exists q t,
    Os.locate w name = Some q
    /\ Tree.put (fs w) q (File text) = Some t
    /\ w' = with_fs w t.
Proof.
  unfold Os.write_text.
  destruct (Os.locate w name) as [q|]; [|discriminate].
  destruct (Tree.lookup (fs w) q) as [[data|es]|]; try discriminate;
    (destruct (Tree.put (fs w) q (File text)) as [t|] eqn:Hput; [|discriminate];
     intros H; inversion H; eauto).
Qed.

(** [create_output_dir] leaves no regular file under the archive's name. *)
Lemma create_output_dir_no_archive outdir clear_flag w p w' :
  create_output_dir outdir clear_flag w = Ok p w' ->
  Os.path_isfile (str_of_path p +++ ".tar.gz") w' = false.
Proof.
  intros H. apply try_reraise_ok_inv in H.
  apply bind_ok_inv in H. destruct H as (w0 & wa & Hget & H).
  inversion Hget; subst w0 wa; clear Hget.
  apply bind_ok_inv in H. destruct H as ([] & w1 & _ & H).
  apply bind_ok_inv in H. destruct H as ([] & w2 & _ & H).
  apply bind_ok_inv in H. destruct H as (w2' & w2'' & Hget & H).
  inversion Hget; subst w2' w2''; clear Hget.
  apply bind_ok_inv in H. destruct H as ([] & w3 & Htar & H).
  inversion H; subst p w'; clear H.
  destruct (Os.path_isfile (str_of_path (get_canonical_path w outdir) +++ ".tar.gz") w2)
    eqn:Hf.
  - apply bind_ok_inv in Htar. destruct Htar as ([] & wp & Hp & Hrm).
    unfold print in Hp. inversion Hp; subst wp; clear Hp.
    now apply remove_postcondition in Hrm.
  - inversion Htar; subst w3. exact Hf.
Qed.

Section MissingStdoutAtEntry.

Variable bash : string -> World -> node * Z.
Variable sys_argv : list string.
Variable ACTUAL_CMD : string.

(** [run] on a machine without the stdout file: the first step raises,
    having printed only. *)
Lemma run_without_stdout args outdir_path w :
  Os.path_exists (stdout args) w = false ->
  exists out,
    run bash sys_argv args outdir_path w
    = Raise (stdout_missing_error args) (with_terminal w out).
Proof.
  intros Hmissing. eexists. unfold run.
  apply bind_raise. unfold saveCmdOutputs.
  apply try_reraise_raise.
  unfold bind at 1. rewrite generateHeader_eq.
  unfold bind at 1. unfold get_world at 1.
  unfold bind at 1.
  change (Os.path_exists (stdout args) (with_terminal w _))
    with (Os.path_exists (stdout args) w).
  rewrite Hmissing.
  unfold bind, print, raise. cbn [terminal with_terminal]. reflexivity.
Qed.

(** X29. A stdout file that is missing once the output directory is
    prepared and the command line recorded ends [main] with the error of
    [saveCmdOutputs] and status 1: no command has run, the tree is as the
    record's writing left it, with the record in the output directory,
    and no regular file has the archive's name. *)
Theorem main_without_stdout_file_leaves_no_archive w args w0 p w1 w2 :
  clean_path (cwd w) ->
  List.length sys_argv <> 1%nat ->
  parse_args sys_argv ACTUAL_CMD w = Ok args w0 ->
  create_output_dir (outdir args) (clear args) w0 = Ok p w1 ->
  p <> [] ->
  Os.write_text (str_of_path (joinpath p (EXECCMDLINEFILE ACTUAL_CMD)))
                (command_line_record sys_argv) w1 = Ok tt w2 ->
  Os.path_exists (stdout args) w2 = false ->
  exists w',
    main bash sys_argv ACTUAL_CMD w = Raise (stdout_missing_error args) w'
    /\ exit_status (main bash sys_argv ACTUAL_CMD w) = 1%Z
    /\ fs w' = fs w2
    /\ shell_log w' = shell_log w
    /\ Tree.lookup (fs w') (p ++ [EXECCMDLINEFILE ACTUAL_CMD])
       = Some (File (command_line_record sys_argv))
    /\ Os.path_isfile (str_of_path p +++ ".tar.gz") w' = false.
Proof.
  intros Hcwd Hlen Hargs Hcreate Hne Hwrite Hmissing.
  pose proof (parse_args_ok_inv _ _ _ _ _ Hargs) as (parsed & _ & _ & Ew0 & _).
  subst w0.
  pose proof (create_output_dir_returns _ _ _ _ _ Hcreate) as Hp.
  assert (Hclean : clean_path p).
  { rewrite Hp. now apply get_canonical_path_clean. }
  destruct (create_output_dir_isdir _ _ _ _ _ Hcreate) as [es Hdir].
  pose proof (create_output_dir_no_archive _ _ _ _ _ Hcreate) as Hnone.
  pose proof (valid_name_EXECCMDLINEFILE ACTUAL_CMD) as Hname.
  rewrite (joinpath_valid _ _ Hname) in Hwrite.
  set (q := p ++ [EXECCMDLINEFILE ACTUAL_CMD]) in *.
  assert (Hq : clean_path q).
  { apply Forall_app. split; [exact Hclean|]. constructor; [exact Hname|constructor]. }
  assert (Hqne : q <> []) by (unfold q; destruct p; discriminate).
  assert (Hloc : Os.locate w1 (str_of_path q) = Some q).
  { apply (locate_str_of_path w1 q es Hq Hqne).
    unfold q. now rewrite removelast_last. }
  destruct (write_text_ok_inv _ _ _ _ Hwrite) as (q' & t & Hloc' & Hput & Ew2).
  rewrite Hloc in Hloc'. inversion Hloc'; subst q'; clear Hloc'.
  destruct (run_without_stdout args p w2 Hmissing) as [out Hrun].
  assert (Hmain : main bash sys_argv ACTUAL_CMD w
                  = Raise (stdout_missing_error args) (with_terminal w2 out)).
  { unfold main.
    destruct (List.length sys_argv =? 1)%nat eqn:E;
      [apply Nat.eqb_eq in E; contradiction|].
    rewrite (bind_ok _ _ _ _ _ Hargs), (bind_ok _ _ _ _ _ Hcreate).
    rewrite (joinpath_valid _ _ Hname). fold q.
    fold (command_line_record sys_argv).
    rewrite (bind_ok _ _ _ _ _ Hwrite). exact Hrun. }
  exists (with_terminal w2 out).
  split; [exact Hmain|]. split; [now rewrite Hmain|].
  split; [reflexivity|]. split; [|split].
  - subst w2. simpl.
    destruct (inert_ok _ _ _ _ (inert_create_output_dir _ _) Hcreate) as (-> & _).
    reflexivity.
  - subst w2. simpl. exact (lookup_put_same _ _ _ _ Hput).
  - (* the archive's name is a sibling of the output directory *)
    set (dir := removelast p). set (name := last p "").
    assert (Ep : p = dir ++ [name]) by now apply app_removelast_last.
    assert (Hbase : Tree.valid_name name = true).
    { unfold clean_path in Hclean. rewrite Forall_forall in Hclean.
      apply Hclean. rewrite Ep. apply in_or_app. right. now left. }
    assert (Hdirclean : clean_path dir) by now apply removelast_Forall.
    set (a := dir ++ [name +++ ".tar.gz"]).
    assert (Ha : clean_path a).
    { apply Forall_app. split; [exact Hdirclean|].
      constructor; [|constructor].
      apply valid_name_suffix; [exact Hbase|reflexivity|simpl; lia]. }
    assert (Hane : a <> []) by (unfold a; destruct dir; discriminate).
    assert (Es : str_of_path p +++ ".tar.gz" = str_of_path a).
    { rewrite Ep at 1. apply str_of_path_suffix. }
    rewrite Es in *.
    destruct (lookup_parent _ _ _ Hdir Hne) as [es1 Hdir1]. fold dir in Hdir1.
    assert (Hdir2 : exists es2, Tree.lookup (fs w2) dir = Some (Dir es2)).
    { destruct (lookup_put_dir _ _ _ _ _ _ Hdir Hput) as [es' Hp2].
      subst w2. simpl. apply (lookup_parent _ _ _ Hp2 Hne). }
    destruct Hdir2 as [es2 Hdir2].
    assert (Hloc1 : Os.locate w1 (str_of_path a) = Some a).
    { apply (locate_str_of_path w1 a es1 Ha Hane).
      unfold a. now rewrite removelast_last. }
    assert (Hloc2 : Os.locate w2 (str_of_path a) = Some a).
    { apply (locate_str_of_path w2 a es2 Ha Hane).
      unfold a. now rewrite removelast_last. }
    unfold Os.path_isfile in *.
    rewrite stat_with_terminal.
    unfold Os.stat in *. rewrite Hloc1 in Hnone. rewrite Hloc2.
    assert (Hsame : Tree.lookup (fs w2) a = Tree.lookup (fs w1) a).
    { subst w2. simpl. unfold a, q in *. rewrite Ep in Hput.
      rewrite <- app_assoc in Hput. cbn [app] in Hput.
      apply (lookup_put_other_branch _ _ _ _ _ _ _ _ Hput).
      intros E. symmetry in E. revert E. apply append_suffix_neq. discriminate. }
    rewrite Hsame. exact Hnone.
Qed.

End MissingStdoutAtEntry.

(* ===================================================================== *)
(** * The statements on the example machines *)
(* ===================================================================== *)

(** On the cluttered machine [/tmp/out] is made and the archive found next
    to it is deleted, without the clear flag. *)
Lemma create_output_dir_postcondition_witness :
  Os.path_isfile "/tmp/out.tar.gz" Demo.cluttered = true
  /\ Demo.make_out = Ok ["tmp"; "out"] (final_world Demo.make_out)
  /\ ["tmp"; "out"] = get_canonical_path Demo.cluttered "/tmp/out"
  /\ Os.isdir_at ["tmp"; "out"] (final_world Demo.make_out) = true
  /\ Os.path_isfile (str_of_path ["tmp"; "out"] +++ ".tar.gz")
                    (final_world Demo.make_out) = false.
Proof.
  assert (H : Demo.make_out = Ok ["tmp"; "out"] (final_world Demo.make_out))
    by (vm_compute; reflexivity).
  split; [reflexivity|]. split; [exact H|].
  exact (create_output_dir_postcondition "/tmp/out" Demo.cluttered false _ _ H).
Defined.

(** On the cluttered machine the regular file [/tmp/snap] gives way to a
    directory. *)
Lemma create_output_dir_replaces_file_witness :
  Tree.is_dir (fs Demo.cluttered) = true
  /\ Tree.lookup (fs Demo.cluttered) (get_canonical_path Demo.cluttered "/tmp/snap")
     = Some (File "not a directory")
  /\ exists w',
       create_output_dir "/tmp/snap" true Demo.cluttered
       = Ok (get_canonical_path Demo.cluttered "/tmp/snap") w'
       /\ Os.isdir_at (get_canonical_path Demo.cluttered "/tmp/snap") w' = true
       /\ Os.isfile_at (get_canonical_path Demo.cluttered "/tmp/snap") w' = false.
Proof.
  split; [reflexivity|]. split; [reflexivity|].
  apply (create_output_dir_replaces_file "/tmp/snap" Demo.cluttered
                                         "not a directory");
    reflexivity.
Defined.

(** On the container, a run into [/tmp/snap] lists the files of [/root],
    the file [snap] among them, and the directory [data]; [project], which
    holds a directory [snap], is left out. *)
Lemma home_enumeration_excludes_outdir_witness :
  Tree.wf (fs Demo.container) = true
  /\ Demo.home_listing
     = Ok ["/root/.bash_history"; "/root/train.py"; "/root/snap"; "/root/data"]
          (final_world Demo.home_listing)
  /\ ~ In "/root/project"
          ["/root/.bash_history"; "/root/train.py"; "/root/snap"; "/root/data"].
Proof.
  assert (Hwf : Tree.wf (fs Demo.container) = true) by reflexivity.
  assert (Hrun : Demo.home_listing
                 = Ok ["/root/.bash_history"; "/root/train.py"; "/root/snap";
                       "/root/data"]
                      (final_world Demo.home_listing))
    by (vm_compute; reflexivity).
  split; [exact Hwf|]. split; [exact Hrun|].
  destruct (home_enumeration_excludes_outdir Lite.outdir_path Demo.container
              _ _ Hwf Hrun) as [_ Hexcluded].
  apply (Hexcluded "project" ["snap"] [("old", File "x")]); reflexivity.
Defined.

Lemma home_enumeration_keeps_file_named_like_outdir_witness :
  Tree.lookup (fs Demo.container)
              (home_path Demo.container ++ [excluded_basename Lite.outdir_path])
  = Some (File "notes")
  /\ exists sv_files w',
       getHomeDirContentToSave Lite.outdir_path Demo.container = Ok sv_files w'
       /\ In (OsPath.join (str_of_path (home_path Demo.container))
                          (excluded_basename Lite.outdir_path)) sv_files.
Proof.
  split; [reflexivity|].
  apply (home_enumeration_keeps_file_named_like_outdir
           Lite.outdir_path Demo.container "notes").
  reflexivity.
Defined.

Lemma lite_skips_home_artifacts_witness :
  lite Lite.args = true
  /\ exists w',
       saveModelSpecificArtifacts ReferenceShell.bash_model Lite.args
                                  Lite.outdir_path Demo.container = Ok tt w'
       /\ fs w' = fs Demo.container
       /\ shell_log w' = shell_log Demo.container
       /\ Os.path_exists (homedir_artifacts Lite.outdir_path) w'
          = Os.path_exists (homedir_artifacts Lite.outdir_path) Demo.container.
Proof.
  split; [reflexivity|].
  apply (lite_skips_home_artifacts ReferenceShell.bash_model Lite.args
                                   Lite.outdir_path Demo.container).
  reflexivity.
Defined.

Lemma missing_stdout_aborts_run_witness :
  Os.path_exists (stdout Demo.missing_stdout_args) Demo.container = false
  /\ exists w',
       saveCmdOutputs ReferenceShell.bash_model Demo.missing_stdout_args
                      Lite.outdir_path Demo.container
       = Raise (stdout_missing_error Demo.missing_stdout_args) w'
       /\ run ReferenceShell.bash_model (Lite.argv "gather_info_docker.py")
              Demo.missing_stdout_args Lite.outdir_path Demo.container
          = Raise (stdout_missing_error Demo.missing_stdout_args) w'
       /\ fs w' = fs Demo.container
       /\ shell_log w' = shell_log Demo.container
       /\ exit_status
            (run ReferenceShell.bash_model (Lite.argv "gather_info_docker.py")
                 Demo.missing_stdout_args Lite.outdir_path Demo.container)
          = 1%Z.
Proof.
  split; [reflexivity|].
  apply (missing_stdout_aborts_run ReferenceShell.bash_model
           (Lite.argv "gather_info_docker.py") Demo.missing_stdout_args
           Lite.outdir_path Demo.container).
  reflexivity.
Defined.

#[local] Abbreviation lite_main :=
  (main ReferenceShell.bash_model (Lite.argv "gather_info_docker.py")
        Demo.script Demo.container).

(** The lite run on the container, with the reference shell. *)
Lemma lite_snapshot_layout_witness :
  OsPath.basename Demo.script = "gather_info_docker.py"
  /\ (forall w0,
         fst (ReferenceShell.bash_model "chmod -R 755 gather_info_docker.tar.gz" w0)
         = fs w0)
  /\ lite_main = Ok tt (final_world Demo.lite_run)
  /\ exit_status lite_main = 0%Z
  /\ map fst (shell_log (final_world Demo.lite_run))
     = map fst (shell_log Demo.container)
         ++ Lite.commands (getenv Demo.container "HABANA_LOGS")
                          (Os.find_executable "dpkg" Demo.container)
                          (Os.find_executable "rpm" Demo.container)
  /\ exists tree,
       Tree.lookup (fs (final_world Demo.lite_run)) Lite.outdir_path = Some tree
       /\ Tree.lookup (fs (final_world Demo.lite_run)) Lite.archive
          = Some (File (Tree.targz "gather_info_docker" tree)).
Proof.
  assert (Hname : OsPath.basename Demo.script = "gather_info_docker.py")
    by reflexivity.
  assert (Hchmod : forall w0,
             fst (ReferenceShell.bash_model
                    "chmod -R 755 gather_info_docker.tar.gz" w0) = fs w0)
    by (intros w0; reflexivity).
  assert (Hrun : lite_main = Ok tt (final_world Demo.lite_run))
    by (vm_compute; reflexivity).
  split; [exact Hname|]. split; [exact Hchmod|]. split; [exact Hrun|].
  exact (lite_snapshot_layout ReferenceShell.bash_model "gather_info_docker.py"
           Demo.script Hname Demo.container (final_world Demo.lite_run)
           Hchmod Hrun).
Defined.

(* ===================================================================== *)
(** * The further statements on the example machines *)
(* ===================================================================== *)

Lemma clean_root : clean_path ["root"].
Proof. repeat constructor. Qed.

Lemma clean_outdir : clean_path Lite.outdir_path.
Proof. repeat constructor. Qed.

(** [~/data] on the container is [/root/data], and stays so. *)
Lemma get_canonical_path_idempotent_witness :
  clean_path (cwd Demo.container)
  /\ dollar_free (get_canonical_path Demo.container "~/data")
  /\ get_canonical_path Demo.container
                        (get_canonical_path_str Demo.container "~/data")
     = get_canonical_path Demo.container "~/data"
  /\ get_canonical_path_str Demo.container
                            (get_canonical_path_str Demo.container "~/data")
     = get_canonical_path_str Demo.container "~/data".
Proof.
  assert (Hcwd : clean_path (cwd Demo.container)) by exact clean_root.
  assert (Hfree : dollar_free (get_canonical_path Demo.container "~/data"))
    by (vm_compute; repeat constructor).
  split; [exact Hcwd|]. split; [exact Hfree|].
  exact (get_canonical_path_idempotent Demo.container "~/data" Hcwd Hfree).
Defined.

(** On the cluttered machine the file [/tmp/snap] stops
    [create_output_dir] when the clear flag is not set. *)
Lemma create_output_dir_blocked_by_file_witness :
  Tree.lookup (fs Demo.cluttered) (get_canonical_path Demo.cluttered "/tmp/snap")
  = Some (File "not a directory")
  /\ create_output_dir "/tmp/snap" false Demo.cluttered
     = Raise (RuntimeError ("Error in creating directory " +++ "/tmp/snap"
                              +++ " with clear_flag = False")
                           (FileExistsError
                              (str_of_path
                                 (get_canonical_path Demo.cluttered "/tmp/snap"))))
             Demo.cluttered.
Proof.
  split; [reflexivity|].
  apply (create_output_dir_blocked_by_file "/tmp/snap" Demo.cluttered
                                           "not a directory").
  reflexivity.
Defined.

(** On the prepared machine the output directory of the earlier run is
    emptied by the clear flag. *)
Lemma create_output_dir_on_existing_directory_witness :
  clean_path (cwd Examples.prepared)
  /\ get_canonical_path Examples.prepared "/tmp/snap/gather_info_docker" <> []
  /\ Tree.lookup (fs Examples.prepared)
                 (get_canonical_path Examples.prepared "/tmp/snap/gather_info_docker")
     = Some (Dir Examples.prepared_entries)
  /\ exists w',
       create_output_dir "/tmp/snap/gather_info_docker" true Examples.prepared
       = Ok (get_canonical_path Examples.prepared "/tmp/snap/gather_info_docker") w'
       /\ Tree.lookup (fs w')
                      (get_canonical_path Examples.prepared
                                          "/tmp/snap/gather_info_docker")
          = Some (Dir (if true then [] else Examples.prepared_entries)).
Proof.
  assert (Hcwd : clean_path (cwd Examples.prepared)) by exact clean_root.
  assert (Hne : get_canonical_path Examples.prepared "/tmp/snap/gather_info_docker"
                <> []) by (vm_compute; discriminate).
  assert (Hdir : Tree.lookup (fs Examples.prepared)
                   (get_canonical_path Examples.prepared
                                       "/tmp/snap/gather_info_docker")
                 = Some (Dir Examples.prepared_entries)) by reflexivity.
  split; [exact Hcwd|]. split; [exact Hne|]. split; [exact Hdir|].
  exact (create_output_dir_on_existing_directory
           "/tmp/snap/gather_info_docker" Examples.prepared true
           Examples.prepared_entries Hcwd Hne Hdir).
Defined.

#[local] Abbreviation lite_argv := (Lite.argv "gather_info_docker.py").

(** The lite run into [/tmp/snap] works in [/tmp/snap/gather_info_docker]. *)
Lemma output_directory_is_named_after_script_witness :
  clean_path (cwd Demo.container)
  /\ Tree.valid_name (TMPDIR Demo.script) = true
  /\ dollar_free (get_canonical_path Demo.container (outdir Examples.lite_parsed)
                    ++ [TMPDIR Demo.script])
  /\ ArgParse.parse_args (tl lite_argv) = ArgParse.Parsed Examples.lite_parsed
  /\ parse_args lite_argv Demo.script Demo.container = Ok Lite.args Demo.container
  /\ create_output_dir (outdir Lite.args) (clear Lite.args) Demo.container
     = Ok Lite.outdir_path (final_world Examples.lite_outdir)
  /\ Lite.outdir_path
     = get_canonical_path Demo.container (outdir Examples.lite_parsed)
         ++ [TMPDIR Demo.script].
Proof.
  assert (Hcwd : clean_path (cwd Demo.container)) by exact clean_root.
  assert (Hname : Tree.valid_name (TMPDIR Demo.script) = true) by reflexivity.
  assert (Hfree : dollar_free
                    (get_canonical_path Demo.container (outdir Examples.lite_parsed)
                       ++ [TMPDIR Demo.script]))
    by (vm_compute; repeat constructor).
  assert (Hparsed : ArgParse.parse_args (tl lite_argv)
                    = ArgParse.Parsed Examples.lite_parsed) by reflexivity.
  assert (Hargs : parse_args lite_argv Demo.script Demo.container
                  = Ok Lite.args Demo.container) by reflexivity.
  assert (Hcreate : create_output_dir (outdir Lite.args) (clear Lite.args)
                                      Demo.container
                    = Ok Lite.outdir_path (final_world Examples.lite_outdir))
    by (vm_compute; reflexivity).
  repeat (split; [assumption|]).
  exact (output_directory_is_named_after_script lite_argv Demo.script
           Demo.container Examples.lite_parsed Lite.args Demo.container
           Lite.outdir_path (final_world Examples.lite_outdir)
           Hcwd Hname Hfree Hparsed Hargs Hcreate).
Defined.

(** Called from [/root] with only [-s], the script works in
    [/root/gather_info_docker]. *)
Lemma default_output_directory_witness :
  clean_path (cwd Demo.container)
  /\ Tree.valid_name (TMPDIR Demo.script) = true
  /\ spelled_in_full (tl Examples.default_argv)
  /\ ~ In "-o" (tl Examples.default_argv)
  /\ ~ In "--outdir" (tl Examples.default_argv)
  /\ parse_args Examples.default_argv Demo.script Demo.container
     = Ok (mkNamespace "/root/gather_info_docker" false false "/tmp/run.log"
                       None None None [])
          Demo.container
  /\ outdir (mkNamespace "/root/gather_info_docker" false false "/tmp/run.log"
                         None None None [])
     = str_of_path (cwd Demo.container ++ [TMPDIR Demo.script]).
Proof.
  assert (Hcwd : clean_path (cwd Demo.container)) by exact clean_root.
  assert (Hname : Tree.valid_name (TMPDIR Demo.script) = true) by reflexivity.
  assert (Hfull : spelled_in_full (tl Examples.default_argv)).
  { apply Forall_cons; [|apply Forall_cons; [|apply Forall_nil]].
    - intros _. right. discriminate.
    - intros H. discriminate H. }
  assert (Ho : ~ In "-o" (tl Examples.default_argv)).
  { simpl. intros [H|[H|[]]]; discriminate. }
  assert (Houtdir : ~ In "--outdir" (tl Examples.default_argv)).
  { simpl. intros [H|[H|[]]]; discriminate. }
  assert (Hargs : parse_args Examples.default_argv Demo.script Demo.container
                  = Ok (mkNamespace "/root/gather_info_docker" false false
                                    "/tmp/run.log" None None None [])
                       Demo.container) by reflexivity.
  repeat (split; [assumption|]).
  exact (default_output_directory Examples.default_argv Demo.script
           Demo.container _ Demo.container Hcwd Hname Hfull Ho Houtdir Hargs).
Defined.

(** The command line [-o /tmp/snap], without [-s], is refused with the
    usage error. *)
Lemma stdout_option_is_required_witness :
  List.length Demo.no_stdout_argv <> 1%nat
  /\ spelled_in_full (tl Demo.no_stdout_argv)
  /\ ~ In "-s" (tl Demo.no_stdout_argv)
  /\ ~ In "--stdout" (tl Demo.no_stdout_argv)
  /\ ((exists message,
          main ReferenceShell.bash_model Demo.no_stdout_argv Demo.script
               Demo.container
          = SysExit 2 (with_terminal Demo.container
                         (terminal Demo.container ++ [UsageError message])))
      \/ ((In "-h" (tl Demo.no_stdout_argv) \/ In "--help" (tl Demo.no_stdout_argv))
          /\ main ReferenceShell.bash_model Demo.no_stdout_argv Demo.script
                  Demo.container
             = SysExit 0 (with_terminal Demo.container
                            (terminal Demo.container ++ [HelpText])))).
Proof.
  assert (Hlen : List.length Demo.no_stdout_argv <> 1%nat) by discriminate.
  assert (Hfull : spelled_in_full (tl Demo.no_stdout_argv)).
  { apply Forall_cons; [|apply Forall_cons; [|apply Forall_nil]].
    - intros _. right. discriminate.
    - intros H. discriminate H. }
  assert (Hs : ~ In "-s" (tl Demo.no_stdout_argv)).
  { simpl. intros [H|[H|[]]]; discriminate. }
  assert (Hstdout : ~ In "--stdout" (tl Demo.no_stdout_argv)).
  { simpl. intros [H|[H|[]]]; discriminate. }
  repeat (split; [assumption|]).
  exact (stdout_option_is_required ReferenceShell.bash_model Demo.no_stdout_argv
           Demo.script Demo.container Hlen Hfull Hs Hstdout).
Defined.

(** In the lite run the record of the command line is in place when the
    first step starts. *)
Lemma main_records_command_line_witness :
  clean_path (cwd Demo.container)
  /\ List.length lite_argv <> 1%nat
  /\ parse_args lite_argv Demo.script Demo.container = Ok Lite.args Demo.container
  /\ create_output_dir (outdir Lite.args) (clear Lite.args) Demo.container
     = Ok Lite.outdir_path (final_world Examples.lite_outdir)
  /\ Os.isdir_at (Lite.outdir_path ++ [EXECCMDLINEFILE Demo.script])
                 (final_world Examples.lite_outdir) = false
  /\ exists w2,
       main ReferenceShell.bash_model lite_argv Demo.script Demo.container
       = run ReferenceShell.bash_model lite_argv Lite.args Lite.outdir_path w2
       /\ Tree.lookup (fs w2) (Lite.outdir_path ++ [EXECCMDLINEFILE Demo.script])
          = Some (File (command_line_record lite_argv))
       /\ shell_log w2 = shell_log Demo.container.
Proof.
  assert (Hcwd : clean_path (cwd Demo.container)) by exact clean_root.
  assert (Hlen : List.length lite_argv <> 1%nat) by discriminate.
  assert (Hargs : parse_args lite_argv Demo.script Demo.container
                  = Ok Lite.args Demo.container) by reflexivity.
  assert (Hcreate : create_output_dir (outdir Lite.args) (clear Lite.args)
                                      Demo.container
                    = Ok Lite.outdir_path (final_world Examples.lite_outdir))
    by (vm_compute; reflexivity).
  assert (Hnodir : Os.isdir_at (Lite.outdir_path ++ [EXECCMDLINEFILE Demo.script])
                               (final_world Examples.lite_outdir) = false)
    by (vm_compute; reflexivity).
  repeat (split; [assumption|]).
  exact (main_records_command_line ReferenceShell.bash_model lite_argv
           Demo.script Demo.container Lite.args Demo.container Lite.outdir_path
           (final_world Examples.lite_outdir) Hcwd Hlen Hargs Hcreate Hnodir).
Defined.

(** The stdout copy is [cmd_stdout.txt] in the output directory, and no
    other key has that name. *)
Lemma standard_file_names_do_not_collide_witness :
  assoc "stdout" STANDARD_FILE_NAMES = Some "cmd_stdout.txt"
  /\ Tree.valid_name "cmd_stdout.txt" = true
  /\ get_outdir_filename Lite.outdir_path "cmd_stdout.txt"
     = str_of_path (Lite.outdir_path ++ ["cmd_stdout.txt"])
  /\ forall key',
       assoc key' STANDARD_FILE_NAMES = Some "cmd_stdout.txt" -> key' = "stdout".
Proof.
  split; [reflexivity|].
  exact (standard_file_names_do_not_collide Lite.outdir_path "stdout"
           "cmd_stdout.txt" eq_refl).
Defined.

(** [saveFile("/tmp/run.log")] without a type copies the log onto
    itself. *)
Lemma untyped_save_of_absolute_path_witness :
  clean_path ["tmp"; "run.log"]
  /\ get_outdir_filename Lite.outdir_path (str_of_path ["tmp"; "run.log"])
     = str_of_path ["tmp"; "run.log"]
  /\ (exists w' status,
         saveFile ReferenceShell.bash_model Lite.outdir_path
                  (str_of_path ["tmp"; "run.log"]) None Demo.container
         = Ok tt w'
         /\ shell_log w'
            = shell_log Demo.container
                ++ [("cp -r -f -L --preserve=timestamps "
                       +++ str_of_path ["tmp"; "run.log"]
                       +++ " " +++ str_of_path ["tmp"; "run.log"], status)])
  /\ (exists w' status,
         saveFileNoSymlink ReferenceShell.bash_model Lite.outdir_path
                           (str_of_path ["tmp"; "run.log"]) None Demo.container
         = Ok tt w'
         /\ shell_log w'
            = shell_log Demo.container
                ++ [("cp -r -f --preserve=timestamps "
                       +++ str_of_path ["tmp"; "run.log"]
                       +++ " " +++ str_of_path ["tmp"; "run.log"], status)]).
Proof.
  assert (Hq : clean_path ["tmp"; "run.log"]) by repeat constructor.
  split; [exact Hq|].
  exact (untyped_save_of_absolute_path ReferenceShell.bash_model
           Lite.outdir_path ["tmp"; "run.log"] Demo.container Hq).
Defined.

#[local] Abbreviation sh := ReferenceShell.bash_model.

(** On the prepared machine [/tmp/missing.err] is not there: the stdout
    file is copied, then the step fails. *)
Lemma missing_stderr_aborts_after_stdout_copy_witness :
  stderr Examples.with_missing_stderr = Some "/tmp/missing.err"
  /\ Os.path_exists (stdout Examples.with_missing_stderr) Examples.prepared = true
  /\ Os.path_exists "/tmp/missing.err"
       (after_stdout_copy sh Examples.with_missing_stderr Lite.outdir_path
                          Examples.prepared) = false
  /\ exists w',
       saveCmdOutputs sh Examples.with_missing_stderr Lite.outdir_path
                      Examples.prepared
       = Raise (RuntimeError "Error in saveCmdOutputs"
                             (Exception ("/tmp/missing.err"
                                           +++ " is not a valid filename"))) w'
       /\ map fst (shell_log w')
          = map fst (shell_log Examples.prepared)
              ++ ["cp -r -f -L --preserve=timestamps "
                    +++ stdout Examples.with_missing_stderr +++ " "
                    +++ get_outdir_filename Lite.outdir_path "cmd_stdout.txt"]
       /\ fs w' = fs (after_stdout_copy sh Examples.with_missing_stderr
                                        Lite.outdir_path Examples.prepared).
Proof.
  assert (Herr : stderr Examples.with_missing_stderr = Some "/tmp/missing.err")
    by reflexivity.
  assert (Hout : Os.path_exists (stdout Examples.with_missing_stderr)
                                Examples.prepared = true) by reflexivity.
  assert (Hmissing : Os.path_exists "/tmp/missing.err"
                       (after_stdout_copy sh Examples.with_missing_stderr
                                          Lite.outdir_path Examples.prepared)
                     = false) by (vm_compute; reflexivity).
  repeat (split; [assumption|]).
  exact (missing_stderr_aborts_after_stdout_copy sh Examples.with_missing_stderr
           Lite.outdir_path "/tmp/missing.err" Examples.prepared
           Herr Hout Hmissing).
Defined.

(** On the prepared machine both files are there and both are copied. *)
Lemma saveCmdOutputs_copies_witness :
  Os.path_exists (stdout Examples.with_stderr) Examples.prepared = true
  /\ (forall err,
         stderr Examples.with_stderr = Some err ->
         Os.path_exists err
           (after_stdout_copy sh Examples.with_stderr Lite.outdir_path
                              Examples.prepared) = true)
  /\ exists w',
       saveCmdOutputs sh Examples.with_stderr Lite.outdir_path Examples.prepared
       = Ok tt w'
       /\ map fst (shell_log w')
          = map fst (shell_log Examples.prepared)
              ++ ("cp -r -f -L --preserve=timestamps "
                    +++ stdout Examples.with_stderr +++ " "
                    +++ get_outdir_filename Lite.outdir_path "cmd_stdout.txt")
              :: match stderr Examples.with_stderr with
                 | Some err =>
                     [ "cp -r -f -L --preserve=timestamps " +++ err +++ " "
                         +++ get_outdir_filename Lite.outdir_path "cmd_stderr.txt" ]
                 | None => []
                 end.
Proof.
  assert (Hout : Os.path_exists (stdout Examples.with_stderr) Examples.prepared
                 = true) by reflexivity.
  assert (Herr : forall err,
             stderr Examples.with_stderr = Some err ->
             Os.path_exists err
               (after_stdout_copy sh Examples.with_stderr Lite.outdir_path
                                  Examples.prepared) = true).
  { intros err H. inversion H; subst err. vm_compute. reflexivity. }
  repeat (split; [assumption|]).
  exact (saveCmdOutputs_copies sh Examples.with_stderr Lite.outdir_path
           Examples.prepared Hout Herr).
Defined.

(** On the prepared machine the stale [tmpfile] is gone when [env]
    runs. *)
Lemma saveEnvVars_clears_tmpfile_witness :
  Os.path_exists (get_outdir_filename Lite.outdir_path TMPFILENAME)
                 Examples.prepared = true
  /\ Os.path_isdir (get_outdir_filename Lite.outdir_path TMPFILENAME)
                   Examples.prepared = false
  /\ exists w1,
       Os.path_exists (get_outdir_filename Lite.outdir_path TMPFILENAME) w1 = false
       /\ shell_log w1 = shell_log Examples.prepared
       /\ saveEnvVars sh Lite.outdir_path Examples.prepared
          = run_cmd sh ("env > " +++ get_outdir_filename Lite.outdir_path
                                                         "env_vars.txt") w1.
Proof.
  split; [reflexivity|]. split; [reflexivity|].
  exact (saveEnvVars_clears_tmpfile sh Lite.outdir_path Examples.prepared
           eq_refl).
Defined.

(** On the obstructed machine [tmpfile] is a directory. *)
Lemma saveEnvVars_fails_on_tmpfile_directory_witness :
  Os.path_isdir (get_outdir_filename Lite.outdir_path TMPFILENAME)
                Examples.obstructed = true
  /\ exists filename w',
       saveEnvVars sh Lite.outdir_path Examples.obstructed
       = Raise (RuntimeError "Error in saveEnvVars" (IsADirectoryError filename)) w'
       /\ fs w' = fs Examples.obstructed
       /\ shell_log w' = shell_log Examples.obstructed.
Proof.
  split; [reflexivity|].
  exact (saveEnvVars_fails_on_tmpfile_directory sh Lite.outdir_path
           Examples.obstructed eq_refl).
Defined.

(** On the container [HABANA_LOGS] is not set: the copy is from
    [None/*]. *)
Lemma saveHabanaLogs_copies_from_variable_witness :
  getenv Demo.container "HABANA_LOGS" = None
  /\ Tree.mkdirs (fs Demo.container)
                 (Os.abspath Demo.container
                             (get_outdir_filename Lite.outdir_path "habana_logs"))
     <> None
  /\ exists w' status,
       saveHabanaLogs sh Lite.outdir_path Demo.container = Ok tt w'
       /\ shell_log w'
          = shell_log Demo.container
              ++ [("cp -r -f -L --preserve=timestamps "
                     +++ (match getenv Demo.container "HABANA_LOGS" with
                          | Some logs_path => logs_path
                          | None => "None"
                          end +++ "/*")
                     +++ " " +++ get_outdir_filename Lite.outdir_path "habana_logs",
                   status)].
Proof.
  assert (Hmk : Tree.mkdirs (fs Demo.container)
                  (Os.abspath Demo.container
                              (get_outdir_filename Lite.outdir_path "habana_logs"))
                <> None) by (vm_compute; discriminate).
  split; [reflexivity|]. split; [exact Hmk|].
  exact (saveHabanaLogs_copies_from_variable sh Lite.outdir_path Demo.container
           Hmk).
Defined.

(** [/root/project] of the container holds a directory [snap]; [data]
    does not. *)
Lemma isValidDirToCopy_characterised_witness :
  Tree.is_dir (Dir [ ("snap", Dir [ ("old", File "x") ]) ]) = true
  /\ Tree.wf (Dir [ ("snap", Dir [ ("old", File "x") ]) ]) = true
  /\ isValidDirToCopy (Dir [ ("snap", Dir [ ("old", File "x") ]) ]) "snap" = false
  /\ (isValidDirToCopy (Dir [ ("snap", Dir [ ("old", File "x") ]) ]) "snap" = true
      <-> (forall rel es,
              rel <> [] ->
              Tree.lookup (Dir [ ("snap", Dir [ ("old", File "x") ]) ]) rel
              = Some (Dir es) ->
              last rel "" <> "snap")).
Proof.
  split; [reflexivity|]. split; [reflexivity|]. split; [reflexivity|].
  exact (isValidDirToCopy_characterised
           (Dir [ ("snap", Dir [ ("old", File "x") ]) ]) "snap" eq_refl eq_refl).
Defined.

(** On the container, [/root/data] is listed: no directory at or below
    it is called [snap]. *)
Lemma home_enumeration_characterised_witness :
  Tree.wf (fs Demo.container) = true
  /\ getHomeDirContentToSave Lite.outdir_path Demo.container
     = Ok ["/root/.bash_history"; "/root/train.py"; "/root/snap"; "/root/data"]
          (final_world Demo.home_listing)
  /\ Tree.lookup (fs Demo.container) (home_path Demo.container ++ ["data"])
     = Some (Dir [ ("set", Dir [ ("a.bin", File "0") ]) ])
  /\ (In (OsPath.join (str_of_path (home_path Demo.container)) "data")
         ["/root/.bash_history"; "/root/train.py"; "/root/snap"; "/root/data"]
      <-> (forall below es,
              Tree.lookup (fs Demo.container)
                          (home_path Demo.container ++ "data" :: below)
              = Some (Dir es) ->
              last ("data" :: below) "" <> excluded_basename Lite.outdir_path)).
Proof.
  assert (Hwf : Tree.wf (fs Demo.container) = true) by reflexivity.
  assert (Hrun : getHomeDirContentToSave Lite.outdir_path Demo.container
                 = Ok ["/root/.bash_history"; "/root/train.py"; "/root/snap";
                       "/root/data"]
                      (final_world Demo.home_listing))
    by (vm_compute; reflexivity).
  assert (Hentry : Tree.lookup (fs Demo.container)
                               (home_path Demo.container ++ ["data"])
                   = Some (Dir [ ("set", Dir [ ("a.bin", File "0") ]) ]))
    by reflexivity.
  repeat (split; [assumption|]).
  exact (home_enumeration_characterised Lite.outdir_path Demo.container
           _ _ "data" _ Hwf Hrun Hentry).
Defined.

(** In the run with [-o /root] the output directory
    [/root/gather_info_docker] is itself among the entries to copy. *)
Lemma output_directory_directly_under_home_is_listed_witness :
  Tree.wf (fs Examples.home_run) = true
  /\ Tree.lookup (fs Examples.home_run)
                 (home_path Examples.home_run ++ ["gather_info_docker"])
     = Some (Dir Examples.home_run_entries)
  /\ (forall below es',
         Tree.lookup (fs Examples.home_run)
                     (home_path Examples.home_run ++ "gather_info_docker" :: below)
         = Some (Dir es') ->
         last ("gather_info_docker" :: below) ""
         <> last (home_path Examples.home_run) "")
  /\ getHomeDirContentToSave (home_path Examples.home_run ++ ["gather_info_docker"])
                             Examples.home_run
     = Ok ["/root/.bash_history"; "/root/gather_info_docker"]
          (final_world Examples.home_run_listing)
  /\ excluded_basename (home_path Examples.home_run ++ ["gather_info_docker"])
     = last (home_path Examples.home_run) ""
  /\ In (OsPath.join (str_of_path (home_path Examples.home_run))
                     "gather_info_docker")
        ["/root/.bash_history"; "/root/gather_info_docker"].
Proof.
  assert (Hwf : Tree.wf (fs Examples.home_run) = true) by reflexivity.
  assert (Hdir : Tree.lookup (fs Examples.home_run)
                   (home_path Examples.home_run ++ ["gather_info_docker"])
                 = Some (Dir Examples.home_run_entries)) by reflexivity.
  assert (Hfree : forall below es',
             Tree.lookup (fs Examples.home_run)
               (home_path Examples.home_run ++ "gather_info_docker" :: below)
             = Some (Dir es') ->
             last ("gather_info_docker" :: below) ""
             <> last (home_path Examples.home_run) "").
  { intros below es' Hl. destruct below as [|c below'].
    - vm_compute. discriminate.
    - rewrite last_cons_cons.
      apply (isValidDirToCopy_sound (Dir Examples.home_run_entries) "root"
               eq_refl (c :: below') es'); [discriminate|exact Hl]. }
  assert (Hrun : getHomeDirContentToSave
                   (home_path Examples.home_run ++ ["gather_info_docker"])
                   Examples.home_run
                 = Ok ["/root/.bash_history"; "/root/gather_info_docker"]
                      (final_world Examples.home_run_listing))
    by (vm_compute; reflexivity).
  repeat (split; [assumption|]).
  exact (output_directory_directly_under_home_is_listed Examples.home_run
           "gather_info_docker" Examples.home_run_entries _ _
           Hwf Hdir Hfree Hrun).
Defined.

(** The full run on the container copies the three files of [/root] and
    the directory [data]. *)
Lemma saveModelSpecificArtifacts_copies_each_entry_witness :
  lite Examples.with_stderr = false
  /\ Tree.mkdirs (fs Demo.container)
                 (Os.abspath Demo.container (homedir_artifacts Lite.outdir_path))
     = Some Examples.with_artifacts_dir
  /\ Tree.lookup Examples.with_artifacts_dir (home_path Demo.container)
     = Some (Dir Examples.root_entries)
  /\ exists w',
       saveModelSpecificArtifacts sh Examples.with_stderr Lite.outdir_path
                                  Demo.container = Ok tt w'
       /\ map fst (shell_log w')
          = map fst (shell_log Demo.container)
              ++ map (fun sv_file : string =>
                        "cp -r -f -L --preserve=timestamps " +++ sv_file +++ " "
                          +++ homedir_artifacts Lite.outdir_path)
                     (home_entries_to_save
                        (str_of_path (home_path Demo.container))
                        (excluded_basename Lite.outdir_path)
                        Examples.root_entries).
Proof.
  assert (Hlite : lite Examples.with_stderr = false) by reflexivity.
  assert (Hmk : Tree.mkdirs (fs Demo.container)
                  (Os.abspath Demo.container (homedir_artifacts Lite.outdir_path))
                = Some Examples.with_artifacts_dir) by (vm_compute; reflexivity).
  assert (Hhome : Tree.lookup Examples.with_artifacts_dir (home_path Demo.container)
                  = Some (Dir Examples.root_entries)) by (vm_compute; reflexivity).
  repeat (split; [assumption|]).
  exact (saveModelSpecificArtifacts_copies_each_entry sh Examples.with_stderr
           Lite.outdir_path Demo.container Examples.with_artifacts_dir
           Examples.root_entries Hlite Hmk Hhome).
Defined.

(** On the prepared machine the report follows the earlier one. *)
Lemma savePythonInstallationInfo_appends_witness :
  clean_path Lite.outdir_path
  /\ Tree.lookup (fs Examples.prepared) Lite.outdir_path
     = Some (Dir Examples.prepared_entries)
  /\ Os.isdir_at (Lite.outdir_path ++ ["python_installation_info.txt"])
                 Examples.prepared = false
  /\ contents (Tree.lookup (fs Examples.prepared)
                 (Lite.outdir_path ++ ["python_installation_info.txt"]))
     = "an earlier report"
  /\ exists w',
       savePythonInstallationInfo Lite.outdir_path Examples.prepared = Ok tt w'
       /\ Tree.lookup (fs w') (Lite.outdir_path ++ ["python_installation_info.txt"])
          = Some (File (contents (Tree.lookup (fs Examples.prepared)
                                    (Lite.outdir_path
                                       ++ ["python_installation_info.txt"]))
                          +++ python_report Examples.prepared))
       /\ (forall other rest,
              other <> "python_installation_info.txt" ->
              Tree.lookup (fs w') (Lite.outdir_path ++ other :: rest)
              = Tree.lookup (fs Examples.prepared)
                            (Lite.outdir_path ++ other :: rest))
       /\ shell_log w' = shell_log Examples.prepared.
Proof.
  split; [exact clean_outdir|]. split; [reflexivity|]. split; [reflexivity|].
  split; [reflexivity|].
  exact (savePythonInstallationInfo_appends Lite.outdir_path Examples.prepared
           Examples.prepared_entries clean_outdir eq_refl eq_refl).
Defined.

(** On the prepared machine, where [platform] knows neither
    [linux_distribution] nor [dist], the report is written all the same. *)
Lemma saveOSVersionInfo_tolerates_failing_probes_witness :
  clean_path Lite.outdir_path
  /\ Tree.lookup (fs Examples.prepared) Lite.outdir_path
     = Some (Dir Examples.prepared_entries)
  /\ Os.isdir_at (Lite.outdir_path ++ ["platform_config_info.txt"])
                 Examples.prepared = false
  /\ os_probe_line Examples.prepared ("linux os distribution", "dist")
     = "Failed to run  dist"
  /\ exists w',
       saveOSVersionInfo Lite.outdir_path Examples.prepared = Ok tt w'
       /\ Tree.lookup (fs w') (Lite.outdir_path ++ ["platform_config_info.txt"])
          = Some (File (contents (Tree.lookup (fs Examples.prepared)
                                    (Lite.outdir_path
                                       ++ ["platform_config_info.txt"]))
                          +++ platform_report Examples.prepared))
       /\ (forall other rest,
              other <> "platform_config_info.txt" ->
              Tree.lookup (fs w') (Lite.outdir_path ++ other :: rest)
              = Tree.lookup (fs Examples.prepared)
                            (Lite.outdir_path ++ other :: rest))
       /\ shell_log w' = shell_log Examples.prepared.
Proof.
  split; [exact clean_outdir|]. split; [reflexivity|]. split; [reflexivity|].
  split; [reflexivity|].
  exact (saveOSVersionInfo_tolerates_failing_probes Lite.outdir_path
           Examples.prepared Examples.prepared_entries clean_outdir
           eq_refl eq_refl).
Defined.

(** On the container, before any run, [/tmp/snap/gather_info_docker] is
    not there. *)
Lemma saveSystemConfig_needs_output_directory_witness :
  clean_path Lite.outdir_path
  /\ Tree.lookup (fs Demo.container) Lite.outdir_path = None
  /\ exists cause w',
       saveSystemConfig sh Lite.outdir_path Demo.container
       = Raise (RuntimeError "Error in saveSystemConfig" cause) w'
       /\ fs w' = fs Demo.container
       /\ shell_log w' = shell_log Demo.container.
Proof.
  split; [exact clean_outdir|]. split; [reflexivity|].
  exact (saveSystemConfig_needs_output_directory sh Lite.outdir_path
           Demo.container clean_outdir eq_refl).
Defined.

(** The archive step on the prepared machine. *)
Lemma generateTarball_leaves_archive_beside_directory_witness :
  clean_path Lite.outdir_path
  /\ Lite.outdir_path <> []
  /\ (forall w0,
         fst (sh ("chmod -R 755 " +++ path_basename Lite.outdir_path +++ ".tar.gz")
                 w0) = fs w0)
  /\ generateTarball sh Lite.outdir_path Examples.prepared
     = Ok tt (final_world Examples.prepared_archive)
  /\ cwd (final_world Examples.prepared_archive) = parent Lite.outdir_path
  /\ exists tree,
       Tree.lookup (fs (final_world Examples.prepared_archive)) Lite.outdir_path
       = Some tree
       /\ Tree.lookup (fs (final_world Examples.prepared_archive))
                      (parent Lite.outdir_path
                         ++ [path_basename Lite.outdir_path +++ ".tar.gz"])
          = Some (File (Tree.targz (path_basename Lite.outdir_path) tree)).
Proof.
  assert (Hne : Lite.outdir_path <> []) by discriminate.
  assert (Hchmod : forall w0,
             fst (sh ("chmod -R 755 " +++ path_basename Lite.outdir_path
                        +++ ".tar.gz") w0) = fs w0)
    by (intros w0; reflexivity).
  assert (Hrun : generateTarball sh Lite.outdir_path Examples.prepared
                 = Ok tt (final_world Examples.prepared_archive))
    by (vm_compute; reflexivity).
  split; [exact clean_outdir|]. split; [exact Hne|]. split; [exact Hchmod|].
  split; [exact Hrun|].
  exact (generateTarball_leaves_archive_beside_directory sh Lite.outdir_path
           Examples.prepared (final_world Examples.prepared_archive)
           clean_outdir Hne Hchmod Hrun).
Defined.

(** On the obstructed machine a directory has the name of the archive. *)
Lemma generateTarball_refuses_existing_archive_witness :
  clean_path Lite.outdir_path
  /\ Lite.outdir_path <> []
  /\ (forall w0,
         fst (sh ("chmod -R 755 " +++ str_of_path Lite.outdir_path) w0) = fs w0)
  /\ Tree.lookup (fs Examples.obstructed)
                 (parent Lite.outdir_path
                    ++ [path_basename Lite.outdir_path +++ ".tar.gz"])
     = Some (Dir [])
  /\ exists w',
       generateTarball sh Lite.outdir_path Examples.obstructed
       = Raise (RuntimeError "Error in generateTarball"
                             (FileExistsError
                                (path_basename Lite.outdir_path +++ ".tar.gz")))
               w'
       /\ fs w' = fs Examples.obstructed.
Proof.
  assert (Hne : Lite.outdir_path <> []) by discriminate.
  assert (Hchmod : forall w0,
             fst (sh ("chmod -R 755 " +++ str_of_path Lite.outdir_path) w0)
             = fs w0)
    by (intros w0; reflexivity).
  split; [exact clean_outdir|]. split; [exact Hne|]. split; [exact Hchmod|].
  split; [reflexivity|].
  exact (generateTarball_refuses_existing_archive sh Lite.outdir_path
           Examples.obstructed (Dir []) clean_outdir Hne Hchmod eq_refl).
Defined.

(** On the prepared machine [saveSystemConfig] goes through; [dpkg] is
    installed there. *)
Lemma saveSystemConfig_returns_in_output_directory_witness :
  clean_path Lite.outdir_path
  /\ Tree.lookup (fs Examples.prepared) Lite.outdir_path
     = Some (Dir Examples.prepared_entries)
  /\ Forall (fun name =>
               Os.isdir_at (Lite.outdir_path ++ [name]) Examples.prepared = false)
            [ "python_installation_info.txt"; "platform_config_info.txt";
              "synapse_libs_info.txt" ]
  /\ exists w',
       saveSystemConfig sh Lite.outdir_path Examples.prepared = Ok tt w'
       /\ nth_error (map fst (shell_log w')) 6
          = Some ("dpkg -l | grep habanalabs >> "
                    +++ get_outdir_filename Lite.outdir_path "package_info.txt").
Proof.
  assert (Hfiles :
    Forall (fun name =>
              Os.isdir_at (Lite.outdir_path ++ [name]) Examples.prepared = false)
           [ "python_installation_info.txt"; "platform_config_info.txt";
             "synapse_libs_info.txt" ]) by (repeat constructor).
  split; [exact clean_outdir|]. split; [reflexivity|]. split; [exact Hfiles|].
  destruct (saveSystemConfig_returns_in_output_directory sh Lite.outdir_path
              Examples.prepared Examples.prepared_entries clean_outdir eq_refl
              Hfiles) as (w' & Hrun & Hlog).
  exists w'. split; [exact Hrun|]. rewrite Hlog. reflexivity.
Defined.

(** On the machine without [HOME], called from [/root], the enumeration
    looks for [/root/$HOME]. *)
Lemma home_unset_scans_literal_directory_witness :
  getenv Examples.no_home "HOME" = None
  /\ home_path Examples.no_home = cwd Examples.no_home ++ ["$HOME"]
  /\ (Tree.lookup (fs Examples.no_home) (cwd Examples.no_home ++ ["$HOME"]) = None ->
      getHomeDirContentToSave Lite.outdir_path Examples.no_home
      = Raise (FileNotFoundError
                 (str_of_path (cwd Examples.no_home ++ ["$HOME"])))
              Examples.no_home).
Proof.
  split; [reflexivity|].
  exact (home_unset_scans_literal_directory Lite.outdir_path Examples.no_home
           eq_refl).
Defined.

(** The lite run asked to copy [/tmp/missing.log]: the output directory
    and the record are made, and nothing else. *)
Lemma main_without_stdout_file_leaves_no_archive_witness :
  clean_path (cwd Demo.container)
  /\ List.length Examples.missing_stdout_argv <> 1%nat
  /\ parse_args Examples.missing_stdout_argv Demo.script Demo.container
     = Ok Demo.missing_stdout_args Demo.container
  /\ create_output_dir (outdir Demo.missing_stdout_args)
                       (clear Demo.missing_stdout_args) Demo.container
     = Ok Lite.outdir_path (final_world Examples.lite_outdir)
  /\ Lite.outdir_path <> []
  /\ Os.write_text
       (str_of_path (joinpath Lite.outdir_path (EXECCMDLINEFILE Demo.script)))
       (command_line_record Examples.missing_stdout_argv)
       (final_world Examples.lite_outdir)
     = Ok tt (final_world Examples.missing_stdout_recorded)
  /\ Os.path_exists (stdout Demo.missing_stdout_args)
                    (final_world Examples.missing_stdout_recorded) = false
  /\ exists w',
       main sh Examples.missing_stdout_argv Demo.script Demo.container
       = Raise (stdout_missing_error Demo.missing_stdout_args) w'
       /\ exit_status (main sh Examples.missing_stdout_argv Demo.script
                            Demo.container) = 1%Z
       /\ fs w' = fs (final_world Examples.missing_stdout_recorded)
       /\ shell_log w' = shell_log Demo.container
       /\ Tree.lookup (fs w') (Lite.outdir_path ++ [EXECCMDLINEFILE Demo.script])
          = Some (File (command_line_record Examples.missing_stdout_argv))
       /\ Os.path_isfile (str_of_path Lite.outdir_path +++ ".tar.gz") w' = false.
Proof.
  assert (Hcwd : clean_path (cwd Demo.container)) by exact clean_root.
  assert (Hlen : List.length Examples.missing_stdout_argv <> 1%nat) by discriminate.
  assert (Hargs : parse_args Examples.missing_stdout_argv Demo.script Demo.container
                  = Ok Demo.missing_stdout_args Demo.container) by reflexivity.
  assert (Hcreate : create_output_dir (outdir Demo.missing_stdout_args)
                                      (clear Demo.missing_stdout_args)
                                      Demo.container
                    = Ok Lite.outdir_path (final_world Examples.lite_outdir))
    by (vm_compute; reflexivity).
  assert (Hne : Lite.outdir_path <> []) by discriminate.
  assert (Hwrite : Os.write_text
                     (str_of_path (joinpath Lite.outdir_path
                                            (EXECCMDLINEFILE Demo.script)))
                     (command_line_record Examples.missing_stdout_argv)
                     (final_world Examples.lite_outdir)
                   = Ok tt (final_world Examples.missing_stdout_recorded))
    by (vm_compute; reflexivity).
  assert (Hmissing : Os.path_exists (stdout Demo.missing_stdout_args)
                       (final_world Examples.missing_stdout_recorded) = false)
    by (vm_compute; reflexivity).
  repeat (split; [assumption|]).
  exact (main_without_stdout_file_leaves_no_archive sh Examples.missing_stdout_argv
           Demo.script Demo.container Demo.missing_stdout_args Demo.container
           Lite.outdir_path (final_world Examples.lite_outdir)
           (final_world Examples.missing_stdout_recorded)
           Hcwd Hlen Hargs Hcreate Hne Hwrite Hmissing).
Defined.


(** On the machine where [tmpfile] is a directory, the lite run copies
    the stdout file and ends in its third step: [os.remove] raises, the
    step wraps that, and [run] ends there; the one command in the log is
    the copy of the stdout file. *)
Lemma step_failures_are_wrapped_and_stop_run_witness :
  Examples.obstructed_start = Ok tt (final_world Examples.obstructed_start)
  /\ exists body w',
       nth_error (step_bodies sh lite_argv Lite.args Lite.outdir_path) 2
       = Some ("saveEnvVars", body)
       /\ body (final_world Examples.obstructed_start)
          = Raise (IsADirectoryError "/tmp/snap/gather_info_docker/tmpfile") w'
       /\ saveEnvVars sh Lite.outdir_path (final_world Examples.obstructed_start)
          = Raise (RuntimeError "Error in saveEnvVars"
                     (IsADirectoryError "/tmp/snap/gather_info_docker/tmpfile")) w'
       /\ run sh lite_argv Lite.args Lite.outdir_path Examples.obstructed
          = Raise (RuntimeError "Error in saveEnvVars"
                     (IsADirectoryError "/tmp/snap/gather_info_docker/tmpfile")) w'
       /\ map fst (shell_log w')
          = ["cp -r -f -L --preserve=timestamps /tmp/run.log /tmp/snap/gather_info_docker/cmd_stdout.txt"].
Proof.
  assert (Hstart : Examples.obstructed_start
                   = Ok tt (final_world Examples.obstructed_start))
    by (vm_compute; reflexivity).
  assert (Hstep : saveEnvVars sh Lite.outdir_path
                              (final_world Examples.obstructed_start)
                  = Raise (RuntimeError "Error in saveEnvVars"
                             (IsADirectoryError "/tmp/snap/gather_info_docker/tmpfile"))
                          (final_world
                             (saveEnvVars sh Lite.outdir_path
                                          (final_world Examples.obstructed_start))))
    by (vm_compute; reflexivity).
  assert (Hlog : map fst (shell_log
                            (final_world
                               (saveEnvVars sh Lite.outdir_path
                                            (final_world Examples.obstructed_start))))
                 = ["cp -r -f -L --preserve=timestamps /tmp/run.log /tmp/snap/gather_info_docker/cmd_stdout.txt"])
    by (vm_compute; reflexivity).
  destruct (step_failures_are_wrapped_and_stop_run sh lite_argv Lite.args
                                                   Lite.outdir_path)
    as (_ & Hbodies & Hstop & _).
  destruct (Hbodies 2%nat "saveEnvVars" (saveEnvVars sh Lite.outdir_path) eq_refl)
    as (body & Hbody & _ & _ & Hinside).
  destruct (Hinside _ _ _ Hstep) as (cause & Hraise & Hcause).
  inversion Hcause; subst cause.
  split; [exact Hstart|].
  exists body, (final_world (saveEnvVars sh Lite.outdir_path
                                         (final_world Examples.obstructed_start))).
  split; [exact Hbody|]. split; [exact Hraise|]. split; [exact Hstep|].
  split; [|exact Hlog].
  exact (Hstop (firstn 2 Examples.obstructed_steps) "saveEnvVars"
               (saveEnvVars sh Lite.outdir_path)
               (skipn 3 Examples.obstructed_steps)
               Examples.obstructed (final_world Examples.obstructed_start)
               _ _ eq_refl Hstart Hstep).
Defined.

(** The statuses on the container: 1 without any argument, 2 for
    [-o /tmp/snap] without [-s], and 0 for the lite run. *)
Lemma exit_statuses_witness :
  spelled_in_full (tl ["gather_info_docker.py"])
  /\ main sh ["gather_info_docker.py"] Demo.script Demo.container
     = SysExit 1 (with_terminal Demo.container
                    (terminal Demo.container ++ [HelpText]))
  /\ spelled_in_full (tl Demo.no_stdout_argv)
  /\ (exists message,
         main sh Demo.no_stdout_argv Demo.script Demo.container
         = SysExit 2 (with_terminal Demo.container
                        (terminal Demo.container ++ [UsageError message])))
  /\ spelled_in_full (tl lite_argv)
  /\ exit_status (main sh lite_argv Demo.script Demo.container) = 0%Z.
Proof.
  assert (Hnone : spelled_in_full (tl ["gather_info_docker.py"]))
    by apply Forall_nil.
  assert (Hfull : spelled_in_full (tl Demo.no_stdout_argv)).
  { apply Forall_cons; [|apply Forall_cons; [|apply Forall_nil]].
    - intros _. right. discriminate.
    - intros H. discriminate H. }
  assert (Hlite : spelled_in_full (tl lite_argv)).
  { apply Forall_cons; [|apply Forall_cons; [|apply Forall_cons;
      [|apply Forall_cons; [|apply Forall_cons; [|apply Forall_nil]]]]].
    - intros _. right. discriminate.
    - intros H. discriminate H.
    - intros _. right. discriminate.
    - intros H. discriminate H.
    - intros _. right. discriminate. }
  split; [exact Hnone|]. split.
  { destruct (exit_statuses sh ["gather_info_docker.py"] Demo.script
                            Demo.container Hnone) as (Hhelp & _).
    exact (Hhelp eq_refl). }
  split; [exact Hfull|]. split.
  { destruct (exit_statuses sh Demo.no_stdout_argv Demo.script
                            Demo.container Hfull) as (_ & _ & Hrequired & _).
    apply Hrequired.
    - discriminate.
    - simpl. intros [H|[H|[]]]; discriminate.
    - simpl. intros [H|[H|[]]]; discriminate.
    - simpl. intros [H|[H|[]]]; discriminate.
    - simpl. intros [H|[H|[]]]; discriminate. }
  split; [exact Hlite|].
  destruct (exit_statuses sh lite_argv Demo.script Demo.container Hlite)
    as (_ & _ & _ & _ & Hrun).
  assert (Hlen : List.length lite_argv <> 1%nat) by discriminate.
  assert (Hargs : parse_args lite_argv Demo.script Demo.container
                  = Ok Lite.args Demo.container) by reflexivity.
  assert (Hcreate : create_output_dir (outdir Lite.args) (clear Lite.args)
                                      Demo.container
                    = Ok Lite.outdir_path (final_world Examples.lite_outdir))
    by (vm_compute; reflexivity).
  assert (Hwrite : Os.write_text
                     (str_of_path (joinpath Lite.outdir_path
                                            (EXECCMDLINEFILE Demo.script)))
                     ("Command executed as: python3 "
                        +++ Str.join " " lite_argv +++ Str.nl)
                     (final_world Examples.lite_outdir)
                   = Ok tt (final_world Examples.lite_recorded))
    by (vm_compute; reflexivity).
  assert (Hdone : Examples.lite_collected
                  = Ok tt (final_world Examples.lite_collected))
    by (vm_compute; reflexivity).
  destruct (Hrun Lite.args Lite.outdir_path Demo.container
                 (final_world Examples.lite_outdir)
                 (final_world Examples.lite_recorded)
                 Examples.lite_collected Hlen Hargs Hcreate Hwrite eq_refl)
    as (_ & Hzero & _).
  exact (Hzero _ Hdone).
Defined.

(** ** Where the specification and the script part *)

(** C1 as stated fails: after the lite run, which exits with status 0,
    neither [/tmp/snap/cmd_stdout.txt] nor [/tmp/snap/env_vars.txt] nor
    [/tmp/snap.tar.gz] exists; the files and the archive are one level
    down, under [/tmp/snap/gather_info_docker]. *)
Lemma lite_run_misses_requested_locations :
  exit_status Demo.lite_run = 0%Z
  /\ Os.path_exists "/tmp/snap/cmd_stdout.txt" (final_world Demo.lite_run) = false
  /\ Os.path_exists "/tmp/snap/env_vars.txt" (final_world Demo.lite_run) = false
  /\ Os.path_exists "/tmp/snap/habana_logs" (final_world Demo.lite_run) = false
  /\ Os.path_exists "/tmp/snap.tar.gz" (final_world Demo.lite_run) = false
  /\ Os.path_isfile "/tmp/snap/gather_info_docker/cmd_stdout.txt"
                    (final_world Demo.lite_run) = true
  /\ Os.path_isfile "/tmp/snap/gather_info_docker.tar.gz"
                    (final_world Demo.lite_run) = true.
Proof. vm_compute. repeat split. Qed.

(** C2 as stated fails: in the lite run on the container the copy of the
    vendor logs ends with status 1 and [hl-smi] with status 127, yet the
    steps they belong to return and the run goes on to its last command and
    ends normally. *)
Lemma failed_commands_go_unnoticed :
  nth_error (shell_log (final_world Demo.lite_run)) 2
  = Some ("cp -r -f -L --preserve=timestamps None/* /tmp/snap/gather_info_docker/habana_logs",
          1%Z)
  /\ nth_error (shell_log (final_world Demo.lite_run)) 9
     = Some ("hl-smi -q > /tmp/snap/gather_info_docker/machine_hlsmi.txt", 127%Z)
  /\ nth_error (shell_log (final_world Demo.lite_run)) 22
     = Some ("chmod -R 755 gather_info_docker.tar.gz", 0%Z)
  /\ Demo.lite_run = Ok tt (final_world Demo.lite_run)
  /\ exit_status Demo.lite_run = 0%Z.
Proof. vm_compute. repeat split. Qed.

(** C3 as stated fails: after the lite run the output directory has no
    [docker_container_homedir_and_model_artifacts] in it. *)
Lemma lite_run_makes_no_home_artifacts_directory :
  lite Lite.args = true
  /\ exit_status Demo.lite_run = 0%Z
  /\ Os.path_isdir "/tmp/snap/gather_info_docker" (final_world Demo.lite_run) = true
  /\ Os.path_exists
       "/tmp/snap/gather_info_docker/docker_container_homedir_and_model_artifacts"
       (final_world Demo.lite_run) = false.
Proof. vm_compute. repeat split. Qed.


(** C9 as stated fails: without [-s] the process ends with status 2, after
    the usage error of [argparse]. *)
Lemma missing_stdout_flag_exits_with_status_2 :
  exit_status Demo.no_stdout_run = 2%Z
  /\ exit_status Demo.no_stdout_run <> 1%Z
  /\ terminal (final_world Demo.no_stdout_run)
     = [UsageError "the following arguments are required: -s/--stdout"].
Proof. vm_compute. repeat split. discriminate. Qed.
